(** * CV-maker Telegram bot: a shallow embedding of [bot.py]

    The development follows the source top-down:

    - [Py]: the Python string and [dict] operations the handlers use;
    - the session dictionary, the process memory of [CVBot] (the session
      table, the session objects it points to and the username cache);
    - the outside world (Firestore orders and candidates, the Telegram
      directory, the log of calls) and a small program monad in which every
      handler of [CVBot] is written once and then run either to completion or
      coroutine-style, suspended at each [await];
    - the handlers themselves, in the order of the source;
    - the properties of the specification. *)

From Stdlib Require Import ZArith Lia Bool Ascii.
From stdpp Require Import base tactics option list strings pretty.

Set Default Proof Using "Type".
Local Open Scope Z_scope.

(** ** Python strings and dictionaries *)

Module Py.

(** Text is modelled as a [string] of bytes: the UTF-8 encoding of the
    Python [str].  The methods of [str] that depend on the characters
    ([lower], [strip], slicing) decode the bytes to code points, work on
    those as CPython does and encode the result; [split], [startswith] and
    [replace], which only compare, work on the bytes.  Bytes that are not
    UTF-8 stand for no Python text; they are kept as they are (decoded to
    the code point [0xDC00 + byte], as the [surrogateescape] handler does). *)
Definition byte (c : ascii) : Z := Z.of_N (N_of_ascii c).

Definition chr (z : Z) : ascii := ascii_of_N (Z.to_N z).

Definition continuation (c : ascii) : bool := (128 <=? byte c) && (byte c <=? 191).

Fixpoint decode (s : string) : list Z :=
  match s with
  | EmptyString => []
  | String c1 s1 =>
      let b1 := byte c1 in
      if b1 <? 128 then b1 :: decode s1
      else
        match s1 with
        | String c2 s2 =>
            let b2 := byte c2 in
            if continuation c2 then
              if (194 <=? b1) && (b1 <=? 223)
              then ((b1 - 192) * 64 + (b2 - 128)) :: decode s2
              else
                match s2 with
                | String c3 s3 =>
                    let b3 := byte c3 in
                    if continuation c3 then
                      if (224 <=? b1) && (b1 <=? 239)
                         && negb ((b1 =? 224) && (b2 <? 160))
                         && negb ((b1 =? 237) && (160 <=? b2))
                      then ((b1 - 224) * 4096 + (b2 - 128) * 64 + (b3 - 128)) :: decode s3
                      else
                        match s3 with
                        | String c4 s4 =>
                            if continuation c4
                               && (240 <=? b1) && (b1 <=? 244)
                               && negb ((b1 =? 240) && (b2 <? 144))
                               && negb ((b1 =? 244) && (144 <=? b2))
                            then ((b1 - 240) * 262144 + (b2 - 128) * 4096
                                  + (b3 - 128) * 64 + (byte c4 - 128)) :: decode s4
                            else (56320 + b1) :: decode s1
                        | EmptyString => (56320 + b1) :: decode s1
                        end
                    else (56320 + b1) :: decode s1
                | EmptyString => (56320 + b1) :: decode s1
                end
            else (56320 + b1) :: decode s1
        | EmptyString => [56320 + b1]
        end
  end.

Definition encode_point (z : Z) : list ascii :=
  if (56448 <=? z) && (z <=? 56575) then [chr (z - 56320)]
  else if z <? 128 then [chr z]
  else if z <? 2048 then [chr (192 + z / 64); chr (128 + z mod 64)]
  else if z <? 65536
  then [chr (224 + z / 4096); chr (128 + (z / 64) mod 64); chr (128 + z mod 64)]
  else [chr (240 + z / 262144); chr (128 + (z / 4096) mod 64);
        chr (128 + (z / 64) mod 64); chr (128 + z mod 64)].

Definition encode (l : list Z) : string :=
  fold_right (λ z s, fold_right String s (encode_point z)) EmptyString l.

(** The simple lower-case mappings of the Unicode data of CPython 3.11
    (Unicode 14.0): the code points [first], [first + step], ..., [last] map
    to themselves plus [delta]. *)
Definition lower_runs : list (Z * Z * Z * Z) :=
  [
   (65, 90, 1, 32); (192, 214, 1, 32); (216, 222, 1, 32); (256, 302, 2, 1);
   (306, 310, 2, 1); (313, 327, 2, 1); (330, 374, 2, 1); (376, 376, 1, (-121));
   (377, 381, 2, 1); (385, 385, 1, 210); (386, 388, 2, 1); (390, 390, 1, 206);
   (391, 391, 1, 1); (393, 394, 1, 205); (395, 395, 1, 1); (398, 398, 1, 79);
   (399, 399, 1, 202); (400, 400, 1, 203); (401, 401, 1, 1); (403, 403, 1, 205);
   (404, 404, 1, 207); (406, 406, 1, 211); (407, 407, 1, 209); (408, 408, 1, 1);
   (412, 412, 1, 211); (413, 413, 1, 213); (415, 415, 1, 214); (416, 420, 2, 1);
   (422, 422, 1, 218); (423, 423, 1, 1); (425, 425, 1, 218); (428, 428, 1, 1);
   (430, 430, 1, 218); (431, 431, 1, 1); (433, 434, 1, 217); (435, 437, 2, 1);
   (439, 439, 1, 219); (440, 440, 1, 1); (444, 444, 1, 1); (452, 452, 1, 2);
   (453, 453, 1, 1); (455, 455, 1, 2); (456, 456, 1, 1); (458, 458, 1, 2);
   (459, 475, 2, 1); (478, 494, 2, 1); (497, 497, 1, 2); (498, 500, 2, 1);
   (502, 502, 1, (-97)); (503, 503, 1, (-56)); (504, 542, 2, 1); (544, 544, 1, (-130));
   (546, 562, 2, 1); (570, 570, 1, 10795); (571, 571, 1, 1); (573, 573, 1, (-163));
   (574, 574, 1, 10792); (577, 577, 1, 1); (579, 579, 1, (-195)); (580, 580, 1, 69);
   (581, 581, 1, 71); (582, 590, 2, 1); (880, 882, 2, 1); (886, 886, 1, 1);
   (895, 895, 1, 116); (902, 902, 1, 38); (904, 906, 1, 37); (908, 908, 1, 64);
   (910, 911, 1, 63); (913, 929, 1, 32); (931, 939, 1, 32); (975, 975, 1, 8);
   (984, 1006, 2, 1); (1012, 1012, 1, (-60)); (1015, 1015, 1, 1); (1017, 1017, 1, (-7));
   (1018, 1018, 1, 1); (1021, 1023, 1, (-130)); (1024, 1039, 1, 80); (1040, 1071, 1, 32);
   (1120, 1152, 2, 1); (1162, 1214, 2, 1); (1216, 1216, 1, 15); (1217, 1229, 2, 1);
   (1232, 1326, 2, 1); (1329, 1366, 1, 48); (4256, 4293, 1, 7264); (4295, 4295, 1, 7264);
   (4301, 4301, 1, 7264); (5024, 5103, 1, 38864); (5104, 5109, 1, 8); (7312, 7354, 1, (-3008));
   (7357, 7359, 1, (-3008)); (7680, 7828, 2, 1); (7838, 7838, 1, (-7615)); (7840, 7934, 2, 1);
   (7944, 7951, 1, (-8)); (7960, 7965, 1, (-8)); (7976, 7983, 1, (-8)); (7992, 7999, 1, (-8));
   (8008, 8013, 1, (-8)); (8025, 8031, 2, (-8)); (8040, 8047, 1, (-8)); (8072, 8079, 1, (-8));
   (8088, 8095, 1, (-8)); (8104, 8111, 1, (-8)); (8120, 8121, 1, (-8)); (8122, 8123, 1, (-74));
   (8124, 8124, 1, (-9)); (8136, 8139, 1, (-86)); (8140, 8140, 1, (-9)); (8152, 8153, 1, (-8));
   (8154, 8155, 1, (-100)); (8168, 8169, 1, (-8)); (8170, 8171, 1, (-112)); (8172, 8172, 1, (-7));
   (8184, 8185, 1, (-128)); (8186, 8187, 1, (-126)); (8188, 8188, 1, (-9)); (8486, 8486, 1, (-7517));
   (8490, 8490, 1, (-8383)); (8491, 8491, 1, (-8262)); (8498, 8498, 1, 28); (8544, 8559, 1, 16);
   (8579, 8579, 1, 1); (9398, 9423, 1, 26); (11264, 11311, 1, 48); (11360, 11360, 1, 1);
   (11362, 11362, 1, (-10743)); (11363, 11363, 1, (-3814)); (11364, 11364, 1, (-10727)); (11367, 11371, 2, 1);
   (11373, 11373, 1, (-10780)); (11374, 11374, 1, (-10749)); (11375, 11375, 1, (-10783)); (11376, 11376, 1, (-10782));
   (11378, 11378, 1, 1); (11381, 11381, 1, 1); (11390, 11391, 1, (-10815)); (11392, 11490, 2, 1);
   (11499, 11501, 2, 1); (11506, 11506, 1, 1); (42560, 42604, 2, 1); (42624, 42650, 2, 1);
   (42786, 42798, 2, 1); (42802, 42862, 2, 1); (42873, 42875, 2, 1); (42877, 42877, 1, (-35332));
   (42878, 42886, 2, 1); (42891, 42891, 1, 1); (42893, 42893, 1, (-42280)); (42896, 42898, 2, 1);
   (42902, 42920, 2, 1); (42922, 42922, 1, (-42308)); (42923, 42923, 1, (-42319)); (42924, 42924, 1, (-42315));
   (42925, 42925, 1, (-42305)); (42926, 42926, 1, (-42308)); (42928, 42928, 1, (-42258)); (42929, 42929, 1, (-42282));
   (42930, 42930, 1, (-42261)); (42931, 42931, 1, 928); (42932, 42946, 2, 1); (42948, 42948, 1, (-48));
   (42949, 42949, 1, (-42307)); (42950, 42950, 1, (-35384)); (42951, 42953, 2, 1); (42960, 42960, 1, 1);
   (42966, 42968, 2, 1); (42997, 42997, 1, 1); (65313, 65338, 1, 32); (66560, 66599, 1, 40);
   (66736, 66771, 1, 40); (66928, 66938, 1, 39); (66940, 66954, 1, 39); (66956, 66962, 1, 39);
   (66964, 66965, 1, 39); (68736, 68786, 1, 64); (71840, 71871, 1, 32); (93760, 93791, 1, 32);
   (125184, 125217, 1, 34)
  ].

(** The code points with the property [Case_Ignorable], as ranges. *)
Definition case_ignorable_ranges : list (Z * Z) :=
  [
   (39, 39); (46, 46); (58, 58); (94, 94); (96, 96); (168, 168);
   (173, 173); (175, 175); (180, 180); (183, 184); (688, 879); (884, 885);
   (890, 890); (900, 901); (903, 903); (1155, 1161); (1369, 1369); (1375, 1375);
   (1425, 1469); (1471, 1471); (1473, 1474); (1476, 1477); (1479, 1479); (1524, 1524);
   (1536, 1541); (1552, 1562); (1564, 1564); (1600, 1600); (1611, 1631); (1648, 1648);
   (1750, 1757); (1759, 1768); (1770, 1773); (1807, 1807); (1809, 1809); (1840, 1866);
   (1958, 1968); (2027, 2037); (2042, 2042); (2045, 2045); (2070, 2093); (2137, 2139);
   (2184, 2184); (2192, 2193); (2200, 2207); (2249, 2306); (2362, 2362); (2364, 2364);
   (2369, 2376); (2381, 2381); (2385, 2391); (2402, 2403); (2417, 2417); (2433, 2433);
   (2492, 2492); (2497, 2500); (2509, 2509); (2530, 2531); (2558, 2558); (2561, 2562);
   (2620, 2620); (2625, 2626); (2631, 2632); (2635, 2637); (2641, 2641); (2672, 2673);
   (2677, 2677); (2689, 2690); (2748, 2748); (2753, 2757); (2759, 2760); (2765, 2765);
   (2786, 2787); (2810, 2815); (2817, 2817); (2876, 2876); (2879, 2879); (2881, 2884);
   (2893, 2893); (2901, 2902); (2914, 2915); (2946, 2946); (3008, 3008); (3021, 3021);
   (3072, 3072); (3076, 3076); (3132, 3132); (3134, 3136); (3142, 3144); (3146, 3149);
   (3157, 3158); (3170, 3171); (3201, 3201); (3260, 3260); (3263, 3263); (3270, 3270);
   (3276, 3277); (3298, 3299); (3328, 3329); (3387, 3388); (3393, 3396); (3405, 3405);
   (3426, 3427); (3457, 3457); (3530, 3530); (3538, 3540); (3542, 3542); (3633, 3633);
   (3636, 3642); (3654, 3662); (3761, 3761); (3764, 3772); (3782, 3782); (3784, 3789);
   (3864, 3865); (3893, 3893); (3895, 3895); (3897, 3897); (3953, 3966); (3968, 3972);
   (3974, 3975); (3981, 3991); (3993, 4028); (4038, 4038); (4141, 4144); (4146, 4151);
   (4153, 4154); (4157, 4158); (4184, 4185); (4190, 4192); (4209, 4212); (4226, 4226);
   (4229, 4230); (4237, 4237); (4253, 4253); (4348, 4348); (4957, 4959); (5906, 5908);
   (5938, 5939); (5970, 5971); (6002, 6003); (6068, 6069); (6071, 6077); (6086, 6086);
   (6089, 6099); (6103, 6103); (6109, 6109); (6155, 6159); (6211, 6211); (6277, 6278);
   (6313, 6313); (6432, 6434); (6439, 6440); (6450, 6450); (6457, 6459); (6679, 6680);
   (6683, 6683); (6742, 6742); (6744, 6750); (6752, 6752); (6754, 6754); (6757, 6764);
   (6771, 6780); (6783, 6783); (6823, 6823); (6832, 6862); (6912, 6915); (6964, 6964);
   (6966, 6970); (6972, 6972); (6978, 6978); (7019, 7027); (7040, 7041); (7074, 7077);
   (7080, 7081); (7083, 7085); (7142, 7142); (7144, 7145); (7149, 7149); (7151, 7153);
   (7212, 7219); (7222, 7223); (7288, 7293); (7376, 7378); (7380, 7392); (7394, 7400);
   (7405, 7405); (7412, 7412); (7416, 7417); (7468, 7530); (7544, 7544); (7579, 7679);
   (8125, 8125); (8127, 8129); (8141, 8143); (8157, 8159); (8173, 8175); (8189, 8190);
   (8203, 8207); (8216, 8217); (8228, 8228); (8231, 8231); (8234, 8238); (8288, 8292);
   (8294, 8303); (8305, 8305); (8319, 8319); (8336, 8348); (8400, 8432); (11388, 11389);
   (11503, 11505); (11631, 11631); (11647, 11647); (11744, 11775); (11823, 11823); (12293, 12293);
   (12330, 12333); (12337, 12341); (12347, 12347); (12441, 12446); (12540, 12542); (40981, 40981);
   (42232, 42237); (42508, 42508); (42607, 42610); (42612, 42621); (42623, 42623); (42652, 42655);
   (42736, 42737); (42752, 42785); (42864, 42864); (42888, 42890); (42994, 42996); (43000, 43001);
   (43010, 43010); (43014, 43014); (43019, 43019); (43045, 43046); (43052, 43052); (43204, 43205);
   (43232, 43249); (43263, 43263); (43302, 43309); (43335, 43345); (43392, 43394); (43443, 43443);
   (43446, 43449); (43452, 43453); (43471, 43471); (43493, 43494); (43561, 43566); (43569, 43570);
   (43573, 43574); (43587, 43587); (43596, 43596); (43632, 43632); (43644, 43644); (43696, 43696);
   (43698, 43700); (43703, 43704); (43710, 43711); (43713, 43713); (43741, 43741); (43756, 43757);
   (43763, 43764); (43766, 43766); (43867, 43871); (43881, 43883); (44005, 44005); (44008, 44008);
   (44013, 44013); (64286, 64286); (64434, 64450); (65024, 65039); (65043, 65043); (65056, 65071);
   (65106, 65106); (65109, 65109); (65279, 65279); (65287, 65287); (65294, 65294); (65306, 65306);
   (65342, 65342); (65344, 65344); (65392, 65392); (65438, 65439); (65507, 65507); (65529, 65531);
   (66045, 66045); (66272, 66272); (66422, 66426); (67456, 67461); (67463, 67504); (67506, 67514);
   (68097, 68099); (68101, 68102); (68108, 68111); (68152, 68154); (68159, 68159); (68325, 68326);
   (68900, 68903); (69291, 69292); (69446, 69456); (69506, 69509); (69633, 69633); (69688, 69702);
   (69744, 69744); (69747, 69748); (69759, 69761); (69811, 69814); (69817, 69818); (69821, 69821);
   (69826, 69826); (69837, 69837); (69888, 69890); (69927, 69931); (69933, 69940); (70003, 70003);
   (70016, 70017); (70070, 70078); (70089, 70092); (70095, 70095); (70191, 70193); (70196, 70196);
   (70198, 70199); (70206, 70206); (70367, 70367); (70371, 70378); (70400, 70401); (70459, 70460);
   (70464, 70464); (70502, 70508); (70512, 70516); (70712, 70719); (70722, 70724); (70726, 70726);
   (70750, 70750); (70835, 70840); (70842, 70842); (70847, 70848); (70850, 70851); (71090, 71093);
   (71100, 71101); (71103, 71104); (71132, 71133); (71219, 71226); (71229, 71229); (71231, 71232);
   (71339, 71339); (71341, 71341); (71344, 71349); (71351, 71351); (71453, 71455); (71458, 71461);
   (71463, 71467); (71727, 71735); (71737, 71738); (71995, 71996); (71998, 71998); (72003, 72003);
   (72148, 72151); (72154, 72155); (72160, 72160); (72193, 72202); (72243, 72248); (72251, 72254);
   (72263, 72263); (72273, 72278); (72281, 72283); (72330, 72342); (72344, 72345); (72752, 72758);
   (72760, 72765); (72767, 72767); (72850, 72871); (72874, 72880); (72882, 72883); (72885, 72886);
   (73009, 73014); (73018, 73018); (73020, 73021); (73023, 73029); (73031, 73031); (73104, 73105);
   (73109, 73109); (73111, 73111); (73459, 73460); (78896, 78904); (92912, 92916); (92976, 92982);
   (92992, 92995); (94031, 94031); (94095, 94111); (94176, 94177); (94179, 94180); (110576, 110579);
   (110581, 110587); (110589, 110590); (113821, 113822); (113824, 113827); (118528, 118573); (118576, 118598);
   (119143, 119145); (119155, 119170); (119173, 119179); (119210, 119213); (119362, 119364); (121344, 121398);
   (121403, 121452); (121461, 121461); (121476, 121476); (121499, 121503); (121505, 121519); (122880, 122886);
   (122888, 122904); (122907, 122913); (122915, 122916); (122918, 122922); (123184, 123197); (123566, 123566);
   (123628, 123631); (125136, 125142); (125252, 125259); (127995, 127999); (917505, 917505); (917536, 917631);
   (917760, 917999)
  ].

(** The code points with the property [Cased] that are not case-ignorable
    (the test for [Cased] is only made on those). *)
Definition cased_ranges : list (Z * Z) :=
  [
   (65, 90); (97, 122); (170, 170); (181, 181); (186, 186); (192, 214);
   (216, 246); (248, 442); (444, 447); (452, 659); (661, 687); (880, 883);
   (886, 887); (891, 893); (895, 895); (902, 902); (904, 906); (908, 908);
   (910, 929); (931, 1013); (1015, 1153); (1162, 1327); (1329, 1366); (1376, 1416);
   (4256, 4293); (4295, 4295); (4301, 4301); (4304, 4346); (4349, 4351); (5024, 5109);
   (5112, 5117); (7296, 7304); (7312, 7354); (7357, 7359); (7424, 7467); (7531, 7543);
   (7545, 7578); (7680, 7957); (7960, 7965); (7968, 8005); (8008, 8013); (8016, 8023);
   (8025, 8025); (8027, 8027); (8029, 8029); (8031, 8061); (8064, 8116); (8118, 8124);
   (8126, 8126); (8130, 8132); (8134, 8140); (8144, 8147); (8150, 8155); (8160, 8172);
   (8178, 8180); (8182, 8188); (8450, 8450); (8455, 8455); (8458, 8467); (8469, 8469);
   (8473, 8477); (8484, 8484); (8486, 8486); (8488, 8488); (8490, 8493); (8495, 8500);
   (8505, 8505); (8508, 8511); (8517, 8521); (8526, 8526); (8544, 8575); (8579, 8580);
   (9398, 9449); (11264, 11387); (11390, 11492); (11499, 11502); (11506, 11507); (11520, 11557);
   (11559, 11559); (11565, 11565); (42560, 42605); (42624, 42651); (42786, 42863); (42865, 42887);
   (42891, 42894); (42896, 42954); (42960, 42961); (42963, 42963); (42965, 42969); (42997, 42998);
   (43002, 43002); (43824, 43866); (43872, 43880); (43888, 43967); (64256, 64262); (64275, 64279);
   (65313, 65338); (65345, 65370); (66560, 66639); (66736, 66771); (66776, 66811); (66928, 66938);
   (66940, 66954); (66956, 66962); (66964, 66965); (66967, 66977); (66979, 66993); (66995, 67001);
   (67003, 67004); (68736, 68786); (68800, 68850); (71840, 71903); (93760, 93823); (119808, 119892);
   (119894, 119964); (119966, 119967); (119970, 119970); (119973, 119974); (119977, 119980); (119982, 119993);
   (119995, 119995); (119997, 120003); (120005, 120069); (120071, 120074); (120077, 120084); (120086, 120092);
   (120094, 120121); (120123, 120126); (120128, 120132); (120134, 120134); (120138, 120144); (120146, 120485);
   (120488, 120512); (120514, 120538); (120540, 120570); (120572, 120596); (120598, 120628); (120630, 120654);
   (120656, 120686); (120688, 120712); (120714, 120744); (120746, 120770); (120772, 120779); (122624, 122633);
   (122635, 122654); (125184, 125251); (127280, 127305); (127312, 127337); (127344, 127369)
  ].

(** The code points for which [str.isspace] holds. *)
Definition spaces : list Z :=
  [9; 10; 11; 12; 13; 28; 29; 30; 31; 32; 133; 160; 5760; 8192; 8193; 8194; 8195; 8196; 8197; 8198; 8199; 8200; 8201; 8202; 8232; 8233; 8239; 8287; 12288].

Definition in_run (c : Z) (r : Z * Z * Z * Z) : bool :=
  let '(first, last, step, _) := r in
  (first <=? c) && (c <=? last) && ((c - first) mod step =? 0).

Definition in_range (c : Z) (r : Z * Z) : bool := (r.1 <=? c) && (c <=? r.2).

Definition case_ignorable (c : Z) : bool := existsb (in_range c) case_ignorable_ranges.

Definition cased (c : Z) : bool := existsb (in_range c) cased_ranges.

Definition is_space (c : Z) : bool := existsb (Z.eqb c) spaces.

(** The full lower-case mapping of one code point: [U+0130] is the only one
    that maps to two. *)
Definition lower_point (c : Z) : list Z :=
  if c =? 304 then [105; 775]
  else match List.find (in_run c) lower_runs with
       | Some (_, _, _, delta) => [c + delta]
       | None => [c]
       end.

(** The first code point of [l] that is not case-ignorable is cased. *)
Fixpoint cased_next (l : list Z) : bool :=
  match l with
  | [] => false
  | c :: l' => if case_ignorable c then cased_next l' else cased c
  end.

(** [str.lower]: every code point is mapped by [lower_point], except the
    capital sigma [U+03A3], which becomes the final sigma [U+03C2] when a cased
    letter precedes it and none follows (case-ignorable code points apart)
    and the small sigma [U+03C3] otherwise.  [before] holds the code points
    already read, the last one first. *)
Fixpoint lower_points (before l : list Z) : list Z :=
  match l with
  | [] => []
  | c :: l' =>
      (if c =? 931
       then [if cased_next before && negb (cased_next l') then 962 else 963]
       else lower_point c)
      ++ lower_points (c :: before) l'
  end.

Definition lower (s : string) : string := encode (lower_points [] (decode s)).

Fixpoint lstrip_points (l : list Z) : list Z :=
  match l with
  | [] => []
  | c :: l' => if is_space c then lstrip_points l' else l
  end.

Definition rstrip_points (l : list Z) : list Z := rev (lstrip_points (rev l)).

(** [s.strip()] *)
Definition strip (s : string) : string := encode (rstrip_points (lstrip_points (decode s))).

Definition startswith (s p : string) : bool := String.prefix p s.

(** [s[n:]] *)
Definition drop (n : nat) (s : string) : string := encode (skipn n (decode s)).

(** [s.replace(c, '')] for a one-character [c]. *)
Fixpoint remove_char (c : ascii) (s : string) : string :=
  match s with
  | EmptyString => EmptyString
  | String d s' => if Ascii.eqb c d then remove_char c s' else String d (remove_char c s')
  end.

Fixpoint rev_acc (acc : list ascii) (s : string) : string :=
  match acc with
  | [] => s
  | c :: acc' => rev_acc acc' (String c s)
  end.

(** [s.split(sep, maxsplit)] for a non-empty [sep]; [maxsplit = None] is the
    unbounded split.  [skip] counts the characters of a separator that was
    just recognised and still has to be jumped over, [cur] is the piece
    being read, reversed. *)
Fixpoint split_aux (sep : string) (budget : option nat) (skip : nat)
    (cur : list ascii) (s : string) : list string :=
  match s with
  | EmptyString => [rev_acc cur EmptyString]
  | String c s' =>
      match skip with
      | S n => split_aux sep budget n cur s'
      | O =>
          let cut := match budget with Some O => false | _ => String.prefix sep s end in
          if cut
          then rev_acc cur EmptyString ::
               match String.length sep with
               | S (S n) => split_aux sep (pred <$> budget) (S n) [] s'
               | _ => split_aux sep (pred <$> budget) O [] s'
               end
          else split_aux sep budget O (c :: cur) s'
      end
  end.

Definition split (sep : string) (maxsplit : option nat) (s : string) : list string :=
  split_aux sep maxsplit O [] s.

(** Python [dict]: insertion-ordered, assignment to an existing key keeps its
    position, assignment to a new key appends. *)
Definition dict (V : Type) : Type := list (string * V).

Section Dict.
Context {V : Type}.

Fixpoint get (k : string) (d : dict V) : option V :=
  match d with
  | [] => None
  | (k', v) :: d' => if String.eqb k k' then Some v else get k d'
  end.

Definition mem (k : string) (d : dict V) : bool :=
  match get k d with Some _ => true | None => false end.

Fixpoint set (k : string) (v : V) (d : dict V) : dict V :=
  match d with
  | [] => [(k, v)]
  | (k', v') :: d' =>
      if String.eqb k k' then (k, v) :: d' else (k', v') :: set k v d'
  end.

Fixpoint del (k : string) (d : dict V) : dict V :=
  match d with
  | [] => []
  | (k', v') :: d' =>
      if String.eqb k k' then del k d' else (k', v') :: del k d'
  end.
End Dict.

End Py.

(** ** The session dictionary

    A session is the [dict] built by [get_user_session].  Its keys are a fixed
    set of literals, so it is a record; a key that the code adds later, tests
    with [in] or removes with [del] is an [option] field ([None]: key absent).
    [current_field] is always present and holds a string or Python's [None]. *)

(** A field value of a profile or of a sub-item: a string or Python's [None]. *)
Inductive pyval : Type :=
| PyNone
| PyStr (s : string).

(** A sub-item ([current_education], an element of [session['education']], ...). *)
Definition item : Type := Py.dict pyval.

Record Session : Type := {
  language : string;
  candidate_data : Py.dict pyval;
  careerObjectives : list item;
  skills : list item;
  education : list item;
  languages : list item;
  workExperiences : list item;
  certificationsAwards : list item;
  otherActivities : list item;
  projects : list item;
  current_field : option string;
  current_work_experience : item;
  current_education : item;
  current_skill : item;
  current_certification : item;
  current_project : item;
  current_language : item;
  chat_id : option Z;
  order_id : option string;
  notified : option bool;
  menu_message_id : option Z;
  summary_message_id : option Z;
  saving_message_id : option Z;
  from_main_flow : option bool
}.

(** [session[key] = v], one definition per key. *)
Definition set_language (v : string) (s : Session) : Session :=
  {| language := v; candidate_data := candidate_data s; careerObjectives := careerObjectives s;
     skills := skills s; education := education s; languages := languages s;
     workExperiences := workExperiences s; certificationsAwards := certificationsAwards s;
     otherActivities := otherActivities s; projects := projects s;
     current_field := current_field s; current_work_experience := current_work_experience s;
     current_education := current_education s; current_skill := current_skill s;
     current_certification := current_certification s; current_project := current_project s;
     current_language := current_language s; chat_id := chat_id s; order_id := order_id s;
     notified := notified s; menu_message_id := menu_message_id s;
     summary_message_id := summary_message_id s; saving_message_id := saving_message_id s;
     from_main_flow := from_main_flow s |}.

Definition set_candidate_data (v : Py.dict pyval) (s : Session) : Session :=
  {| language := language s; candidate_data := v; careerObjectives := careerObjectives s;
     skills := skills s; education := education s; languages := languages s;
     workExperiences := workExperiences s; certificationsAwards := certificationsAwards s;
     otherActivities := otherActivities s; projects := projects s;
     current_field := current_field s; current_work_experience := current_work_experience s;
     current_education := current_education s; current_skill := current_skill s;
     current_certification := current_certification s; current_project := current_project s;
     current_language := current_language s; chat_id := chat_id s; order_id := order_id s;
     notified := notified s; menu_message_id := menu_message_id s;
     summary_message_id := summary_message_id s; saving_message_id := saving_message_id s;
     from_main_flow := from_main_flow s |}.

Definition set_careerObjectives (v : list item) (s : Session) : Session :=
  {| language := language s; candidate_data := candidate_data s; careerObjectives := v;
     skills := skills s; education := education s; languages := languages s;
     workExperiences := workExperiences s; certificationsAwards := certificationsAwards s;
     otherActivities := otherActivities s; projects := projects s;
     current_field := current_field s; current_work_experience := current_work_experience s;
     current_education := current_education s; current_skill := current_skill s;
     current_certification := current_certification s; current_project := current_project s;
     current_language := current_language s; chat_id := chat_id s; order_id := order_id s;
     notified := notified s; menu_message_id := menu_message_id s;
     summary_message_id := summary_message_id s; saving_message_id := saving_message_id s;
     from_main_flow := from_main_flow s |}.

Definition set_skills (v : list item) (s : Session) : Session :=
  {| language := language s; candidate_data := candidate_data s;
     careerObjectives := careerObjectives s; skills := v; education := education s;
     languages := languages s; workExperiences := workExperiences s;
     certificationsAwards := certificationsAwards s; otherActivities := otherActivities s;
     projects := projects s; current_field := current_field s;
     current_work_experience := current_work_experience s;
     current_education := current_education s; current_skill := current_skill s;
     current_certification := current_certification s; current_project := current_project s;
     current_language := current_language s; chat_id := chat_id s; order_id := order_id s;
     notified := notified s; menu_message_id := menu_message_id s;
     summary_message_id := summary_message_id s; saving_message_id := saving_message_id s;
     from_main_flow := from_main_flow s |}.

Definition set_education (v : list item) (s : Session) : Session :=
  {| language := language s; candidate_data := candidate_data s;
     careerObjectives := careerObjectives s; skills := skills s; education := v;
     languages := languages s; workExperiences := workExperiences s;
     certificationsAwards := certificationsAwards s; otherActivities := otherActivities s;
     projects := projects s; current_field := current_field s;
     current_work_experience := current_work_experience s;
     current_education := current_education s; current_skill := current_skill s;
     current_certification := current_certification s; current_project := current_project s;
     current_language := current_language s; chat_id := chat_id s; order_id := order_id s;
     notified := notified s; menu_message_id := menu_message_id s;
     summary_message_id := summary_message_id s; saving_message_id := saving_message_id s;
     from_main_flow := from_main_flow s |}.

Definition set_languages (v : list item) (s : Session) : Session :=
  {| language := language s; candidate_data := candidate_data s;
     careerObjectives := careerObjectives s; skills := skills s; education := education s;
     languages := v; workExperiences := workExperiences s;
     certificationsAwards := certificationsAwards s; otherActivities := otherActivities s;
     projects := projects s; current_field := current_field s;
     current_work_experience := current_work_experience s;
     current_education := current_education s; current_skill := current_skill s;
     current_certification := current_certification s; current_project := current_project s;
     current_language := current_language s; chat_id := chat_id s; order_id := order_id s;
     notified := notified s; menu_message_id := menu_message_id s;
     summary_message_id := summary_message_id s; saving_message_id := saving_message_id s;
     from_main_flow := from_main_flow s |}.

Definition set_workExperiences (v : list item) (s : Session) : Session :=
  {| language := language s; candidate_data := candidate_data s;
     careerObjectives := careerObjectives s; skills := skills s; education := education s;
     languages := languages s; workExperiences := v;
     certificationsAwards := certificationsAwards s; otherActivities := otherActivities s;
     projects := projects s; current_field := current_field s;
     current_work_experience := current_work_experience s;
     current_education := current_education s; current_skill := current_skill s;
     current_certification := current_certification s; current_project := current_project s;
     current_language := current_language s; chat_id := chat_id s; order_id := order_id s;
     notified := notified s; menu_message_id := menu_message_id s;
     summary_message_id := summary_message_id s; saving_message_id := saving_message_id s;
     from_main_flow := from_main_flow s |}.

Definition set_certificationsAwards (v : list item) (s : Session) : Session :=
  {| language := language s; candidate_data := candidate_data s;
     careerObjectives := careerObjectives s; skills := skills s; education := education s;
     languages := languages s; workExperiences := workExperiences s; certificationsAwards := v;
     otherActivities := otherActivities s; projects := projects s;
     current_field := current_field s; current_work_experience := current_work_experience s;
     current_education := current_education s; current_skill := current_skill s;
     current_certification := current_certification s; current_project := current_project s;
     current_language := current_language s; chat_id := chat_id s; order_id := order_id s;
     notified := notified s; menu_message_id := menu_message_id s;
     summary_message_id := summary_message_id s; saving_message_id := saving_message_id s;
     from_main_flow := from_main_flow s |}.

Definition set_otherActivities (v : list item) (s : Session) : Session :=
  {| language := language s; candidate_data := candidate_data s;
     careerObjectives := careerObjectives s; skills := skills s; education := education s;
     languages := languages s; workExperiences := workExperiences s;
     certificationsAwards := certificationsAwards s; otherActivities := v;
     projects := projects s; current_field := current_field s;
     current_work_experience := current_work_experience s;
     current_education := current_education s; current_skill := current_skill s;
     current_certification := current_certification s; current_project := current_project s;
     current_language := current_language s; chat_id := chat_id s; order_id := order_id s;
     notified := notified s; menu_message_id := menu_message_id s;
     summary_message_id := summary_message_id s; saving_message_id := saving_message_id s;
     from_main_flow := from_main_flow s |}.

Definition set_projects (v : list item) (s : Session) : Session :=
  {| language := language s; candidate_data := candidate_data s;
     careerObjectives := careerObjectives s; skills := skills s; education := education s;
     languages := languages s; workExperiences := workExperiences s;
     certificationsAwards := certificationsAwards s; otherActivities := otherActivities s;
     projects := v; current_field := current_field s;
     current_work_experience := current_work_experience s;
     current_education := current_education s; current_skill := current_skill s;
     current_certification := current_certification s; current_project := current_project s;
     current_language := current_language s; chat_id := chat_id s; order_id := order_id s;
     notified := notified s; menu_message_id := menu_message_id s;
     summary_message_id := summary_message_id s; saving_message_id := saving_message_id s;
     from_main_flow := from_main_flow s |}.

Definition set_current_field (v : option string) (s : Session) : Session :=
  {| language := language s; candidate_data := candidate_data s;
     careerObjectives := careerObjectives s; skills := skills s; education := education s;
     languages := languages s; workExperiences := workExperiences s;
     certificationsAwards := certificationsAwards s; otherActivities := otherActivities s;
     projects := projects s; current_field := v;
     current_work_experience := current_work_experience s;
     current_education := current_education s; current_skill := current_skill s;
     current_certification := current_certification s; current_project := current_project s;
     current_language := current_language s; chat_id := chat_id s; order_id := order_id s;
     notified := notified s; menu_message_id := menu_message_id s;
     summary_message_id := summary_message_id s; saving_message_id := saving_message_id s;
     from_main_flow := from_main_flow s |}.

Definition set_current_work_experience (v : item) (s : Session) : Session :=
  {| language := language s; candidate_data := candidate_data s;
     careerObjectives := careerObjectives s; skills := skills s; education := education s;
     languages := languages s; workExperiences := workExperiences s;
     certificationsAwards := certificationsAwards s; otherActivities := otherActivities s;
     projects := projects s; current_field := current_field s; current_work_experience := v;
     current_education := current_education s; current_skill := current_skill s;
     current_certification := current_certification s; current_project := current_project s;
     current_language := current_language s; chat_id := chat_id s; order_id := order_id s;
     notified := notified s; menu_message_id := menu_message_id s;
     summary_message_id := summary_message_id s; saving_message_id := saving_message_id s;
     from_main_flow := from_main_flow s |}.

Definition set_current_education (v : item) (s : Session) : Session :=
  {| language := language s; candidate_data := candidate_data s;
     careerObjectives := careerObjectives s; skills := skills s; education := education s;
     languages := languages s; workExperiences := workExperiences s;
     certificationsAwards := certificationsAwards s; otherActivities := otherActivities s;
     projects := projects s; current_field := current_field s;
     current_work_experience := current_work_experience s; current_education := v;
     current_skill := current_skill s; current_certification := current_certification s;
     current_project := current_project s; current_language := current_language s;
     chat_id := chat_id s; order_id := order_id s; notified := notified s;
     menu_message_id := menu_message_id s; summary_message_id := summary_message_id s;
     saving_message_id := saving_message_id s; from_main_flow := from_main_flow s |}.

Definition set_current_skill (v : item) (s : Session) : Session :=
  {| language := language s; candidate_data := candidate_data s;
     careerObjectives := careerObjectives s; skills := skills s; education := education s;
     languages := languages s; workExperiences := workExperiences s;
     certificationsAwards := certificationsAwards s; otherActivities := otherActivities s;
     projects := projects s; current_field := current_field s;
     current_work_experience := current_work_experience s;
     current_education := current_education s; current_skill := v;
     current_certification := current_certification s; current_project := current_project s;
     current_language := current_language s; chat_id := chat_id s; order_id := order_id s;
     notified := notified s; menu_message_id := menu_message_id s;
     summary_message_id := summary_message_id s; saving_message_id := saving_message_id s;
     from_main_flow := from_main_flow s |}.

Definition set_current_certification (v : item) (s : Session) : Session :=
  {| language := language s; candidate_data := candidate_data s;
     careerObjectives := careerObjectives s; skills := skills s; education := education s;
     languages := languages s; workExperiences := workExperiences s;
     certificationsAwards := certificationsAwards s; otherActivities := otherActivities s;
     projects := projects s; current_field := current_field s;
     current_work_experience := current_work_experience s;
     current_education := current_education s; current_skill := current_skill s;
     current_certification := v; current_project := current_project s;
     current_language := current_language s; chat_id := chat_id s; order_id := order_id s;
     notified := notified s; menu_message_id := menu_message_id s;
     summary_message_id := summary_message_id s; saving_message_id := saving_message_id s;
     from_main_flow := from_main_flow s |}.

Definition set_current_project (v : item) (s : Session) : Session :=
  {| language := language s; candidate_data := candidate_data s;
     careerObjectives := careerObjectives s; skills := skills s; education := education s;
     languages := languages s; workExperiences := workExperiences s;
     certificationsAwards := certificationsAwards s; otherActivities := otherActivities s;
     projects := projects s; current_field := current_field s;
     current_work_experience := current_work_experience s;
     current_education := current_education s; current_skill := current_skill s;
     current_certification := current_certification s; current_project := v;
     current_language := current_language s; chat_id := chat_id s; order_id := order_id s;
     notified := notified s; menu_message_id := menu_message_id s;
     summary_message_id := summary_message_id s; saving_message_id := saving_message_id s;
     from_main_flow := from_main_flow s |}.

Definition set_current_language (v : item) (s : Session) : Session :=
  {| language := language s; candidate_data := candidate_data s;
     careerObjectives := careerObjectives s; skills := skills s; education := education s;
     languages := languages s; workExperiences := workExperiences s;
     certificationsAwards := certificationsAwards s; otherActivities := otherActivities s;
     projects := projects s; current_field := current_field s;
     current_work_experience := current_work_experience s;
     current_education := current_education s; current_skill := current_skill s;
     current_certification := current_certification s; current_project := current_project s;
     current_language := v; chat_id := chat_id s; order_id := order_id s;
     notified := notified s; menu_message_id := menu_message_id s;
     summary_message_id := summary_message_id s; saving_message_id := saving_message_id s;
     from_main_flow := from_main_flow s |}.

Definition set_chat_id (v : option Z) (s : Session) : Session :=
  {| language := language s; candidate_data := candidate_data s;
     careerObjectives := careerObjectives s; skills := skills s; education := education s;
     languages := languages s; workExperiences := workExperiences s;
     certificationsAwards := certificationsAwards s; otherActivities := otherActivities s;
     projects := projects s; current_field := current_field s;
     current_work_experience := current_work_experience s;
     current_education := current_education s; current_skill := current_skill s;
     current_certification := current_certification s; current_project := current_project s;
     current_language := current_language s; chat_id := v; order_id := order_id s;
     notified := notified s; menu_message_id := menu_message_id s;
     summary_message_id := summary_message_id s; saving_message_id := saving_message_id s;
     from_main_flow := from_main_flow s |}.

Definition set_order_id (v : option string) (s : Session) : Session :=
  {| language := language s; candidate_data := candidate_data s;
     careerObjectives := careerObjectives s; skills := skills s; education := education s;
     languages := languages s; workExperiences := workExperiences s;
     certificationsAwards := certificationsAwards s; otherActivities := otherActivities s;
     projects := projects s; current_field := current_field s;
     current_work_experience := current_work_experience s;
     current_education := current_education s; current_skill := current_skill s;
     current_certification := current_certification s; current_project := current_project s;
     current_language := current_language s; chat_id := chat_id s; order_id := v;
     notified := notified s; menu_message_id := menu_message_id s;
     summary_message_id := summary_message_id s; saving_message_id := saving_message_id s;
     from_main_flow := from_main_flow s |}.

Definition set_notified (v : option bool) (s : Session) : Session :=
  {| language := language s; candidate_data := candidate_data s;
     careerObjectives := careerObjectives s; skills := skills s; education := education s;
     languages := languages s; workExperiences := workExperiences s;
     certificationsAwards := certificationsAwards s; otherActivities := otherActivities s;
     projects := projects s; current_field := current_field s;
     current_work_experience := current_work_experience s;
     current_education := current_education s; current_skill := current_skill s;
     current_certification := current_certification s; current_project := current_project s;
     current_language := current_language s; chat_id := chat_id s; order_id := order_id s;
     notified := v; menu_message_id := menu_message_id s;
     summary_message_id := summary_message_id s; saving_message_id := saving_message_id s;
     from_main_flow := from_main_flow s |}.

Definition set_menu_message_id (v : option Z) (s : Session) : Session :=
  {| language := language s; candidate_data := candidate_data s;
     careerObjectives := careerObjectives s; skills := skills s; education := education s;
     languages := languages s; workExperiences := workExperiences s;
     certificationsAwards := certificationsAwards s; otherActivities := otherActivities s;
     projects := projects s; current_field := current_field s;
     current_work_experience := current_work_experience s;
     current_education := current_education s; current_skill := current_skill s;
     current_certification := current_certification s; current_project := current_project s;
     current_language := current_language s; chat_id := chat_id s; order_id := order_id s;
     notified := notified s; menu_message_id := v; summary_message_id := summary_message_id s;
     saving_message_id := saving_message_id s; from_main_flow := from_main_flow s |}.

Definition set_summary_message_id (v : option Z) (s : Session) : Session :=
  {| language := language s; candidate_data := candidate_data s;
     careerObjectives := careerObjectives s; skills := skills s; education := education s;
     languages := languages s; workExperiences := workExperiences s;
     certificationsAwards := certificationsAwards s; otherActivities := otherActivities s;
     projects := projects s; current_field := current_field s;
     current_work_experience := current_work_experience s;
     current_education := current_education s; current_skill := current_skill s;
     current_certification := current_certification s; current_project := current_project s;
     current_language := current_language s; chat_id := chat_id s; order_id := order_id s;
     notified := notified s; menu_message_id := menu_message_id s; summary_message_id := v;
     saving_message_id := saving_message_id s; from_main_flow := from_main_flow s |}.

Definition set_saving_message_id (v : option Z) (s : Session) : Session :=
  {| language := language s; candidate_data := candidate_data s;
     careerObjectives := careerObjectives s; skills := skills s; education := education s;
     languages := languages s; workExperiences := workExperiences s;
     certificationsAwards := certificationsAwards s; otherActivities := otherActivities s;
     projects := projects s; current_field := current_field s;
     current_work_experience := current_work_experience s;
     current_education := current_education s; current_skill := current_skill s;
     current_certification := current_certification s; current_project := current_project s;
     current_language := current_language s; chat_id := chat_id s; order_id := order_id s;
     notified := notified s; menu_message_id := menu_message_id s;
     summary_message_id := summary_message_id s; saving_message_id := v;
     from_main_flow := from_main_flow s |}.

Definition set_from_main_flow (v : option bool) (s : Session) : Session :=
  {| language := language s; candidate_data := candidate_data s;
     careerObjectives := careerObjectives s; skills := skills s; education := education s;
     languages := languages s; workExperiences := workExperiences s;
     certificationsAwards := certificationsAwards s; otherActivities := otherActivities s;
     projects := projects s; current_field := current_field s;
     current_work_experience := current_work_experience s;
     current_education := current_education s; current_skill := current_skill s;
     current_certification := current_certification s; current_project := current_project s;
     current_language := current_language s; chat_id := chat_id s; order_id := order_id s;
     notified := notified s; menu_message_id := menu_message_id s;
     summary_message_id := summary_message_id s; saving_message_id := saving_message_id s;
     from_main_flow := v |}.

(** [session.get('notified', False)] *)
Definition get_notified (s : Session) : bool := default false (notified s).

(** The literal of [get_user_session]. *)
Definition new_session : Session :=
  {| language := "en";
     candidate_data := [("availability", PyStr "To be specified")];
     careerObjectives := []; skills := []; education := []; languages := [];
     workExperiences := []; certificationsAwards := []; otherActivities := [];
     projects := [];
     current_field := None;
     current_work_experience := []; current_education := []; current_skill := [];
     current_certification := []; current_project := []; current_language := [];
     chat_id := None; order_id := None; notified := None;
     menu_message_id := None; summary_message_id := None; saving_message_id := None;
     from_main_flow := None |}.

(** The literal that the [edit_no] branches store: the language and the chat
    are kept, the wizard restarts at the first name. *)
Definition restarted_session (s : Session) : Session :=
  set_current_field (Some "firstName")
    (set_chat_id (chat_id s) (set_language (language s) new_session)).

#[global] Instance Session_inhabited : Inhabited Session := populate new_session.

(** ** The process memory of [CVBot]

    [user_sessions] maps a Telegram id to a session object; the objects live
    in [heap] and are named by their index, so that a handler holding
    [session] keeps the same object when the table entry is replaced or
    removed under it. *)
Definition loc : Type := nat.

(** Module-level configuration read from the process environment. *)
Record Config : Type := {
  private_channel_id : Z;
  tutorial_video_file_id : option string;
  tutorial_video_caption : string;
  sample_cv_file_ids : list string;
  sample_cv_captions : list string
}.

Record Bot : Type := {
  config : Config;
  user_sessions : Py.dict loc;
  heap : list Session;
  user_cache : Py.dict Z
}.

Definition set_user_sessions (t : Py.dict loc) (b : Bot) : Bot :=
  {| config := config b; user_sessions := t; heap := heap b; user_cache := user_cache b |}.

Definition set_heap (h : list Session) (b : Bot) : Bot :=
  {| config := config b; user_sessions := user_sessions b; heap := h;
     user_cache := user_cache b |}.

Definition set_user_cache (c : Py.dict Z) (b : Bot) : Bot :=
  {| config := config b; user_sessions := user_sessions b; heap := heap b;
     user_cache := c |}.

(** [CVBot.__init__] *)
Definition init_bot (c : Config) : Bot :=
  {| config := c; user_sessions := []; heap := []; user_cache := [] |}.

(** Allocation of a fresh session object. *)
Definition alloc (s : Session) (b : Bot) : loc * Bot :=
  (length (heap b), set_heap (heap b ++ [s]) b).

(** Reading and updating the object behind a reference. *)
Definition deref (l : loc) (b : Bot) : Session := heap b !!! l.

Definition update (l : loc) (f : Session → Session) (b : Bot) : Bot :=
  set_heap (alter f l (heap b)) b.

(** [get_user_session]: the entry of [user_id], created on first use. *)
Definition get_user_session (user_id : string) (b : Bot) : loc * Bot :=
  match Py.get user_id (user_sessions b) with
  | Some l => (l, b)
  | None =>
      let '(l, b') := alloc new_session b in
      (l, set_user_sessions (Py.set user_id l (user_sessions b')) b')
  end.

(** ** Telegram and Firestore values *)

Record User : Type := {
  user_ident : Z;
  username : option string;
  first_name : option string;
  last_name : option string
}.

Record File : Type := {
  file_id : string;
  file_size : Z;
  file_path : string
}.

Record Document : Type := {
  document_file : File;
  mime_type : string;
  file_name : option string
}.

Inductive ChatType : Type := private | group | supergroup | channel.

Record Chat : Type := {
  chat_ident : Z;
  chat_type : ChatType
}.

Record ChatMember : Type := {
  member_user : User
}.

Inductive OrderStatus : Type :=
| awaiting_payment
| pending_verification
| verified
| rejected.

#[global] Instance OrderStatus_eq_dec : EqDecision OrderStatus.
Proof. solve_decision. Defined.

Record Order : Type := {
  order_ident : string;
  candidateId : string;
  telegramUserId : string;
  status : OrderStatus;
  statusDetails : option string;
  paymentVerified : bool;
  paymentScreenshotUrl : option string;
  createdAt : Z
}.

Definition is_terminal (st : OrderStatus) : bool :=
  match st with
  | verified | rejected => true
  | _ => false
  end.

Record Candidate : Type := {
  uid : string;
  candidate_telegram_id : string;
  candidate_fields : Py.dict pyval
}.

(** A document of a sub-collection of a candidate. *)
Record SubDoc : Type := {
  sub_owner : string;
  sub_collection : string;
  sub_item : item
}.

(** ** Outbound texts

    [PROMPTS] lives in [translations], which is not part of the sources at
    hand: a prompt is kept symbolic, as the pair of its language and key. *)
Inductive text : Type :=
| Prompt (lang key : string)
| PromptReason (lang key reason : string)
| Str (s : string)
| Summary (s : Session).

Definition get_prompt (s : Session) (key : string) : text := Prompt (language s) key.

(** Exceptions, all of them subclasses of [Exception]. *)
Inductive exn : Type :=
| ValueError
| IndexError
| KeyError
| BadRequest
| NetworkError
| InvalidTransition
| StoreError
| TypeError.

#[global] Instance exn_eq_dec : EqDecision exn.
Proof. solve_decision. Defined.

(** ** Calls that leave the process

    The Telegram calls are the [await] points of the handlers; the Firestore
    calls are synchronous. *)
Inductive media : Type := photo | document | video.

Inductive request : Type :=
| answer_query
| reply_text (t : text) (buttons : list string)
| edit_message_text (t : text) (buttons : list string)
| edit_message_caption (caption : text)
| send_message (chat : Z) (t : text) (buttons : list string)
| delete_message (chat : Z) (message_id : Z)
| send_media (kind : media) (chat : Z) (file : string) (caption : text) (buttons : list string)
| get_file (f : File)
| get_chat (name : string)
| get_chat_administrators (chat : Z)
| get_chat_member (chat : Z) (name : string)
| sleep (seconds : nat)
| uuid4
| now
| Order_get_by_id (order : string)
| Order_approve_payment (o : Order)
| Order_reject_payment (o : Order) (reason : string)
| Order_save (o : Order)
| Order_rejected_of (telegram_id : string)
| Candidate_get_by_telegram_user_id (telegram_id : string)
| Candidate_save (c : Candidate)
| get_complete_profile (candidate : string)
| clear_collection (candidate : string) (collection : string)
| save_item (collection : string) (it : item).

Definition answer (r : request) : Type :=
  match r with
  | reply_text _ _ | edit_message_text _ _ | send_message _ _ _ => Z
  | get_file _ => File
  | get_chat _ => Chat
  | get_chat_administrators _ => list ChatMember
  | get_chat_member _ _ => ChatMember
  | uuid4 => string
  | now => Z
  | Order_get_by_id _ => option Order
  | Order_approve_payment _ | Order_reject_payment _ _ => Order
  | Order_rejected_of _ => list Order
  | Candidate_get_by_telegram_user_id _ => option Candidate
  | get_complete_profile _ => list SubDoc
  | _ => unit
  end.

Definition is_await (r : request) : bool :=
  match r with
  | answer_query | reply_text _ _ | edit_message_text _ _ | edit_message_caption _
  | send_message _ _ _ | delete_message _ _ | send_media _ _ _ _ _ | get_file _
  | get_chat _ | get_chat_administrators _ | get_chat_member _ _ | sleep _ => true
  | _ => false
  end.

(** [asyncio.sleep], [uuid.uuid4] and the clock stay inside the process: they
    are listed with the calls because the first is an [await] point and the
    others are not functions of the process memory, but neither the transport
    nor the store can fail them. *)
Definition is_local (r : request) : bool :=
  match r with
  | sleep _ | uuid4 | now => true
  | _ => false
  end.

(** One entry of the log of calls: the request and the exception it raised,
    if any. *)
Definition event : Type := request * option exn.

(** ** The outside world

    The Firestore collections, the Telegram directory that the resolver
    queries, the counters behind fresh message ids and uuids, and the log of
    every call made so far. *)
Record Env : Type := {
  orders : Py.dict Order;
  candidates : list Candidate;
  subdocs : list SubDoc;
  chats : Py.dict Chat;
  administrators : list ChatMember;
  members : Py.dict ChatMember;
  next_message_id : Z;
  uuid_count : nat;
  clock : Z;
  log : list event;
  (** the n-th value of [uuid.uuid4()] *)
  uuid_gen : nat → string;
  (** the transport and the store may fail any call: given the calls made so
      far and the call at hand, the exception to raise, if any *)
  faults : list event → request → option exn
}.

Definition set_orders (v : Py.dict Order) (e : Env) : Env :=
  {| orders := v; candidates := candidates e; subdocs := subdocs e; chats := chats e;
     administrators := administrators e; members := members e;
     next_message_id := next_message_id e; uuid_count := uuid_count e; clock := clock e;
     log := log e; uuid_gen := uuid_gen e; faults := faults e |}.

Definition set_candidates (v : list Candidate) (e : Env) : Env :=
  {| orders := orders e; candidates := v; subdocs := subdocs e; chats := chats e;
     administrators := administrators e; members := members e;
     next_message_id := next_message_id e; uuid_count := uuid_count e; clock := clock e;
     log := log e; uuid_gen := uuid_gen e; faults := faults e |}.

Definition set_subdocs (v : list SubDoc) (e : Env) : Env :=
  {| orders := orders e; candidates := candidates e; subdocs := v; chats := chats e;
     administrators := administrators e; members := members e;
     next_message_id := next_message_id e; uuid_count := uuid_count e; clock := clock e;
     log := log e; uuid_gen := uuid_gen e; faults := faults e |}.

Definition set_next_message_id (v : Z) (e : Env) : Env :=
  {| orders := orders e; candidates := candidates e; subdocs := subdocs e; chats := chats e;
     administrators := administrators e; members := members e; next_message_id := v;
     uuid_count := uuid_count e; clock := clock e; log := log e; uuid_gen := uuid_gen e;
     faults := faults e |}.

Definition set_uuid_count (v : nat) (e : Env) : Env :=
  {| orders := orders e; candidates := candidates e; subdocs := subdocs e; chats := chats e;
     administrators := administrators e; members := members e;
     next_message_id := next_message_id e; uuid_count := v; clock := clock e; log := log e;
     uuid_gen := uuid_gen e; faults := faults e |}.

Definition set_clock (v : Z) (e : Env) : Env :=
  {| orders := orders e; candidates := candidates e; subdocs := subdocs e; chats := chats e;
     administrators := administrators e; members := members e;
     next_message_id := next_message_id e; uuid_count := uuid_count e; clock := v;
     log := log e; uuid_gen := uuid_gen e; faults := faults e |}.

Definition set_log (v : list event) (e : Env) : Env :=
  {| orders := orders e; candidates := candidates e; subdocs := subdocs e; chats := chats e;
     administrators := administrators e; members := members e;
     next_message_id := next_message_id e; uuid_count := uuid_count e; clock := clock e;
     log := v; uuid_gen := uuid_gen e; faults := faults e |}.

Record World : Type := {
  bot : Bot;
  env : Env
}.

(** ** Order transitions *)

Definition with_status (st : OrderStatus) (details : option string) (paid : bool)
    (o : Order) : Order :=
  {| order_ident := order_ident o; candidateId := candidateId o;
     telegramUserId := telegramUserId o; status := st; statusDetails := details;
     paymentVerified := paid; paymentScreenshotUrl := paymentScreenshotUrl o;
     createdAt := createdAt o |}.

Definition set_paymentScreenshotUrl (url : option string) (o : Order) : Order :=
  {| order_ident := order_ident o; candidateId := candidateId o;
     telegramUserId := telegramUserId o; status := status o;
     statusDetails := statusDetails o; paymentVerified := paymentVerified o;
     paymentScreenshotUrl := url; createdAt := createdAt o |}.

(** Modelled from the spec: [Order.approve_payment] of [mainapp.models], which
    is not among the sources.  The status becomes [verified]; the call fails
    with [InvalidTransition] if the order is not currently
    [pending_verification]. *)
Definition approve_payment (o : Order) : exn + Order :=
  match status o with
  | pending_verification => inr (with_status verified None true o)
  | _ => inl InvalidTransition
  end.

(** Modelled from the spec: [Order.reject_payment] of [mainapp.models].  The
    status becomes [rejected] with the reason; the call fails with
    [InvalidTransition] on an order already in a terminal state. *)
Definition reject_payment (reason : string) (o : Order) : exn + Order :=
  if is_terminal (status o) then inl InvalidTransition
  else inr (with_status rejected (Some reason) false o).

(** Modelled from the spec: [Order.update_status] of [mainapp.models], the
    plain setter that [handle_payment_screenshot] uses before [save]. *)
Definition update_status (st : OrderStatus) (details : string) (o : Order) : Order :=
  with_status st (Some details) (paymentVerified o) o.

(** Modelled from the spec: [Candidate.save]; a candidate is stored under its
    [uid]. *)
Fixpoint save_candidate (c : Candidate) (l : list Candidate) : list Candidate :=
  match l with
  | [] => [c]
  | c' :: l' => if String.eqb (uid c) (uid c') then c :: l' else c' :: save_candidate c l'
  end.

Definition find_candidate (telegram_id : string) (l : list Candidate) : option Candidate :=
  List.find (λ c, String.eqb (candidate_telegram_id c) telegram_id) l.

(** The effect and the result of a call that the transport or the store did
    not fail. *)
Definition sent (e : Env) : (exn + Z) * Env :=
  (inr (next_message_id e), set_next_message_id (next_message_id e + 1) e).

Definition exec (r : request) (e : Env) : (exn + answer r) * Env :=
  match r return (exn + answer r) * Env with
  | answer_query => (inr tt, e)
  | reply_text _ _ => sent e
  | edit_message_text _ _ => sent e
  | edit_message_caption _ => (inr tt, e)
  | send_message _ _ _ => sent e
  | delete_message _ _ => (inr tt, e)
  | send_media _ _ _ _ _ => (inr tt, e)
  | get_file f => (inr f, e)
  | get_chat name =>
      (match Py.get name (chats e) with Some c => inr c | None => inl BadRequest end, e)
  | get_chat_administrators _ => (inr (administrators e), e)
  | get_chat_member _ name =>
      (match Py.get name (members e) with Some m => inr m | None => inl BadRequest end, e)
  | sleep _ => (inr tt, e)
  | uuid4 => (inr (uuid_gen e (uuid_count e)), set_uuid_count (S (uuid_count e)) e)
  | now => (inr (clock e), set_clock (clock e + 1) e)
  | Order_get_by_id i => (inr (Py.get i (orders e)), e)
  | Order_approve_payment o =>
      match approve_payment o with
      | inr o' => (inr o', set_orders (Py.set (order_ident o') o' (orders e)) e)
      | inl x => (inl x, e)
      end
  | Order_reject_payment o reason =>
      match reject_payment reason o with
      | inr o' => (inr o', set_orders (Py.set (order_ident o') o' (orders e)) e)
      | inl x => (inl x, e)
      end
  | Order_save o => (inr tt, set_orders (Py.set (order_ident o) o (orders e)) e)
  | Order_rejected_of t =>
      (inr (filter (λ o, telegramUserId o = t ∧ status o = rejected) (orders e).*2), e)
  | Candidate_get_by_telegram_user_id t => (inr (find_candidate t (candidates e)), e)
  | Candidate_save c => (inr tt, set_candidates (save_candidate c (candidates e)) e)
  | get_complete_profile c =>
      (inr (filter (λ d, sub_owner d = c) (subdocs e)), e)
  | clear_collection c n =>
      (inr tt, set_subdocs
                 (filter (λ d, ¬ (sub_owner d = c ∧ sub_collection d = n)) (subdocs e)) e)
  | save_item n it =>
      (inr tt, set_subdocs
                 (subdocs e ++ [{| sub_owner := default "" (match Py.get "candidate_uid" it with
                                                | Some (PyStr u) => Some u | _ => None end);
                                   sub_collection := n; sub_item := it |}]) e)
  end.

(** A call: the environment may fail it, otherwise it takes effect; either
    way it is logged. *)
Definition perform (r : request) (e : Env) : (exn + answer r) * Env :=
  match (if is_local r then None else faults e (log e) r) with
  | Some x => (inl x, set_log (log e ++ [(r, Some x)]) e)
  | None =>
      let '(a, e') := exec r e in
      (a, set_log (log e ++ [(r, match a with inl x => Some x | inr _ => None end)]) e')
  end.

(** ** Handler programs

    A handler is a tree of steps on the process memory ([Act]) and of calls
    that leave the process ([Call]); a call hands its continuation either the
    result or the exception raised.  [try_except] is Python's
    [try: ... except ...:]. *)
Inductive prog (A : Type) : Type :=
| Ret (a : A)
| Raise (x : exn)
| Act {X : Type} (f : Bot → X * Bot) (k : X → prog A)
| Call (r : request) (k : exn + answer r → prog A).

Arguments Ret {A} a.
Arguments Raise {A} x.
Arguments Act {A X} f k.
Arguments Call {A} r k.

Fixpoint bind {A B : Type} (p : prog A) (f : A → prog B) : prog B :=
  match p with
  | Ret a => f a
  | Raise x => Raise x
  | Act g k => Act g (λ y, bind (k y) f)
  | Call r k => Call r (λ y, bind (k y) f)
  end.

#[global] Instance prog_ret : MRet prog := @Ret.
#[global] Instance prog_bind : MBind prog := λ A B f p, bind p f.

Fixpoint try_except {A : Type} (p : prog A) (catches : exn → bool) (h : exn → prog A)
    : prog A :=
  match p with
  | Ret a => Ret a
  | Raise x => if catches x then h x else Raise x
  | Act g k => Act g (λ y, try_except (k y) catches h)
  | Call r k => Call r (λ y, try_except (k y) catches h)
  end.

(** [except Exception] *)
Definition Exception (x : exn) : bool := true.

Definition is_exn (x y : exn) : bool := bool_decide (x = y).

(** [await f(...)], or a synchronous store call *)
Definition call (r : request) : prog (answer r) :=
  Call r (λ a, match a with inl x => Raise x | inr v => Ret v end).

Definition act {X : Type} (f : Bot → X * Bot) : prog X := Act f Ret.

Definition session_of (user_id : string) : prog loc := act (get_user_session user_id).

Definition read (l : loc) : prog Session := act (λ b, (deref l b, b)).

Definition modify (l : loc) (f : Session → Session) : prog unit :=
  act (λ b, (tt, update l f b)).

Definition global {X : Type} (f : Config → X) : prog X := act (λ b, (f (config b), b)).

(** [for x in l: body x] *)
Fixpoint for_each {X : Type} (l : list X) (body : X → prog unit) : prog unit :=
  match l with
  | [] => Ret tt
  | x :: l' => body x;; for_each l' body
  end.

Definition when (c : bool) (p : prog unit) : prog unit := if c then p else Ret tt.

(** *** Running a program to completion *)
Inductive outcome (A : Type) : Type :=
| Returned (a : A)
| Raised (x : exn).

Arguments Returned {A} a.
Arguments Raised {A} x.

Fixpoint run {A : Type} (p : prog A) (w : World) : outcome A * World :=
  match p with
  | Ret a => (Returned a, w)
  | Raise x => (Raised x, w)
  | Act f k => let '(y, b) := f (bot w) in run (k y) {| bot := b; env := env w |}
  | Call r k => let '(a, e) := perform r (env w) in run (k a) {| bot := bot w; env := e |}
  end.

(** *** Running it as a coroutine

    [advance] runs a program up to its next [await]; the call it is waiting
    for is performed when the task is resumed. *)
Inductive task (A : Type) : Type :=
| Done (o : outcome A)
| Waiting (r : request) (k : exn + answer r → prog A).

Arguments Done {A} o.
Arguments Waiting {A} r k.

Fixpoint advance {A : Type} (p : prog A) (w : World) : task A * World :=
  match p with
  | Ret a => (Done (Returned a), w)
  | Raise x => (Done (Raised x), w)
  | Act f k => let '(y, b) := f (bot w) in advance (k y) {| bot := b; env := env w |}
  | Call r k =>
      if is_await r then (Waiting r k, w)
      else let '(a, e) := perform r (env w) in advance (k a) {| bot := bot w; env := e |}
  end.

Definition resume {A : Type} (t : task A) (w : World) : task A * World :=
  match t with
  | Done o => (Done o, w)
  | Waiting r k =>
      let '(a, e) := perform r (env w) in advance (k a) {| bot := bot w; env := e |}
  end.

(** The event loop: a pool of tasks, of which the scheduler resumes one at a
    time.  [schedule], a list of task indices, is one interleaving. *)
Definition pool : Type := list (task unit).

Definition spawn (p : prog unit) (ts : pool) (w : World) : pool * World :=
  let '(t, w') := advance p w in (ts ++ [t], w').

Definition step (i : nat) (ts : pool) (w : World) : pool * World :=
  match ts !! i with
  | Some t => let '(t', w') := resume t w in (<[i := t']> ts, w')
  | None => (ts, w)
  end.

Fixpoint interleave (schedule : list nat) (ts : pool) (w : World) : pool * World :=
  match schedule with
  | [] => (ts, w)
  | i :: rest => let '(ts', w') := step i ts w in interleave rest ts' w'
  end.

(** ** Updates *)

Record Message : Type := {
  from : User;
  chat_ident_of : Z;
  text_of : option string;
  photos : list File;
  doc : option Document;
  vid : option File;
  (** [reply_to_message]: absent, or present with its caption *)
  reply_to_message : option (option string)
}.

Record CallbackQuery : Type := {
  from_user : User;
  message_chat_id : Z;
  data : string;
  message_caption : option string
}.

(** Conversation states, in the order of their declaration. *)
Inductive state : Type :=
| SELECT_LANGUAGE
| START
| COLLECT_PERSONAL_INFO
| COLLECT_CONTACT_INFO
| COLLECT_PROFILE_IMAGE
| COLLECT_PROFESSIONAL_INFO
| COLLECT_EDUCATION
| COLLECT_SKILLS
| COLLECT_CAREER_OBJECTIVE
| COLLECT_CERTIFICATIONS
| COLLECT_PROJECTS
| COLLECT_LANGUAGES
| COLLECT_ACTIVITIES
| CONFIRM_ORDER
| PAYMENT
| END.

#[global] Instance state_eq_dec : EqDecision state.
Proof. solve_decision. Defined.

(** [range(15)] *)
Definition state_index (st : state) : Z :=
  match st with
  | SELECT_LANGUAGE => 0 | START => 1 | COLLECT_PERSONAL_INFO => 2
  | COLLECT_CONTACT_INFO => 3 | COLLECT_PROFILE_IMAGE => 4
  | COLLECT_PROFESSIONAL_INFO => 5 | COLLECT_EDUCATION => 6 | COLLECT_SKILLS => 7
  | COLLECT_CAREER_OBJECTIVE => 8 | COLLECT_CERTIFICATIONS => 9
  | COLLECT_PROJECTS => 10 | COLLECT_LANGUAGES => 11 | COLLECT_ACTIVITIES => 12
  | CONFIRM_ORDER => 13 | PAYMENT => 14 | END => -1
  end.

(** ** Small helpers shared by the handlers *)

Definition nl : string := String "010"%char "".

(** [str(x)] of an optional string inside an f-string. *)
Definition fstr (o : option string) : string := default "None" o.

(** [x or d] on an optional string. *)
Definition or_else (o : option string) (d : string) : string :=
  match o with
  | Some (String c r) => String c r
  | _ => d
  end.

Definition str (z : Z) : string := pretty z.

(** [if x:] on an object or [None] *)
Definition truthy {X : Type} (o : option X) : bool :=
  match o with Some _ => true | None => false end.

(** [x == y] on strings *)
Definition eqs (x y : string) : bool := String.eqb x y.

(** [text.lower() == 'skip'] *)
Definition is_skip (t : string) : bool := eqs (Py.lower t) "skip".

(** [v if text.lower() != 'skip' else None] *)
Definition unless_skip (t : string) : pyval := if is_skip t then PyNone else PyStr t.

(** The two opening lines of most handlers:
    [session = self.get_user_session(telegram_id)] and
    [session['chat_id'] = ...]. *)
Definition open_session (u : User) (chat : Z) : prog loc :=
  l ← session_of (str (user_ident u));
  modify l (set_chat_id (Some chat));;
  mret l.

Definition prompt (l : loc) (key : string) : prog text :=
  s ← read l; mret (get_prompt s key).

Definition reply (l : loc) (key : string) (buttons : list string) : prog Z :=
  t ← prompt l key; call (reply_text t buttons).

Definition edit (l : loc) (key : string) (buttons : list string) : prog Z :=
  t ← prompt l key; call (edit_message_text t buttons).

(** ** The handlers of [CVBot], in the order of the source *)

Definition log_file_id (m : option Message) : prog unit := mret tt.

(** One session of one tick of [poll_order_status_changes]: the body of its
    [for] loop. *)
Definition poll_session (l : loc) : prog unit :=
  s ← read l;
  match order_id s, chat_id s with
  | Some oid, Some chat =>
      order ← call (Order_get_by_id oid);
      match order with
      | None => mret tt
      | Some o =>
          if is_terminal (status o) && negb (get_notified s) then
            match status o with
            | verified =>
                call (send_message chat (get_prompt s "payment_verified") []);; mret tt
            | rejected =>
                let reason := or_else (statusDetails o) "No reason provided" in
                call (send_message chat
                        (PromptReason (language s) "payment_rejected" reason) []);; mret tt
            | _ => mret tt
            end;;
            modify l (set_notified (Some true))
          else mret tt
      end
  | _, _ => mret tt
  end.

(** The body of the [while True] loop, up to the [sleep]: the [try] encloses
    the whole [for] loop over the snapshot [list(self.user_sessions.items())]. *)
Definition poll_tick : prog unit :=
  try_except
    (snapshot ← act (λ b, (user_sessions b, b));
     for_each snapshot (λ entry, poll_session entry.2))
    Exception (λ _, mret tt).

(** [poll_order_status_changes], cut after [ticks] rounds of its endless loop. *)
Fixpoint poll_order_status_changes (ticks : nat) : prog unit :=
  match ticks with
  | O => mret tt
  | S n => poll_tick;; call (sleep 300);; poll_order_status_changes n
  end.

Definition cache_user_info (effective_user : option User) : prog unit :=
  match effective_user with
  | Some u =>
      match username u with
      | Some (String c r) =>
          let name := Py.lower (String c r) in
          act (λ b, (tt, set_user_cache (Py.set name (user_ident u) (user_cache b)) b))
      | _ => mret tt
      end
  | None => mret tt
  end.

Definition remember (name : string) (user_id : Z) : prog unit :=
  act (λ b, (tt, set_user_cache (Py.set name user_id (user_cache b)) b)).

Definition is_private (c : Chat) : bool :=
  match chat_type c with private => true | _ => false end.

Definition admin_matches (clean_username : string) (admin : ChatMember) : bool :=
  match username (member_user admin) with
  | Some (String c r) => eqs (Py.lower (String c r)) clean_username
  | _ => false
  end.

Definition resolve_username_to_id (name : string) : prog Z :=
  let clean_username := Py.lower (Py.remove_char "@" name) in
  let full_username := "@" +:+ clean_username in
  cache ← act (λ b, (user_cache b, b));
  match Py.get clean_username cache with
  | Some user_id => mret user_id
  | None =>
      by_chat ← try_except
        (chat ← call (get_chat full_username);
         if is_private chat
         then remember clean_username (chat_ident chat);; mret (Some (chat_ident chat))
         else mret None)
        Exception (λ _, mret None);
      match by_chat with
      | Some user_id => mret user_id
      | None =>
          by_admins ← try_except
            (channel_id ← global private_channel_id;
             admins ← call (get_chat_administrators channel_id);
             match List.find (admin_matches clean_username) admins with
             | Some admin =>
                 remember clean_username (user_ident (member_user admin));;
                 mret (Some (user_ident (member_user admin)))
             | None => mret None
             end)
            Exception (λ _, mret None);
          match by_admins with
          | Some user_id => mret user_id
          | None =>
              by_member ← try_except
                (channel_id ← global private_channel_id;
                 member ← call (get_chat_member channel_id full_username);
                 remember clean_username (user_ident (member_user member));;
                 mret (Some (user_ident (member_user member))))
                Exception (λ _, mret None);
              match by_member with
              | Some user_id => mret user_id
              | None => Raise ValueError
              end
          end
      end
  end.

(** [session['chat_id']], a [KeyError] when the key is missing *)
Definition chat_of (s : Session) : prog Z :=
  match chat_id s with
  | Some c => mret c
  | None => Raise KeyError
  end.

Definition field_is (s : Session) (name : string) : bool :=
  match current_field s with
  | Some f => eqs f name
  | None => false
  end.

(** [session['candidate_data'][k] = v] and its siblings for the draft items *)
Definition put_candidate (k : string) (v : pyval) (s : Session) : Session :=
  set_candidate_data (Py.set k v (candidate_data s)) s.

Definition put_work (k : string) (v : pyval) (s : Session) : Session :=
  set_current_work_experience (Py.set k v (current_work_experience s)) s.

Definition put_education (k : string) (v : pyval) (s : Session) : Session :=
  set_current_education (Py.set k v (current_education s)) s.

Definition put_skill (k : string) (v : pyval) (s : Session) : Session :=
  set_current_skill (Py.set k v (current_skill s)) s.

Definition put_certification (k : string) (v : pyval) (s : Session) : Session :=
  set_current_certification (Py.set k v (current_certification s)) s.

Definition put_project (k : string) (v : pyval) (s : Session) : Session :=
  set_current_project (Py.set k v (current_project s)) s.

Definition put_language (k : string) (v : pyval) (s : Session) : Session :=
  set_current_language (Py.set k v (current_language s)) s.

Definition start (u : User) (chat : Z) : prog (option state) :=
  l ← open_session u chat;
  reply l "select_language" ["lang_en"; "lang_am"];;
  mret (Some SELECT_LANGUAGE).

Definition menu_buttons : list string := ["new_cv"; "guide_video"; "samples"].

Definition select_language (q : CallbackQuery) : prog (option state) :=
  call answer_query;;
  l ← open_session (from_user q) (message_chat_id q);
  match Py.split "_" None (data q) with
  | _ :: lang :: _ => modify l (set_language lang)
  | _ => Raise IndexError
  end;;
  candidate ← call (Candidate_get_by_telegram_user_id (str (user_ident (from_user q))));
  message_id ← edit l (if truthy (candidate : option Candidate)
                        then "welcome_back" else "welcome") menu_buttons;
  modify l (set_menu_message_id (Some message_id));;
  mret (Some START).

(** The block "delete the previous menu message if it exists". *)
Definition delete_menu (l : loc) : prog unit :=
  s ← read l;
  match menu_message_id s with
  | Some message_id =>
      try_except
        (chat ← chat_of s;
         call (delete_message chat message_id);;
         modify l (set_menu_message_id None))
        Exception (λ _, mret tt)
  | None => mret tt
  end.

Definition send_tutorial_video (chat : Z) (l : loc) : prog unit :=
  delete_menu l;;
  video_id ← global tutorial_video_file_id;
  match video_id with
  | Some (String c r) =>
      try_except
        (caption ← global tutorial_video_caption;
         s ← read l;
         call (send_media video chat (String c r)
                 (match caption with
                  | EmptyString => get_prompt s "tutorial_message"
                  | _ => Str caption
                  end) []))
        Exception
        (λ _, t ← prompt l "error_message"; call (send_message chat t []);; mret tt)
  | _ => t ← prompt l "error_message"; call (send_message chat t []);; mret tt
  end.

(** [zip(sample_cv_file_ids, sample_cv_captions)] *)
Fixpoint zip {X Y : Type} (xs : list X) (ys : list Y) : list (X * Y) :=
  match xs, ys with
  | x :: xs', y :: ys' => (x, y) :: zip xs' ys'
  | _, _ => []
  end.

Definition nonempty (x : string) : bool :=
  match x with EmptyString => false | _ => true end.

Definition send_sample_cvs (chat : Z) (l : loc) : prog unit :=
  delete_menu l;;
  ids ← global sample_cv_file_ids;
  captions ← global sample_cv_captions;
  if nonempty (default "" (head ids)) then
    try_except
      (t ← prompt l "sending_samples";
       call (send_message chat t []);;
       for_each (zip ids captions) (λ '(file, caption),
         when (nonempty (Py.strip file))
           (try_except
              (try_except
                 (call (send_media document chat file (Str caption) []))
                 (is_exn BadRequest)
                 (λ _, call (send_media photo chat file (Str caption) [])))
              Exception (λ _, mret tt))))
      Exception
      (λ _, t ← prompt l "error_message"; call (send_message chat t []);; mret tt)
  else t ← prompt l "error_message"; call (send_message chat t []);; mret tt.

Definition handle_returning_user_choice (q : CallbackQuery) : prog (option state) :=
  call answer_query;;
  l ← open_session (from_user q) (message_chat_id q);
  if eqs (data q) "new_cv" then
    delete_menu l;;
    edit l "welcome_new" [];;
    modify l (set_current_field (Some "firstName"));;
    mret (Some COLLECT_PERSONAL_INFO)
  else if eqs (data q) "guide_video" then
    s ← read l; chat ← chat_of s;
    send_tutorial_video chat l;;
    t ← prompt l "choose_option";
    message_id ← call (send_message chat t menu_buttons);
    modify l (set_menu_message_id (Some message_id));;
    mret (Some START)
  else if eqs (data q) "samples" then
    s ← read l; chat ← chat_of s;
    send_sample_cvs chat l;;
    t ← prompt l "choose_option";
    message_id ← call (send_message chat t menu_buttons);
    modify l (set_menu_message_id (Some message_id));;
    mret (Some START)
  else mret None.

(** The eight sub-collections of a profile. *)
Inductive section : Type :=
| WorkExperiences | Educations | Skills | CareerObjectives
| CertificationsAwards | Projects | Languages | OtherActivities.

Definition section_name (c : section) : string :=
  match c with
  | WorkExperiences => "workExperiences" | Educations => "education"
  | Skills => "skills" | CareerObjectives => "careerObjectives"
  | CertificationsAwards => "certificationsAwards" | Projects => "projects"
  | Languages => "languages" | OtherActivities => "otherActivities"
  end.

Definition get_section (c : section) (s : Session) : list item :=
  match c with
  | WorkExperiences => workExperiences s | Educations => education s
  | Skills => skills s | CareerObjectives => careerObjectives s
  | CertificationsAwards => certificationsAwards s | Projects => projects s
  | Languages => languages s | OtherActivities => otherActivities s
  end.

Definition set_section (c : section) (v : list item) (s : Session) : Session :=
  match c with
  | WorkExperiences => set_workExperiences v s | Educations => set_education v s
  | Skills => set_skills v s | CareerObjectives => set_careerObjectives v s
  | CertificationsAwards => set_certificationsAwards v s | Projects => set_projects v s
  | Languages => set_languages v s | OtherActivities => set_otherActivities v s
  end.

(** The order of the literal [subcollections] / [subcollection_models]. *)
Definition sections : list section :=
  [WorkExperiences; Educations; Skills; CareerObjectives;
   CertificationsAwards; Projects; Languages; OtherActivities].

Definition edit_buttons : list string :=
  ["edit_personal"; "edit_contact"; "edit_profile_image"; "edit_work"; "edit_education";
   "edit_skills"; "edit_career"; "edit_certs"; "edit_projects"; "edit_languages";
   "edit_activities"].

(** The filter of [start_collecting_info]: keep the documents tagged with the
    candidate's own [uid]. *)
Definition owned_by (candidate : string) (it : item) : bool :=
  match Py.get "candidate_uid" it with
  | Some (PyStr u) => nonempty u && eqs u candidate
  | _ => false
  end.

Definition loaded_section (candidate : string) (profile : list SubDoc) (c : section)
    : list item :=
  List.filter (owned_by candidate)
    (sub_item <$> List.filter (λ d, eqs (sub_collection d) (section_name c)) profile).

Definition start_collecting_info (q : CallbackQuery) : prog (option state) :=
  call answer_query;;
  l ← open_session (from_user q) (message_chat_id q);
  if eqs (data q) "update_profile" then
    candidate ← call (Candidate_get_by_telegram_user_id (str (user_ident (from_user q))));
    match candidate with
    | None => edit l "error_message" [];; mret (Some START)
    | Some c =>
        modify l (set_candidate_data (candidate_fields c));;
        modify l (λ s, put_candidate "availability"
                         (default (PyStr "To be specified")
                            (Py.get "availability" (candidate_data s))) s);;
        profile ← call (get_complete_profile (uid c));
        for_each sections (λ name,
          modify l (set_section name (loaded_section (uid c) profile name)));;
        edit l "edit_section" edit_buttons;;
        mret (Some START)
    end
  else
    edit l "welcome_new" [];;
    modify l (set_current_field (Some "firstName"));;
    mret (Some COLLECT_PERSONAL_INFO).

Definition collect_personal_info (u : User) (chat : Z) (text : string)
    : prog (option state) :=
  l ← open_session u chat;
  s ← read l;
  if field_is s "firstName" then
    modify l (put_candidate "firstName" (PyStr text));;
    modify l (set_current_field (Some "middleName"));;
    reply l "middle_name" [];;
    mret (Some COLLECT_PERSONAL_INFO)
  else if field_is s "middleName" then
    modify l (put_candidate "middleName" (PyStr text));;
    modify l (set_current_field (Some "lastName"));;
    reply l "last_name" [];;
    mret (Some COLLECT_PERSONAL_INFO)
  else if field_is s "lastName" then
    modify l (put_candidate "lastName" (PyStr text));;
    modify l (set_current_field (Some "phoneNumber"));;
    reply l "phone_number" [];;
    mret (Some COLLECT_CONTACT_INFO)
  else mret None.

Definition collect_contact_info (u : User) (chat : Z) (text : string)
    : prog (option state) :=
  l ← open_session u chat;
  s ← read l;
  if field_is s "phoneNumber" then
    modify l (put_candidate "phoneNumber" (PyStr text));;
    modify l (set_current_field (Some "emailAddress"));;
    reply l "email_address" [];;
    mret (Some COLLECT_CONTACT_INFO)
  else if field_is s "emailAddress" then
    modify l (put_candidate "emailAddress" (PyStr text));;
    modify l (set_current_field (Some "linkedinProfile"));;
    reply l "linkedin_profile" [];;
    mret (Some COLLECT_CONTACT_INFO)
  else if field_is s "linkedinProfile" then
    modify l (put_candidate "linkedinProfile" (unless_skip text));;
    modify l (set_current_field (Some "city"));;
    reply l "city" [];;
    mret (Some COLLECT_CONTACT_INFO)
  else if field_is s "city" then
    modify l (put_candidate "city" (PyStr text));;
    modify l (set_current_field (Some "country"));;
    reply l "country" [];;
    mret (Some COLLECT_CONTACT_INFO)
  else if field_is s "country" then
    modify l (put_candidate "country" (PyStr text));;
    modify l (set_current_field None);;
    reply l "profile_image_prompt" [];;
    mret (Some COLLECT_PROFILE_IMAGE)
  else mret None.

Definition max_size : Z := 5 * 1024 * 1024.
Definition allowed_mime_types : list string := ["image/jpeg"; "image/png"; "application/pdf"].
Definition allowed_extensions : list string := ["jpg"; "jpeg"; "png"; "pdf"].

(** [x in l] on a list of strings *)
Definition among (x : string) (l : list string) : bool := existsb (eqs x) l.

(** [document.file_name.split('.')[-1].lower()] *)
Definition extension (name : string) : string :=
  Py.lower (default "" (last (Py.split "." None name))).

(** The header that both upload handlers put in the caption they forward. *)
Definition user_info_of (u : User) : string :=
  Py.strip ("👤 User: " +:+ or_else (first_name u) "" +:+ " " +:+ or_else (last_name u) "")
  +:+ match username u with
      | Some (String c r) => " (@" +:+ String c r +:+ ")"
      | _ => ""
      end
  +:+ nl +:+ "🆔 User ID: " +:+ str (user_ident u).

Definition collect_profile_image (m : Message) : prog (option state) :=
  l ← open_session (from m) (chat_ident_of m);
  if match text_of m with Some (String c r) => is_skip (String c r) | _ => false end then
    reply l "profile_image_skip" ["continue_professional"];;
    mret (Some COLLECT_PROFILE_IMAGE)
  else
    try_except
      (channel_id ← global private_channel_id;
       let caption := Str ("📸 Profile Image Received" +:+ nl +:+ nl +:+ user_info_of (from m)) in
       stored ←
         match last (photos m), doc m with
         | Some p, _ =>
             file ← call (get_file p);
             if (max_size <? file_size file) then
               reply l "file_too_large" [];; mret false
             else
               call (send_media photo channel_id (file_id p) caption []);;
               modify l (put_candidate "profileImageUrl" (PyStr (file_path file)));;
               mret true
         | None, Some d =>
             if (max_size <? file_size (document_file d)) then
               reply l "file_too_large" [];; mret false
             else if negb (among (mime_type d) allowed_mime_types) then
               reply l "invalid_file_type" [];; mret false
             else if match file_name d with
                     | Some (String c r) =>
                         negb (among (extension (String c r)) allowed_extensions)
                     | _ => false
                     end then
               reply l "invalid_file_type" [];; mret false
             else
               file ← call (get_file (document_file d));
               call (send_media document channel_id (file_id (document_file d)) caption []);;
               modify l (put_candidate "profileImageUrl" (PyStr (file_path file)));;
               mret true
         | None, None => reply l "invalid_file_type" [];; mret false
         end;
       when stored (reply l "profile_image_success" ["continue_professional"];; mret tt);;
       mret (Some COLLECT_PROFILE_IMAGE))
      Exception
      (λ _, reply l "error_message" [];; mret (Some COLLECT_PROFILE_IMAGE)).

Definition handle_profile_image_choice (q : CallbackQuery) : prog (option state) :=
  call answer_query;;
  l ← open_session (from_user q) (message_chat_id q);
  if eqs (data q) "continue_professional" then
    modify l (set_current_field (Some "work_jobTitle"));;
    modify l (set_current_work_experience []);;
    edit l "job_title_with_skip" [];;
    mret (Some COLLECT_PROFESSIONAL_INFO)
  else mret None.

Definition collect_professional_info (u : User) (chat : Z) (text : string)
    : prog (option state) :=
  l ← open_session u chat;
  s ← read l;
  if field_is s "work_jobTitle" then
    if is_skip text then
      modify l (set_workExperiences []);;
      modify l (set_current_field (Some "edu_degreeName"));;
      modify l (set_current_education []);;
      reply l "degree_name" [];;
      mret (Some COLLECT_EDUCATION)
    else
      modify l (put_work "jobTitle" (PyStr text));;
      modify l (set_current_field (Some "work_companyName"));;
      reply l "company_name" [];;
      mret (Some COLLECT_PROFESSIONAL_INFO)
  else if field_is s "work_companyName" then
    modify l (put_work "companyName" (PyStr text));;
    modify l (set_current_field (Some "work_location"));;
    reply l "work_location" [];;
    mret (Some COLLECT_PROFESSIONAL_INFO)
  else if field_is s "work_location" then
    modify l (put_work "location" (PyStr text));;
    modify l (set_current_field (Some "work_description"));;
    reply l "work_description" [];;
    mret (Some COLLECT_PROFESSIONAL_INFO)
  else if field_is s "work_description" then
    modify l (put_work "description" (PyStr text));;
    modify l (λ s, set_workExperiences (workExperiences s ++ [current_work_experience s]) s);;
    modify l (set_current_work_experience []);;
    reply l "add_another_work" ["add_another_work"; "continue_education"];;
    mret (Some COLLECT_PROFESSIONAL_INFO)
  else mret None.

Definition handle_professional_info_choice (q : CallbackQuery) : prog (option state) :=
  call answer_query;;
  l ← open_session (from_user q) (message_chat_id q);
  if eqs (data q) "add_another_work" then
    modify l (set_current_field (Some "work_jobTitle"));;
    edit l "job_title" [];;
    mret (Some COLLECT_PROFESSIONAL_INFO)
  else if eqs (data q) "continue_education" then
    modify l (set_current_field (Some "edu_degreeName"));;
    modify l (set_current_education []);;
    edit l "degree_name" [];;
    mret (Some COLLECT_EDUCATION)
  else mret None.

Definition collect_education (u : User) (chat : Z) (text : string)
    : prog (option state) :=
  l ← open_session u chat;
  s ← read l;
  if field_is s "edu_degreeName" then
    modify l (put_education "degreeName" (PyStr text));;
    modify l (set_current_field (Some "edu_institutionName"));;
    reply l "institution_name" [];;
    mret (Some COLLECT_EDUCATION)
  else if field_is s "edu_institutionName" then
    modify l (put_education "institutionName" (PyStr text));;
    modify l (set_current_field (Some "edu_gpa"));;
    reply l "gpa" [];;
    mret (Some COLLECT_EDUCATION)
  else if field_is s "edu_gpa" then
    modify l (put_education "gpa" (unless_skip text));;
    modify l (set_current_field (Some "edu_description"));;
    reply l "edu_description" [];;
    mret (Some COLLECT_EDUCATION)
  else if field_is s "edu_description" then
    modify l (put_education "description" (PyStr text));;
    modify l (set_current_field (Some "edu_achievementsHonors"));;
    reply l "achievements_honors" [];;
    mret (Some COLLECT_EDUCATION)
  else if field_is s "edu_achievementsHonors" then
    modify l (put_education "achievementsHonors" (unless_skip text));;
    modify l (λ s, set_education (education s ++ [current_education s]) s);;
    modify l (set_current_education []);;
    reply l "add_another_edu" ["add_another_edu"; "continue_skills"];;
    mret (Some COLLECT_EDUCATION)
  else mret None.

Definition handle_education_choice (q : CallbackQuery) : prog (option state) :=
  call answer_query;;
  l ← open_session (from_user q) (message_chat_id q);
  if eqs (data q) "add_another_edu" then
    modify l (set_current_field (Some "edu_degreeName"));;
    edit l "degree_name" [];;
    mret (Some COLLECT_EDUCATION)
  else if eqs (data q) "continue_skills" then
    modify l (set_skills []);;
    edit l "career_summary" [];;
    mret (Some COLLECT_CAREER_OBJECTIVE)
  else mret None.

Definition collect_skills (u : User) (chat : Z) (text : string) : prog (option state) :=
  l ← open_session u chat;
  s ← read l;
  if field_is s "skill_skillName" then
    modify l (put_skill "skillName" (PyStr text));;
    modify l (set_current_field (Some "skill_proficiency"));;
    reply l "skill_proficiency" [];;
    mret (Some COLLECT_SKILLS)
  else if field_is s "skill_proficiency" then
    modify l (put_skill "proficiency" (PyStr text));;
    modify l (λ s, set_skills (skills s ++ [current_skill s]) s);;
    modify l (set_current_skill []);;
    reply l "add_another_skill" ["add_another_skill"; "continue_career"];;
    mret (Some COLLECT_SKILLS)
  else mret None.

Definition handle_skills_choice (q : CallbackQuery) : prog (option state) :=
  call answer_query;;
  l ← open_session (from_user q) (message_chat_id q);
  if eqs (data q) "add_another_skill" then
    modify l (set_current_field (Some "skill_skillName"));;
    edit l "skill_name" [];;
    mret (Some COLLECT_SKILLS)
  else if eqs (data q) "continue_career" then
    edit l "career_summary" [];;
    mret (Some COLLECT_CAREER_OBJECTIVE)
  else mret None.

Definition collect_career_objective (u : User) (chat : Z) (text : string)
    : prog (option state) :=
  l ← open_session u chat;
  when (negb (is_skip text))
    (modify l (λ s, set_careerObjectives
                      (careerObjectives s ++ [[("summaryText", PyStr text)]]) s));;
  reply l "certificate_name" [];;
  modify l (set_current_field (Some "cert_certificateName"));;
  modify l (set_current_certification []);;
  mret (Some COLLECT_CERTIFICATIONS).

Definition collect_certifications (u : User) (chat : Z) (text : string)
    : prog (option state) :=
  l ← open_session u chat;
  s ← read l;
  if field_is s "cert_certificateName" then
    if is_skip text then
      reply l "add_another_cert" ["add_another_cert"; "continue_projects"];;
      mret (Some COLLECT_CERTIFICATIONS)
    else
      modify l (put_certification "certificateName" (PyStr text));;
      modify l (set_current_field (Some "cert_issuer"));;
      reply l "issuer" [];;
      mret (Some COLLECT_CERTIFICATIONS)
  else if field_is s "cert_issuer" then
    modify l (put_certification "issuer" (PyStr text));;
    modify l (λ s, set_certificationsAwards
                     (certificationsAwards s ++ [current_certification s]) s);;
    modify l (set_current_certification []);;
    reply l "add_another_cert" ["add_another_cert"; "continue_projects"];;
    mret (Some COLLECT_CERTIFICATIONS)
  else mret None.

Definition handle_certifications_choice (q : CallbackQuery) : prog (option state) :=
  call answer_query;;
  l ← open_session (from_user q) (message_chat_id q);
  if eqs (data q) "add_another_cert" then
    modify l (set_current_field (Some "cert_certificateName"));;
    edit l "certificate_name" [];;
    mret (Some COLLECT_CERTIFICATIONS)
  else if eqs (data q) "continue_projects" then
    modify l (set_current_field (Some "project_projectTitle"));;
    modify l (set_current_project []);;
    edit l "project_title" [];;
    mret (Some COLLECT_PROJECTS)
  else mret None.

Definition collect_projects (u : User) (chat : Z) (text : string) : prog (option state) :=
  l ← open_session u chat;
  s ← read l;
  if field_is s "project_projectTitle" then
    modify l (put_project "projectTitle" (PyStr text));;
    modify l (set_current_field (Some "project_description"));;
    reply l "project_description" [];;
    mret (Some COLLECT_PROJECTS)
  else if field_is s "project_description" then
    modify l (put_project "description" (PyStr text));;
    modify l (set_current_field (Some "project_projectLink"));;
    reply l "project_link" [];;
    mret (Some COLLECT_PROJECTS)
  else if field_is s "project_projectLink" then
    when (negb (is_skip text)) (modify l (put_project "projectLink" (PyStr text)));;
    modify l (λ s, set_projects (projects s ++ [current_project s]) s);;
    modify l (set_current_project []);;
    reply l "add_another_project" ["add_another_project"; "continue_languages"];;
    mret (Some COLLECT_PROJECTS)
  else mret None.

Definition handle_projects_choice (q : CallbackQuery) : prog (option state) :=
  call answer_query;;
  l ← open_session (from_user q) (message_chat_id q);
  if eqs (data q) "add_another_project" then
    modify l (set_current_field (Some "project_projectTitle"));;
    edit l "project_title" [];;
    mret (Some COLLECT_PROJECTS)
  else if eqs (data q) "continue_languages" then
    modify l (set_current_field (Some "lang_languageName"));;
    modify l (set_current_language []);;
    edit l "language_name" [];;
    mret (Some COLLECT_LANGUAGES)
  else mret None.

Definition collect_languages (u : User) (chat : Z) (text : string) : prog (option state) :=
  l ← open_session u chat;
  s ← read l;
  if field_is s "lang_languageName" then
    modify l (put_language "languageName" (PyStr text));;
    modify l (set_current_field (Some "lang_proficiencyLevel"));;
    reply l "language_proficiency" [];;
    mret (Some COLLECT_LANGUAGES)
  else if field_is s "lang_proficiencyLevel" then
    modify l (put_language "proficiencyLevel" (PyStr text));;
    modify l (λ s, set_languages (languages s ++ [current_language s]) s);;
    modify l (set_current_language []);;
    reply l "add_another_language" ["add_another_language"; "continue_activities"];;
    mret (Some COLLECT_LANGUAGES)
  else mret None.

Definition handle_languages_choice (q : CallbackQuery) : prog (option state) :=
  call answer_query;;
  l ← open_session (from_user q) (message_chat_id q);
  if eqs (data q) "add_another_language" then
    modify l (set_current_field (Some "lang_languageName"));;
    edit l "language_name" [];;
    mret (Some COLLECT_LANGUAGES)
  else if eqs (data q) "continue_activities" then
    edit l "activities" [];;
    mret (Some COLLECT_ACTIVITIES)
  else mret None.

Definition collect_activities (u : User) (chat : Z) (text : string) : prog (option state) :=
  l ← open_session u chat;
  when (negb (is_skip text))
    (modify l (λ s, set_otherActivities
                      (otherActivities s ++
                         [[("activityType", PyStr "Other"); ("description", PyStr text)]]) s));;
  s ← read l;
  message_id ← call (reply_text (Summary s) ["confirm_yes"; "edit_no"]);
  modify l (set_summary_message_id (Some message_id));;
  mret (Some CONFIRM_ORDER).

(** The log line that follows the save of an item.  For a career objective
    and for an other activity it slices a value of the item
    ([career_obj.get('summaryText')[:50]], [activity.get('description')[:50]]),
    which raises [TypeError] when the key is absent or holds [None]; for the
    other sections it only formats the value. *)
Definition sliced_key (c : section) : option string :=
  match c with
  | CareerObjectives => Some "summaryText"
  | OtherActivities => Some "description"
  | _ => None
  end.

Definition log_saved (c : section) (it : item) : prog unit :=
  match sliced_key c with
  | Some key =>
      match Py.get key it with
      | Some (PyStr _) => mret tt
      | _ => Raise TypeError
      end
  | None => mret tt
  end.

(** The loops "save subcollection data with explicit candidate_uid": each item
    of the session's own list is tagged in place, then saved, then logged. *)
Definition tag_and_save (l : loc) (candidate : string) (c : section) : prog unit :=
  s ← read l;
  for_each (seq 0 (length (get_section c s))) (λ i,
    modify l (λ s, set_section c
                     (alter (Py.set "candidate_uid" (PyStr candidate)) i (get_section c s)) s);;
    s ← read l;
    match get_section c s !! i with
    | Some it => call (save_item (section_name c) it);; log_saved c it
    | None => mret tt
    end).

(** [setattr(candidate, key, value)] for every item of [candidate_data] *)
Definition overwrite (fields new : Py.dict pyval) : Py.dict pyval :=
  fold_left (λ acc kv, Py.set kv.1 kv.2 acc) new fields.

(** Modelled from the spec: the constructor of [Order] in [mainapp.models],
    which stamps the creation time. *)
Definition new_order (ident candidate telegram_id : string) (time : Z) : Order :=
  {| order_ident := ident; candidateId := candidate; telegramUserId := telegram_id;
     status := awaiting_payment; statusDetails := None; paymentVerified := false;
     paymentScreenshotUrl := None; createdAt := time |}.

(** The assignment [self.user_sessions[telegram_id] = {...}] of the two
    [edit_no] branches: a new object replaces the table entry. *)
Definition restart_session (telegram_id : string) (l : loc) : prog loc :=
  act (λ b,
    let '(l', b') := alloc (restarted_session (deref l b)) b in
    (l', set_user_sessions (Py.set telegram_id l' (user_sessions b')) b')).

Definition confirm_order (q : CallbackQuery) : prog (option state) :=
  call answer_query;;
  let telegram_id := str (user_ident (from_user q)) in
  l ← open_session (from_user q) (message_chat_id q);
  if eqs (data q) "confirm_yes" then
    saving ← call (reply_text (Str "Saving...") []);
    modify l (set_saving_message_id (Some saving));;
    try_except
      (s ← read l;
       match summary_message_id s return prog unit with
       | Some message_id =>
           chat ← chat_of s;
           call (delete_message chat message_id);;
           modify l (set_summary_message_id None)
       | None => mret tt
       end)
      Exception (λ _, mret tt);;
    found ← call (Candidate_get_by_telegram_user_id telegram_id);
    s ← read l;
    candidate ←
      match found with
      | None =>
          fresh ← call uuid4;
          mret {| uid := fresh; candidate_telegram_id := telegram_id;
                  candidate_fields := candidate_data s |}
      | Some c =>
          mret {| uid := uid c; candidate_telegram_id := candidate_telegram_id c;
                  candidate_fields := overwrite (candidate_fields c) (candidate_data s) |}
      end;
    call (Candidate_save candidate);;
    for_each sections (λ c, call (clear_collection (uid candidate) (section_name c)));;
    for_each sections (tag_and_save l (uid candidate));;
    ident ← call uuid4;
    time ← call now;
    let order := new_order ident (uid candidate) telegram_id time in
    call (Order_save order);;
    modify l (set_order_id (Some (order_ident order)));;
    modify l (set_notified (Some false));;
    try_except
      (s ← read l;
       chat ← chat_of s;
       match saving_message_id s return prog unit with
       | Some message_id => call (delete_message chat message_id)
       | None => Raise KeyError
       end;;
       modify l (set_saving_message_id None))
      Exception (λ _, mret tt);;
    modify l (set_from_main_flow (Some true));;
    s ← read l;
    chat ← chat_of s;
    call (send_message chat (get_prompt s "payment_instructions") []);;
    mret (Some PAYMENT)
  else if eqs (data q) "edit_no" then
    l' ← restart_session telegram_id l;
    edit l' "first_name" [];;
    mret (Some COLLECT_PERSONAL_INFO)
  else mret None.

Definition edit_info (q : CallbackQuery) : prog (option state) :=
  call answer_query;;
  let telegram_id := str (user_ident (from_user q)) in
  l ← open_session (from_user q) (message_chat_id q);
  if eqs (data q) "edit_no" then
    l' ← restart_session telegram_id l;
    edit l' "first_name" [];;
    mret (Some COLLECT_PERSONAL_INFO)
  else if eqs (data q) "edit_personal" then
    modify l (set_current_field (Some "firstName"));;
    edit l "first_name" [];;
    mret (Some COLLECT_PERSONAL_INFO)
  else if eqs (data q) "edit_contact" then
    modify l (set_current_field (Some "phoneNumber"));;
    edit l "phone_number" [];;
    mret (Some COLLECT_CONTACT_INFO)
  else if eqs (data q) "edit_profile_image" then
    modify l (set_current_field None);;
    edit l "profile_image_prompt" [];;
    mret (Some COLLECT_PROFILE_IMAGE)
  else if eqs (data q) "edit_work" then
    modify l (set_workExperiences []);;
    modify l (set_current_field (Some "work_jobTitle"));;
    edit l "job_title" [];;
    mret (Some COLLECT_PROFESSIONAL_INFO)
  else if eqs (data q) "edit_education" then
    modify l (set_education []);;
    modify l (set_current_field (Some "edu_degreeName"));;
    modify l (set_current_education []);;
    edit l "degree_name" [];;
    mret (Some COLLECT_EDUCATION)
  else if eqs (data q) "edit_skills" then
    modify l (set_skills []);;
    modify l (set_current_field (Some "skill_skillName"));;
    modify l (set_current_skill []);;
    edit l "skill_name" [];;
    mret (Some COLLECT_SKILLS)
  else if eqs (data q) "edit_career" then
    modify l (set_careerObjectives []);;
    edit l "career_summary" [];;
    mret (Some COLLECT_CAREER_OBJECTIVE)
  else if eqs (data q) "edit_certs" then
    modify l (set_certificationsAwards []);;
    modify l (set_current_field (Some "cert_certificateName"));;
    modify l (set_current_certification []);;
    edit l "certificate_name" [];;
    mret (Some COLLECT_CERTIFICATIONS)
  else if eqs (data q) "edit_projects" then
    modify l (set_projects []);;
    modify l (set_current_field (Some "project_projectTitle"));;
    modify l (set_current_project []);;
    edit l "project_title" [];;
    mret (Some COLLECT_PROJECTS)
  else if eqs (data q) "edit_languages" then
    modify l (set_languages []);;
    modify l (set_current_field (Some "lang_languageName"));;
    modify l (set_current_language []);;
    edit l "language_name" [];;
    mret (Some COLLECT_LANGUAGES)
  else if eqs (data q) "edit_activities" then
    modify l (set_otherActivities []);;
    edit l "activities" [];;
    mret (Some COLLECT_ACTIVITIES)
  else mret None.

(** [session['candidate_data'].get('phoneNumber')] is truthy *)
Definition has_phone (s : Session) : bool :=
  match Py.get "phoneNumber" (candidate_data s) with
  | Some (PyStr p) => nonempty p
  | _ => false
  end.

Definition phone_of (s : Session) : string :=
  match Py.get "phoneNumber" (candidate_data s) with
  | Some (PyStr p) => p
  | Some PyNone => "None"
  | None => "N/A"
  end.

Definition payment_marker : string := "💳 Payment".

(** The caption under which payment evidence is forwarded to the channel. *)
Definition payment_caption (what retry_text user_info : string) : text :=
  Str (payment_marker +:+ " " +:+ what +:+ " Received" +:+ retry_text +:+ nl +:+ nl +:+ user_info).

(** The two button action tokens attached to forwarded payment evidence. *)
Definition decision_buttons (telegram_id order : string) : list string :=
  ["approve_" +:+ telegram_id +:+ "_" +:+ order; "reject_" +:+ telegram_id +:+ "_" +:+ order].

Definition handle_payment_screenshot (m : Message) : prog (option state) :=
  let telegram_id := str (user_ident (from m)) in
  l ← open_session (from m) (chat_ident_of m);
  try_except
    (s ← read l;
     let info := user_info_of (from m) +:+ nl +:+ "📋 Order ID: " +:+ default "N/A" (order_id s) in
     when (negb (has_phone s))
       (candidate ← call (Candidate_get_by_telegram_user_id telegram_id);
        match candidate with
        | Some c => modify l (set_candidate_data (candidate_fields c))
        | None => mret tt
        end);;
     s ← read l;
     let user_info := info +:+ nl +:+ "📞 Phone: " +:+ phone_of s in
     order ← match order_id s with Some o => mret o | None => Raise KeyError end;
     let buttons := decision_buttons telegram_id order in
     let retry_text :=
       if nonempty order && negb (default false (from_main_flow s)) then " (RETRY)" else "" in
     channel_id ← global private_channel_id;
     file_url ←
       match last (photos m), doc m with
       | Some p, _ =>
           file ← call (get_file p);
           if (max_size <? file_size file) then
             reply l "file_too_large" [];; mret None
           else
             call (send_media photo channel_id (file_id p)
                     (payment_caption "Screenshot" retry_text user_info) buttons);;
             mret (Some (file_path file))
       | None, Some d =>
           if (max_size <? file_size (document_file d)) then
             reply l "file_too_large" [];; mret None
           else if negb (among (mime_type d) allowed_mime_types) then
             reply l "invalid_file_type" [];; mret None
           else if match file_name d with
                   | Some (String c r) =>
                       negb (among (extension (String c r)) allowed_extensions)
                   | _ => false
                   end then
             reply l "invalid_file_type" [];; mret None
           else
             file ← call (get_file (document_file d));
             call (send_media document channel_id (file_id (document_file d))
                     (payment_caption "Document" retry_text user_info) buttons);;
             mret (Some (file_path file))
       | None, None => reply l "payment_instructions" [];; mret None
       end;
     match file_url with
     | None => mret (Some PAYMENT)
     | Some url =>
         found ← call (Order_get_by_id order);
         match found with
         | None => reply l "error_message" [];; mret (Some PAYMENT)
         | Some o =>
             call (Order_save
                     (update_status pending_verification
                        "Payment screenshot submitted, awaiting admin verification"
                        (set_paymentScreenshotUrl (Some url) o)));;
             reply l "payment_confirmation" [];;
             mret (Some END)
         end
     end)
    Exception
    (λ _, reply l "error_message" [];; mret (Some PAYMENT)).

(** [f"{query.message.caption}\n\n{note}"] *)
Definition annotate (q : CallbackQuery) (note : string) : text :=
  Str (fstr (message_caption q) +:+ nl +:+ nl +:+ note).

Definition admin_name (q : CallbackQuery) : string := or_else (first_name (from_user q)) "Admin".

Definition handle_admin_response (q : CallbackQuery) : prog unit :=
  call answer_query;;
  try_except (A := unit)
    (match Py.split "_" (Some 2%nat) (data q) with
     | [action; telegram_id; order] =>
         l ← session_of telegram_id;
         s ← read l;
         match chat_id s with
         | None => call (reply_text (Str "Error: User session not found.") []);; mret tt
         | Some chat =>
             found ← call (Order_get_by_id order);
             match found with
             | None => call (reply_text (Str "Error: Order not found.") []);; mret tt
             | Some o =>
                 if eqs action "approve" then
                   try_except (A := unit)
                     (call (Order_approve_payment o);;
                      call (send_message chat (get_prompt s "payment_verified") []);;
                      call (edit_message_caption
                              (annotate q ("✅ **APPROVED** by " +:+ admin_name q)));;
                      modify l (set_notified (Some true)))
                     Exception
                     (λ _, call (edit_message_caption
                                   (annotate q ("✅ **APPROVED** by " +:+ admin_name q +:+
                                                " (Error sending notification to user)"))))
                 else if eqs action "reject" then
                   try_except (A := unit)
                     (let reason := "No reason provided" in
                      call (Order_reject_payment o reason);;
                      call (send_message chat
                              (PromptReason (language s) "payment_rejected" reason) []);;
                      call (edit_message_caption
                              (annotate q ("❌ **REJECTED** by " +:+ admin_name q)));;
                      modify l (set_notified (Some true)))
                     Exception
                     (λ _, call (edit_message_caption
                                   (annotate q ("❌ **REJECTED** by " +:+ admin_name q +:+
                                                " (Error sending notification to user)"))))
                 else mret tt
             end
         end
     | _ => Raise ValueError
     end)
    Exception
    (λ x, if is_exn ValueError x
          then call (edit_message_caption
                       (annotate q "⚠️ **ERROR**: Invalid callback data"))
          else call (reply_text
                       (Str "An error occurred while processing your response.") []);;
               mret tt).

(** The first of the most recent orders: [orders.sort(key=..., reverse=True)]
    is stable, so among equally recent orders the first one streamed wins. *)
Definition most_recent (l : list Order) : option Order :=
  fold_left
    (λ best o,
       match best with
       | None => Some o
       | Some b => if (createdAt b <? createdAt o) then Some o else Some b
       end) l None.

Definition get_rejected_order_for_user (telegram_id : string) : prog (option Order) :=
  try_except
    (found ← call (Order_rejected_of telegram_id);
     mret (most_recent found))
    Exception (λ _, mret None).

Definition payment_retry_command (u : User) (chat : Z) : prog (option state) :=
  let telegram_id := str (user_ident u) in
  l ← open_session u chat;
  rejected_order ← get_rejected_order_for_user telegram_id;
  match rejected_order with
  | None => reply l "no_rejected_payment" [];; mret (Some END)
  | Some o =>
      modify l (set_order_id (Some (order_ident o)));;
      modify l (set_notified (Some false));;
      modify l (set_from_main_flow (Some false));;
      reply l "payment_retry_instructions" [];;
      mret (Some PAYMENT)
  end.

Definition handle_payment_command (u : User) (chat : Z) : prog (option state) :=
  let telegram_id := str (user_ident u) in
  l ← open_session u chat;
  rejected_order ← get_rejected_order_for_user telegram_id;
  match rejected_order with
  | None => reply l "no_rejected_payment" [];; mret (Some END)
  | Some o =>
      try_except
        (candidate ← call (Candidate_get_by_telegram_user_id telegram_id);
         match candidate with
         | Some c => modify l (set_candidate_data (candidate_fields c))
         | None => mret tt
         end)
        Exception (λ _, mret tt);;
      modify l (set_order_id (Some (order_ident o)));;
      modify l (set_notified (Some false));;
      modify l (set_from_main_flow (Some false));;
      reply l "payment_retry_instructions" [];;
      mret (Some PAYMENT)
  end.

(** [caption.split('Order ID: ')[1].split('\n')[0].strip()]; [None] stands for
    the [IndexError] of the first subscript. *)
Definition parse_order_id (caption : string) : option string :=
  match Py.split "Order ID: " None caption with
  | _ :: rest :: _ => Some (Py.strip (default "" (head (Py.split nl None rest))))
  | _ => None
  end.

Definition default_reason : string := "No reason provided".

(** The notification of the free-text path, behind its [notified] gate. *)
Definition notify_once (l : loc) (s : Session) (chat : Z) (t : text) : prog unit :=
  when (negb (get_notified s))
    (call (send_message chat t []);;
     modify l (set_notified (Some true))).

Definition handle_admin_reply (message : option Message) : prog unit :=
  match message with
  | None => mret tt
  | Some m =>
      if (chat_ident_of m =? 0) then mret tt else
      channel_id ← global private_channel_id;
      if negb (chat_ident_of m =? channel_id) then mret tt else
      let reply_text := match text_of m with Some t => Py.lower t | None => "" end in
      if negb (Py.startswith reply_text "approve" || Py.startswith reply_text "reject:")
      then mret tt else
      try_except
        (match reply_to_message m with
         | Some (Some (String c r)) =>
             let caption := String c r in
             if negb (Py.startswith caption payment_marker) then mret tt else
             match parse_order_id caption with
             | None => mret tt
             | Some order =>
                 found ← call (Order_get_by_id order);
                 match found with
                 | None => mret tt
                 | Some o =>
                     l ← session_of (telegramUserId o);
                     s ← read l;
                     match chat_id s with
                     | None => mret tt
                     | Some chat =>
                         if eqs reply_text "approve" then
                           call (Order_approve_payment o);;
                           notify_once l s chat (get_prompt s "payment_verified")
                         else if Py.startswith reply_text "reject:" then
                           let reason :=
                             or_else (Some (Py.strip (Py.drop 7 reply_text))) default_reason in
                           call (Order_reject_payment o reason);;
                           notify_once l s chat
                             (PromptReason (language s) "payment_rejected" reason)
                         else mret tt
                     end
                 end
             end
         | _ => mret tt
         end)
        Exception (λ _, mret tt)
  end.

Definition ignore_non_reply_messages (m : Message) : prog unit := mret tt.

Definition cancel (u : User) : prog (option state) :=
  let telegram_id := str (user_ident u) in
  l ← session_of telegram_id;
  delete_menu l;;
  act (λ b, (tt, if Py.mem telegram_id (user_sessions b)
                 then set_user_sessions (Py.del telegram_id (user_sessions b)) b
                 else b));;
  reply l "cancel_message" [];;
  mret (Some END).

Definition help_command (u : User) : prog unit :=
  l ← session_of (str (user_ident u));
  reply l "help_message" [];;
  mret tt.

(** [target]: the effective user, when the update has both a message and a
    user. *)
Definition error_handler (target : option User) : prog unit :=
  match target with
  | Some u =>
      l ← session_of (str (user_ident u));
      reply l "error_message" [];;
      mret tt
  | None => mret tt
  end.

(** The processing of one update by the application: [run] starts the
    [Application] of python-telegram-bot, whose [process_update] awaits the
    handler that matches the update, hands an exception that leaves the
    handler to the error handler that [setup_handlers] has registered
    ([add_error_handler(self.error_handler)]), and logs an exception that
    leaves the error handler.  Either way the loop that fetches the updates
    goes on with the next one. *)
Definition process_update (target : option User) (h : prog unit) : prog unit :=
  try_except h Exception
    (λ _, try_except (error_handler target) Exception (λ _, mret tt)).

(** [update.effective_user] for a press on a button of a message: the user
    who pressed, the message being the one that carries the button. *)
Definition press_target (q : CallbackQuery) : option User := Some (from_user q).

(** ** Auxiliary notions for the properties *)

Definition with_env (e : Env) (w : World) : World := {| bot := bot w; env := e |}.
Definition with_bot (b : Bot) (w : World) : World := {| bot := b; env := env w |}.

(** What [run] does after its first component has finished. *)
Definition and_then {A B : Type} (r : outcome A * World) (f : A → World → outcome B * World)
    : outcome B * World :=
  match r with
  | (Returned a, w) => f a w
  | (Raised x, w) => (Raised x, w)
  end.

(** The resolver as the specification words it: an ordered chain of tiers,
    each of which either yields an identity or fails; the first success wins
    and is written to the cache; when every tier has failed the resolution
    fails.  *)
Definition normalized (name : string) : string := Py.lower (Py.remove_char "@" name).

Definition tier : Type := string → World → option Z * World.

Definition cache_tier : tier :=
  λ key w, (Py.get key (user_cache (bot w)), w).

(** An external lookup: the call is made, its failure is the tier's failure. *)
Definition lookup_tier (r : request) (accept : answer r → option Z) (w : World)
    : option Z * World :=
  ((match (perform r (env w)).1 with inr v => accept v | inl _ => None end),
   with_env (perform r (env w)).2 w).

Definition chat_tier : tier :=
  λ key, lookup_tier (get_chat ("@" +:+ key))
           (λ c : Chat, if is_private c then Some (chat_ident c) else None).

Definition admins_tier : tier :=
  λ key w, lookup_tier (get_chat_administrators (private_channel_id (config (bot w))))
             (λ admins : list ChatMember,
                (λ a, user_ident (member_user a)) <$> List.find (admin_matches key) admins) w.

Definition member_tier : tier :=
  λ key w, lookup_tier (get_chat_member (private_channel_id (config (bot w))) ("@" +:+ key))
             (λ m : ChatMember, Some (user_ident (member_user m))) w.

Definition populate (key : string) (user_id : Z) (w : World) : World :=
  with_bot (set_user_cache (Py.set key user_id (user_cache (bot w))) (bot w)) w.

Fixpoint first_success (tiers : list tier) (key : string) (w : World) : option Z * World :=
  match tiers with
  | [] => (None, w)
  | t :: rest =>
      match t key w with
      | (Some user_id, w') => (Some user_id, populate key user_id w')
      | (None, w') => first_success rest key w'
      end
  end.

Definition resolve (name : string) (w : World) : outcome Z * World :=
  match first_success [cache_tier; chat_tier; admins_tier; member_tier] (normalized name) w with
  | (Some user_id, w') => (Returned user_id, w')
  | (None, w') => (Raised ValueError, w')
  end.

(** ** Concrete worlds for the examples *)

Definition example_config : Config :=
  {| private_channel_id := -1001; tutorial_video_file_id := None;
     tutorial_video_caption := ""; sample_cv_file_ids := []; sample_cv_captions := [] |}.

(** A transport and a store that never fail. *)
Definition reliable (h : list event) (r : request) : option exn := None.

Definition example_env : Env :=
  {| orders := []; candidates := []; subdocs := []; chats := []; administrators := [];
     members := []; next_message_id := 100; uuid_count := 0; clock := 0; log := [];
     uuid_gen := λ n, "uuid-" +:+ pretty n; faults := reliable |}.

Definition example_world : World :=
  {| bot := init_bot example_config; env := example_env |}.

Definition alice : User :=
  {| user_ident := 7; username := Some "Alice"; first_name := Some "Alice";
     last_name := None |}.

Definition admin : User :=
  {| user_ident := 1; username := Some "boss"; first_name := Some "Boss";
     last_name := None |}.

(** Alice pressing the button that carries [token], in her private chat. *)
Definition press (token : string) : CallbackQuery :=
  {| from_user := alice; message_chat_id := 7; data := token; message_caption := None |}.

(** Alice typing [t] in her private chat. *)
Definition says (handler : User → Z → string → prog (option state)) (t : string)
    : prog (option state) :=
  handler alice 7 t.

(** Handlers run one after the other, each to completion; the outcomes are
    collected. *)
Fixpoint run_all {A : Type} (ps : list (prog A)) (w : World) : list (outcome A) * World :=
  match ps with
  | [] => ([], w)
  | p :: rest =>
      let '(o, w') := run p w in
      let '(os, w'') := run_all rest w' in
      (o :: os, w'')
  end.

(** The dialogue of a new user up to the question for the LinkedIn profile. *)
Definition until_linkedin : list (prog (option state)) :=
  [start alice 7; select_language (press "lang_en"); start_collecting_info (press "new_cv");
   says collect_personal_info "Alice"; says collect_personal_info "B.";
   says collect_personal_info "Liddell"; says collect_contact_info "+251900000000";
   says collect_contact_info "alice@example.org"].

(** ... and on to the end of the first education entry. *)
Definition until_education_done : list (prog (option state)) :=
  until_linkedin ++
  [says collect_contact_info "skip"; says collect_contact_info "Addis Ababa";
   says collect_contact_info "Ethiopia";
   handle_profile_image_choice (press "continue_professional");
   says collect_professional_info "Engineer"; says collect_professional_info "Acme";
   says collect_professional_info "Remote"; says collect_professional_info "Built things";
   handle_professional_info_choice (press "continue_education");
   says collect_education "BSc"; says collect_education "AAU"; says collect_education "skip";
   says collect_education "Software engineering"; says collect_education "skip"].

(** ... and through the remaining sections to the confirmed order. *)
Definition until_confirmed : list (prog (option state)) :=
  until_education_done ++
  [handle_education_choice (press "continue_skills");
   says collect_career_objective "skip";
   says collect_certifications "skip";
   handle_certifications_choice (press "continue_projects");
   says collect_projects "CV bot"; says collect_projects "A Telegram bot";
   says collect_projects "skip";
   handle_projects_choice (press "continue_languages");
   says collect_languages "Amharic"; says collect_languages "Native";
   handle_languages_choice (press "continue_activities");
   says collect_activities "skip";
   confirm_order (press "confirm_yes")].

(** Every session object reachable from the table exists. *)
Definition wf_bot (b : Bot) : Prop :=
  ∀ k l, Py.get k (user_sessions b) = Some l → (l < length (heap b))%nat.

(** The session that a handler serving [u] works on, before and after. *)
Definition session_loc (u : User) (w : World) : loc :=
  (get_user_session (str (user_ident u)) (bot w)).1.

Definition session_before (u : User) (w : World) : Session :=
  deref (session_loc u w) (bot w).

Definition session_after {A : Type} (u : User) (p : prog A) (w : World) : Session :=
  deref (session_loc u w) (bot (run p w).2).

(** The executable form of [wf_bot]. *)
Definition wf_botb (b : Bot) : bool :=
  forallb (λ entry : string * loc, (entry.2 <? length (heap b))%nat) (user_sessions b).

(** The "continue" choices of the wizard: the callback data, the state in
    which the button is offered, the state that the handler returns, and the
    handler. *)
Definition continue_choices
    : list (string * state * state * (CallbackQuery → prog (option state))) :=
  [("continue_professional", COLLECT_PROFILE_IMAGE, COLLECT_PROFESSIONAL_INFO,
    handle_profile_image_choice);
   ("continue_education", COLLECT_PROFESSIONAL_INFO, COLLECT_EDUCATION,
    handle_professional_info_choice);
   ("continue_skills", COLLECT_EDUCATION, COLLECT_CAREER_OBJECTIVE,
    handle_education_choice);
   ("continue_career", COLLECT_SKILLS, COLLECT_CAREER_OBJECTIVE,
    handle_skills_choice);
   ("continue_projects", COLLECT_CERTIFICATIONS, COLLECT_PROJECTS,
    handle_certifications_choice);
   ("continue_languages", COLLECT_PROJECTS, COLLECT_LANGUAGES,
    handle_projects_choice);
   ("continue_activities", COLLECT_LANGUAGES, COLLECT_ACTIVITIES,
    handle_languages_choice)].

(** A session into which one skill was entered through the edit menu. *)
Definition with_one_skill : list (prog (option state)) :=
  [start alice 7; edit_info (press "edit_skills");
   says collect_skills "Rocq"; says collect_skills "Expert"].

(** ** Footprints

    [footprint R Q p]: every step of [p] on the process memory is within the
    relation [R], and every call of [p] is one that [Q] allows. *)
Inductive footprint {A : Type} (R : Bot → Bot → Prop) (Q : request → Prop)
    : prog A → Prop :=
| footprint_ret a : footprint R Q (Ret a)
| footprint_raise x : footprint R Q (Raise x)
| footprint_act X (f : Bot → X * Bot) k :
    (∀ b, R b (f b).2) → (∀ y, footprint R Q (k y)) → footprint R Q (Act f k)
| footprint_call r k :
    Q r → (∀ a, footprint R Q (k a)) → footprint R Q (Call r k).

(** The events that a run has added to the log. *)
Definition new_events (w w' : World) : list event :=
  drop (length (log (env w))) (log (env w')).

(** The number of completed [sleep]s, that is of completed rounds of the
    polling loop. *)
Definition is_sleep (ev : event) : bool :=
  match ev.1 with sleep _ => true | _ => false end.

Definition sleeps (evs : list event) : nat := length (List.filter is_sleep evs).

(** Two users whose payments were verified while the notification could not
    be delivered; the transport still fails every message to the first. *)
Definition awaiting_notification (chat : Z) (order : string) : Session :=
  set_notified (Some false) (set_order_id (Some order) (set_chat_id (Some chat) new_session)).

Definition verified_order (ident owner : string) : Order :=
  with_status verified None true (new_order ident "candidate" owner 0).

Definition unreachable (chat : Z) (h : list event) (r : request) : option exn :=
  match r with
  | send_message c _ _ => if (c =? chat) then Some NetworkError else None
  | _ => None
  end.

Definition two_pending (faults : list event → request → option exn) : World :=
  {| bot := {| config := example_config;
               user_sessions := [("7", 0%nat); ("8", 1%nat)];
               heap := [awaiting_notification 7 "o7"; awaiting_notification 8 "o8"];
               user_cache := [] |};
     env := {| orders := [("o7", verified_order "o7" "7"); ("o8", verified_order "o8" "8")];
               candidates := []; subdocs := []; chats := []; administrators := [];
               members := []; next_message_id := 100; uuid_count := 0; clock := 0;
               log := []; uuid_gen := λ n, "uuid-" +:+ pretty n; faults := faults |} |}.

(** The calls with which [handle_admin_response] talks back to the admin:
    the acknowledgement of the button press, the annotation of the evidence
    message and the error replies. *)
Definition is_housekeeping (r : request) : bool :=
  match r with
  | answer_query | edit_message_caption _ | reply_text _ _ => true
  | _ => false
  end.

Definition housekeeping_reliable (e : Env) : Prop :=
  ∀ h r, is_housekeeping r = true → faults e h r = None.

(** A button action token is well formed when it has its three parts. *)
Definition well_formed_token (token : string) : bool :=
  match Py.split "_" (Some 2%nat) token with
  | [_; _; _] => true
  | _ => false
  end.

Definition invalid_token_note : string := "⚠️ **ERROR**: Invalid callback data".

(** A transport on which the acknowledgement of a button press fails. *)
Definition no_acknowledgement (h : list event) (r : request) : option exn :=
  match r with
  | answer_query => Some NetworkError
  | _ => None
  end.

Definition with_faults (f : list event → request → option exn) (w : World) : World :=
  with_env {| orders := orders (env w); candidates := candidates (env w);
              subdocs := subdocs (env w); chats := chats (env w);
              administrators := administrators (env w); members := members (env w);
              next_message_id := next_message_id (env w);
              uuid_count := uuid_count (env w); clock := clock (env w);
              log := log (env w); uuid_gen := uuid_gen (env w); faults := f |} w.

(** The admin pressing a button of the evidence message of Alice's order. *)
Definition admin_press (token : string) : CallbackQuery :=
  {| from_user := admin; message_chat_id := -1001; data := token;
     message_caption := Some "evidence" |}.

(** The store answers every call. *)
Definition store_reliable (e : Env) : Prop :=
  ∀ h r, is_await r = false → faults e h r = None.

(** The reason that the free-text path takes from a reply [reject:...]. *)
Definition reason_of (t : string) : string :=
  or_else (Some (Py.strip (Py.drop 7 (Py.lower t)))) default_reason.

(** Alice sends a photo of her payment. *)
Definition screenshot : Message :=
  {| from := alice; chat_ident_of := 7; text_of := None;
     photos := [{| file_id := "photo-1"; file_size := 120000; file_path := "photos/1.jpg" |}];
     doc := None; vid := None; reply_to_message := None |}.

(** The world in which the evidence of Alice's payment waits in the channel. *)
Definition evidence_world : World :=
  (run (handle_payment_screenshot screenshot) (run_all until_confirmed example_world).2).2.

(** The caption of the last media message that the bot has sent. *)
Definition last_caption (evs : list event) : option string :=
  last (omap (λ ev : event,
                match ev.1 with
                | send_media _ _ _ (Str c) _ => Some c
                | _ => None
                end) evs).

(** The admin replying [t] in the channel to the last evidence message. *)
Definition admin_reply (t : string) (w : World) : Message :=
  {| from := admin; chat_ident_of := private_channel_id (config (bot w));
     text_of := Some t; photos := []; doc := None; vid := None;
     reply_to_message := Some (last_caption (log (env w))) |}.

(** The stored order, if any. *)
Definition stored_status (order : string) (w : World) : option OrderStatus :=
  status <$> Py.get order (orders (env w)).

(** ** Monitors

    A monitor follows a run with a state of its own, which every call may
    change according to its result: [monitored] says that every call is
    allowed in the state in which it is made, and every step on the process
    memory in the state in which it is taken. *)
Record monitor : Type := {
  mstate : Type;
  on_call : mstate → ∀ r : request, exn + answer r → mstate;
  call_ok : mstate → request → Prop;
  act_ok : mstate → Bot → Bot → Prop
}.

Inductive monitored {A : Type} (M : monitor) : mstate M → prog A → Prop :=
| monitored_ret s a : monitored M s (Ret a)
| monitored_raise s x : monitored M s (Raise x)
| monitored_act s X (f : Bot → X * Bot) k :
    (∀ b, act_ok M s b (f b).2) → (∀ y, monitored M s (k y)) → monitored M s (Act f k)
| monitored_call s r k :
    call_ok M s r → (∀ a, monitored M (on_call M s r a) (k a)) → monitored M s (Call r k).

Definition is_send (r : request) : bool :=
  match r with send_message _ _ _ => true | _ => false end.

Definition is_transition (r : request) : bool :=
  match r with
  | Order_approve_payment _ | Order_reject_payment _ _ => true
  | _ => false
  end.

Definition succeeded {X Y : Type} (a : X + Y) : bool :=
  match a with inr _ => true | inl _ => false end.

Definition writes_orders (r : request) : bool :=
  match r with
  | Order_approve_payment _ | Order_reject_payment _ _ | Order_save _ => true
  | _ => false
  end.

(** The monitor of durability before delivery: its state tells whether a
    transition has succeeded; a message may be sent to a user only then, and
    the orders of the store are not written again. *)
Definition durability : monitor :=
  {| mstate := bool;
     on_call := λ s r a, s || (is_transition r && succeeded a);
     call_ok := λ s r, (is_send r = true → s = true) ∧ (writes_orders r = true → s = false);
     act_ok := λ _ _ _, True |}.

(** The transitions that have succeeded are in the store. *)
Definition settled (evs : list event) (e : Env) : Prop :=
  ∀ r, (r, None) ∈ evs →
    match r with
    | Order_approve_payment o =>
        status <$> Py.get (order_ident o) (orders e) = Some verified
    | Order_reject_payment o reason =>
        (λ o', (status o', statusDetails o')) <$> Py.get (order_ident o) (orders e)
        = Some (rejected, Some reason)
    | _ => True
    end.

(** In a list of events, every send to a user comes after a transition that
    succeeded. *)
Definition transition_first (evs : list event) : Prop :=
  ∀ i r x, evs !! i = Some (r, x) → is_send r = true →
    ∃ j r', (j < i)%nat ∧ evs !! j = Some (r', None) ∧ is_transition r' = true.

(** The monitor of the [notified] gate: nothing is sent twice, and [notified]
    is left alone unless the send has succeeded. *)
Inductive delivery : Type := not_sent | sent_ok | sent_failed.

Definition keeps_notified (b b' : Bot) : Prop :=
  ∀ l, notified (deref l b') = notified (deref l b).

Definition gate : monitor :=
  {| mstate := delivery;
     on_call := λ s r a,
       if is_send r then (if succeeded a then sent_ok else sent_failed) else s;
     call_ok := λ s r, is_send r = true → s = not_sent;
     act_ok := λ s b b', s = sent_ok ∨ keeps_notified b b' |}.

Definition send_failed (evs : list event) : Prop :=
  ∃ r x, (r, Some x) ∈ evs ∧ is_send r = true.

Definition send_succeeded (evs : list event) : Prop :=
  ∃ r, (r, None) ∈ evs ∧ is_send r = true.

(** What the monitors know of the run so far. *)
Definition durability_inv (s : bool) (evs : list event) (e : Env) : Prop :=
  transition_first evs ∧ settled evs e ∧
  if s then ∃ j r', evs !! j = Some (r', None) ∧ is_transition r' = true
  else ∀ r, (r, None) ∈ evs → is_transition r = false.

Definition gate_inv (s : delivery) (evs : list event) (b0 b : Bot) : Prop :=
  match s with
  | not_sent => (∀ r x, (r, x) ∈ evs → is_send r = false) ∧ keeps_notified b0 b
  | sent_failed => keeps_notified b0 b
  | sent_ok =>
      send_succeeded evs ∧ ∀ r x, (r, x) ∈ evs → is_send r = true → x = None
  end.

(** ** Deliveries

    A delivery is a message that has been sent to a user's chat.  The poller
    and the admin's free-text reply are the triggers that check [notified]
    before they send. *)
Definition is_delivery (chat : Z) (ev : event) : bool :=
  match ev with
  | (send_message c _ _, None) => (c =? chat)
  | _ => false
  end.

Definition deliveries (chat : Z) (evs : list event) : nat :=
  length (List.filter (is_delivery chat) evs).

Inductive trigger : Type :=
| tick
| free_text_reply (m : option Message).

Definition fire (t : trigger) : prog unit :=
  match t with
  | tick => poll_tick
  | free_text_reply m => handle_admin_reply m
  end.

(** A session that may still be notified in chat [c]: its chat is [c] and
    its [notified] is not set. *)
Definition has_chat (c : Z) (s : Session) : bool :=
  match chat_id s with
  | Some chat => chat =? c
  | None => false
  end.

Definition is_waiting (c : Z) (s : Session) : bool := has_chat c s && negb (get_notified s).

(** The number of entries of the session table whose session may still be
    notified in chat [c].  Only the sessions that the table refers to count:
    an object that a restart or [/cancel] has detached from the table is
    read by no trigger. *)
Definition waiting (c : Z) (b : Bot) : nat :=
  length (List.filter (λ entry : string * loc, is_waiting c (deref entry.2 b))
            (user_sessions b)).

(** [(k, l)] is the one entry of the session table whose session has chat
    [c]: the user [k] is the only one who talks to the bot in [c]. *)
Definition sole_session (k : string) (l : loc) (c : Z) (b : Bot) : Prop :=
  List.filter (λ entry : string * loc, has_chat c (deref entry.2 b)) (user_sessions b)
  = [(k, l)].

(** From [b] to [b'] no session object has changed, and the table has at
    most gained entries for sessions without a chat. *)
Definition same_sessions (b b' : Bot) : Prop :=
  (∀ l, deref l b' = deref l b) ∧
  ∃ more, user_sessions b' = user_sessions b ++ more
          ∧ Forall (λ entry : string * loc, chat_id (deref entry.2 b') = None) more.

(** From [w] to [w'], every delivery to [c] has been paid for by the flag of
    a session of the table that was waiting in [c]; the table has only
    gained entries, and every session has kept its order and its chat. *)
Definition accounted (c : Z) (w w' : World) : Prop :=
  (∃ more, user_sessions (bot w') = user_sessions (bot w) ++ more) ∧
  (∀ l, order_id (deref l (bot w')) = order_id (deref l (bot w))
        ∧ chat_id (deref l (bot w')) = chat_id (deref l (bot w))) ∧
  ∃ evs, log (env w') = log (env w) ++ evs
         ∧ (deliveries c evs + waiting c (bot w') ≤ waiting c (bot w))%nat.

(** Alice has sent [/cancel] and then [/start] after her payment was sent
    in: her entry of the table now refers to a new session object, and the
    old one, with the same chat, is still in the memory, detached. *)
Definition restarted_world : World :=
  (run_all [cancel alice; start alice 7] evidence_world).2.

(** The admin approves Alice's payment by a reply while the poller wakes up:
    both tasks are started, then resumed as [schedule] says. *)
Definition racing (schedule : list nat) : pool * World :=
  let '(ts, w) :=
    spawn (handle_admin_reply (Some (admin_reply "approve" evidence_world))) [] evidence_world in
  let '(ts, w) := spawn poll_tick ts w in
  interleave schedule ts w.

(** A transport on which the annotation of the evidence message fails. *)
Definition no_annotation (h : list event) (r : request) : option exn :=
  match r with
  | edit_message_caption _ => Some BadRequest
  | _ => None
  end.

(** ** The operations of the bot

    Every entry point of [CVBot]: the handlers that the dispatcher calls, the
    error handler, one round of the poller, and the two helpers that write
    the identity cache. *)
Inductive operation : Type :=
| on_start (u : User) (chat : Z)
| on_select_language (q : CallbackQuery)
| on_returning_user_choice (q : CallbackQuery)
| on_start_collecting_info (q : CallbackQuery)
| on_personal_info (u : User) (chat : Z) (text : string)
| on_contact_info (u : User) (chat : Z) (text : string)
| on_profile_image (m : Message)
| on_profile_image_choice (q : CallbackQuery)
| on_professional_info (u : User) (chat : Z) (text : string)
| on_professional_info_choice (q : CallbackQuery)
| on_education (u : User) (chat : Z) (text : string)
| on_education_choice (q : CallbackQuery)
| on_skills (u : User) (chat : Z) (text : string)
| on_skills_choice (q : CallbackQuery)
| on_career_objective (u : User) (chat : Z) (text : string)
| on_certifications (u : User) (chat : Z) (text : string)
| on_certifications_choice (q : CallbackQuery)
| on_projects (u : User) (chat : Z) (text : string)
| on_projects_choice (q : CallbackQuery)
| on_languages (u : User) (chat : Z) (text : string)
| on_languages_choice (q : CallbackQuery)
| on_activities (u : User) (chat : Z) (text : string)
| on_confirm_order (q : CallbackQuery)
| on_edit_info (q : CallbackQuery)
| on_payment_screenshot (m : Message)
| on_admin_response (q : CallbackQuery)
| on_payment_retry (u : User) (chat : Z)
| on_payment_command (u : User) (chat : Z)
| on_admin_reply (m : option Message)
| on_other_message (m : Message)
| on_file (m : option Message)
| on_cancel (u : User)
| on_help (u : User)
| on_error (target : option User)
| on_poll_tick
| on_cache_user_info (u : option User)
| on_resolve_username (name : string).

Definition discard {A : Type} (p : prog A) : prog unit := p;; mret tt.

Definition handler (op : operation) : prog unit :=
  match op with
  | on_start u chat => discard (start u chat)
  | on_select_language q => discard (select_language q)
  | on_returning_user_choice q => discard (handle_returning_user_choice q)
  | on_start_collecting_info q => discard (start_collecting_info q)
  | on_personal_info u chat text => discard (collect_personal_info u chat text)
  | on_contact_info u chat text => discard (collect_contact_info u chat text)
  | on_profile_image m => discard (collect_profile_image m)
  | on_profile_image_choice q => discard (handle_profile_image_choice q)
  | on_professional_info u chat text => discard (collect_professional_info u chat text)
  | on_professional_info_choice q => discard (handle_professional_info_choice q)
  | on_education u chat text => discard (collect_education u chat text)
  | on_education_choice q => discard (handle_education_choice q)
  | on_skills u chat text => discard (collect_skills u chat text)
  | on_skills_choice q => discard (handle_skills_choice q)
  | on_career_objective u chat text => discard (collect_career_objective u chat text)
  | on_certifications u chat text => discard (collect_certifications u chat text)
  | on_certifications_choice q => discard (handle_certifications_choice q)
  | on_projects u chat text => discard (collect_projects u chat text)
  | on_projects_choice q => discard (handle_projects_choice q)
  | on_languages u chat text => discard (collect_languages u chat text)
  | on_languages_choice q => discard (handle_languages_choice q)
  | on_activities u chat text => discard (collect_activities u chat text)
  | on_confirm_order q => discard (confirm_order q)
  | on_edit_info q => discard (edit_info q)
  | on_payment_screenshot m => discard (handle_payment_screenshot m)
  | on_admin_response q => handle_admin_response q
  | on_payment_retry u chat => discard (payment_retry_command u chat)
  | on_payment_command u chat => discard (handle_payment_command u chat)
  | on_admin_reply m => handle_admin_reply m
  | on_other_message m => ignore_non_reply_messages m
  | on_file m => log_file_id m
  | on_cancel u => discard (cancel u)
  | on_help u => help_command u
  | on_error target => error_handler target
  | on_poll_tick => poll_tick
  | on_cache_user_info u => cache_user_info u
  | on_resolve_username name => discard (resolve_username_to_id name)
  end.

(** The operations that attach an order to the session of their user, and
    those that put another object in the place of that session, or none. *)
Definition associates_order (op : operation) : bool :=
  match op with
  | on_confirm_order _ | on_payment_retry _ _ | on_payment_command _ _ => true
  | _ => false
  end.

Definition replaces_session (op : operation) : bool :=
  match op with
  | on_edit_info _ | on_cancel _ => true
  | _ => false
  end.

(** What a step may do to the sessions: it leaves the order of every session
    object alone and does not unset a [notified] that is true; when [strict],
    every identity also keeps its session object. *)
Definition order_view (b b' : Bot) : Prop :=
  ∀ l, (notified (deref l b) = Some true → notified (deref l b') = Some true)
       ∧ order_id (deref l b') = order_id (deref l b).

Definition table_view (b b' : Bot) : Prop :=
  ∀ k l, Py.get k (user_sessions b) = Some l → Py.get k (user_sessions b') = Some l.

Definition session_view (strict : bool) (b b' : Bot) : Prop :=
  order_view b b' ∧ (strict = true → table_view b b').

Definition keeps_order_fields (g : Session → Session) : Prop :=
  ∀ s, (notified s = Some true → notified (g s) = Some true) ∧ order_id (g s) = order_id s.

(** A sequence of operations none of which attaches an order, and one none of
    which replaces a session object. *)
Definition between_orders (ops : list operation) : bool :=
  forallb (λ op, negb (associates_order op)) ops.

Definition keeps_objects (ops : list operation) : bool :=
  forallb (λ op, negb (replaces_session op)) ops.

(** Alice's payment has been rejected and she has been told so. *)
Definition rejected_world : World :=
  (run (handle_admin_reply (Some (admin_reply "reject: blurry" evidence_world)))
     evidence_world).2.

(** What the poller looks at in Alice's session. *)
Definition order_and_flag (w : World) : option string * option bool :=
  (order_id (session_before alice w), notified (session_before alice w)).

(** ** Which operations write the store *)
Definition writes_profile (r : request) : bool :=
  match r with
  | Candidate_save _ | clear_collection _ _ | save_item _ _ => true
  | _ => false
  end.

Definition order_writer (op : operation) : bool :=
  match op with
  | on_confirm_order _ | on_payment_screenshot _ | on_admin_response _ | on_admin_reply _ =>
      true
  | _ => false
  end.

Definition profile_writer (op : operation) : bool :=
  match op with
  | on_confirm_order _ => true
  | _ => false
  end.

(** ** The user that an operation serves *)
Definition served (op : operation) : option User :=
  match op with
  | on_start u _ | on_personal_info u _ _ | on_contact_info u _ _
  | on_professional_info u _ _ | on_education u _ _ | on_skills u _ _
  | on_career_objective u _ _ | on_certifications u _ _ | on_projects u _ _
  | on_languages u _ _ | on_activities u _ _ | on_payment_retry u _
  | on_payment_command u _ | on_cancel u | on_help u => Some u
  | on_select_language q | on_returning_user_choice q | on_start_collecting_info q
  | on_profile_image_choice q | on_professional_info_choice q | on_education_choice q
  | on_skills_choice q | on_certifications_choice q | on_projects_choice q
  | on_languages_choice q | on_confirm_order q | on_edit_info q => Some (from_user q)
  | on_profile_image m | on_payment_screenshot m => Some (from m)
  | on_error target => target
  | _ => None
  end.

(** From [b] to [b'], nothing has happened to the sessions of the users other
    than [k], whose session object is [l]: every other object that existed is
    as it was, and every other identity has the entry it had. *)
Definition others_kept (l : loc) (k : string) (b b' : Bot) : Prop :=
  (length (heap b) ≤ length (heap b'))%nat ∧
  (∀ l', l' ≠ l → (l' < length (heap b))%nat → deref l' b' = deref l' b) ∧
  (∀ k', k' ≠ k → Py.get k' (user_sessions b') = Py.get k' (user_sessions b)) ∧
  user_cache b' = user_cache b.

Definition isolated (k : string) {A : Type} (p : prog A) : Prop :=
  ∀ w, others_kept (get_user_session k (bot w)).1 k (bot w) (bot (run p w).2).

(** ** The text handlers and the fields they wait for

    Each handler that is driven by [current_field], with the fields that its
    [if]/[elif] chain knows, in the order in which they are asked. *)
Definition collectors : list ((User → Z → string → prog (option state)) * list string) :=
  [(collect_personal_info, ["firstName"; "middleName"; "lastName"]);
   (collect_contact_info,
    ["phoneNumber"; "emailAddress"; "linkedinProfile"; "city"; "country"]);
   (collect_professional_info,
    ["work_jobTitle"; "work_companyName"; "work_location"; "work_description"]);
   (collect_education,
    ["edu_degreeName"; "edu_institutionName"; "edu_gpa"; "edu_description";
     "edu_achievementsHonors"]);
   (collect_skills, ["skill_skillName"; "skill_proficiency"]);
   (collect_certifications, ["cert_certificateName"; "cert_issuer"]);
   (collect_projects, ["project_projectTitle"; "project_description"; "project_projectLink"]);
   (collect_languages, ["lang_languageName"; "lang_proficiencyLevel"])].

(** The memory after the two opening lines of a handler that serves [u]. *)
Definition opened (u : User) (chat : Z) (w : World) : World :=
  with_bot (update (session_loc u w) (set_chat_id (Some chat))
              (get_user_session (str (user_ident u)) (bot w)).2) w.

#[global] Instance section_eq_dec : EqDecision section.
Proof. solve_decision. Defined.

(** Alice has opened the skills from the edit menu. *)
Definition editing_skills : World :=
  (run_all [start alice 7; edit_info (press "edit_skills")] example_world).2.

(** Alice has chosen her language and a new CV: the wizard asks for her first
    name. *)
Definition wizard_started : World :=
  (run_all [start alice 7; select_language (press "lang_en");
            start_collecting_info (press "new_cv")] example_world).2.

(** The choices of the edit menu: the callback data, the section that the
    choice empties, the field that the session waits for afterwards (when the
    choice sets it) and the state that [edit_info] returns. *)
Definition edit_choices : list (string * option section * option (option string) * state) :=
  [("edit_personal", None, Some (Some "firstName"), COLLECT_PERSONAL_INFO);
   ("edit_contact", None, Some (Some "phoneNumber"), COLLECT_CONTACT_INFO);
   ("edit_profile_image", None, Some None, COLLECT_PROFILE_IMAGE);
   ("edit_work", Some WorkExperiences, Some (Some "work_jobTitle"), COLLECT_PROFESSIONAL_INFO);
   ("edit_education", Some Educations, Some (Some "edu_degreeName"), COLLECT_EDUCATION);
   ("edit_skills", Some Skills, Some (Some "skill_skillName"), COLLECT_SKILLS);
   ("edit_career", Some CareerObjectives, None, COLLECT_CAREER_OBJECTIVE);
   ("edit_certs", Some CertificationsAwards, Some (Some "cert_certificateName"),
    COLLECT_CERTIFICATIONS);
   ("edit_projects", Some Projects, Some (Some "project_projectTitle"), COLLECT_PROJECTS);
   ("edit_languages", Some Languages, Some (Some "lang_languageName"), COLLECT_LANGUAGES);
   ("edit_activities", Some OtherActivities, None, COLLECT_ACTIVITIES)].

(** ** Uploads

    The checks of the two upload handlers, read on the message itself: the
    largest size of a photo is at most [max_size]; a document is at most
    [max_size], has an allowed MIME type and, when it has a name, an allowed
    extension. *)
Definition acceptable_upload (m : Message) : bool :=
  match last (photos m), doc m with
  | Some p, _ => negb (max_size <? file_size p)
  | None, Some d =>
      negb (max_size <? file_size (document_file d))
      && among (mime_type d) allowed_mime_types
      && match file_name d with
         | Some (String c r) => among (extension (String c r)) allowed_extensions
         | _ => true
         end
  | None, None => false
  end.

(** The file of the upload: the largest size of the photo, else the
    document. *)
Definition uploaded_file (m : Message) : option File :=
  match last (photos m), doc m with
  | Some p, _ => Some p
  | None, Some d => Some (document_file d)
  | None, None => None
  end.

Definition is_media (r : request) : bool :=
  match r with send_media _ _ _ _ _ => true | _ => false end.

(** What a forwarded upload has to satisfy. *)
Definition sends_upload (m : Message) (channel : Z) (r : request) : Prop :=
  is_media r = true →
  acceptable_upload m = true ∧
  ∃ f kind caption buttons,
    uploaded_file m = Some f ∧ r = send_media kind channel (file_id f) caption buttons.

Definition sends_evidence (m : Message) (w : World) (r : request) : Prop :=
  is_media r = true →
  acceptable_upload m = true ∧
  ∃ f kind what retry phone order,
    uploaded_file m = Some f ∧
    order_id (session_before (from m) w) = Some order ∧
    r = send_media kind (private_channel_id (config (bot w))) (file_id f)
          (payment_caption what retry
             ((user_info_of (from m) +:+ nl +:+ "📋 Order ID: " +:+ order)
              +:+ nl +:+ "📞 Phone: " +:+ phone))
          (decision_buttons (str (user_ident (from m))) order).

(** [sub in s] *)
Fixpoint occurs (sub s : string) : bool :=
  String.prefix sub s
  || match s with
     | EmptyString => false
     | String _ s' => occurs sub s'
     end.

(** A bot with two sample CVs whose transport refuses every document. *)
Definition no_documents (h : list event) (r : request) : option exn :=
  match r with
  | send_media document _ _ _ _ => Some NetworkError
  | _ => None
  end.

Definition samples_world : World :=
  {| bot := init_bot {| private_channel_id := -1001; tutorial_video_file_id := None;
                        tutorial_video_caption := "";
                        sample_cv_file_ids := ["cv-1"; "cv-2"];
                        sample_cv_captions := ["One"; "Two"] |};
     env := {| orders := []; candidates := []; subdocs := []; chats := [];
               administrators := []; members := []; next_message_id := 100;
               uuid_count := 0; clock := 0; log := [];
               uuid_gen := λ n, "uuid-" +:+ pretty n; faults := no_documents |} |}.
(** A saved sub-document carries the uid [u]. *)
Definition is_tagged (u : string) (ev : event) : Prop :=
  match ev.1 with
  | save_item _ it => Py.get "candidate_uid" it = Some (PyStr u)
  | _ => True
  end.

(** Every sub-document that is handed to the store in [evs] carries the uid
    of a candidate that was saved earlier in [evs]. *)
Definition tagged_in_order (evs : list event) : Prop :=
  ∀ j name it x,
    evs !! j = Some (save_item name it, x) →
    ∃ i cand, (i < j)%nat ∧ evs !! i = Some (Candidate_save cand, None)
              ∧ Py.get "candidate_uid" it = Some (PyStr (uid cand)).

(** From [w] to [w'] the log has grown by events that satisfy [P]; the table
    of sessions is the same and no session object was created. *)
Definition grows (P : event → Prop) (w w' : World) : Prop :=
  user_sessions (bot w') = user_sessions (bot w) ∧
  length (heap (bot w')) = length (heap (bot w)) ∧
  ∃ evs, log (env w') = log (env w) ++ evs ∧ Forall P evs.
(** Alice has answered every question of the wizard and sees the summary. *)
Definition summary_shown : World := (run_all (removelast until_confirmed) example_world).2.

(** The admin pressing the approve button under Alice's evidence. *)
Definition approve_press : CallbackQuery :=
  {| from_user := admin; message_chat_id := -1001;
     data := "approve_" +:+ str 7 +:+ "_" +:+ "uuid-1"; message_caption := None |}.

(** * Properties *)

(** ** Python strings *)

Example lower_mixed : Py.lower "Reject: Blurry" = "reject: blurry".
Proof. reflexivity. Qed.

Example strip_both : Py.strip "  a b  " = "a b".
Proof. reflexivity. Qed.

(** [str.lower] and [str.strip] are those of Unicode: the Kelvin sign
    [U+212A] is lowered to [k], an accented capital to its small letter, a
    capital sigma at the end of a word to the final sigma; the no-break space
    [U+00A0] and the ideographic space [U+3000] are stripped; a slice counts
    code points, not bytes. *)
Example lower_kelvin : Py.lower "sKip" = "skip".
Proof. vm_compute. reflexivity. Qed.

Example lower_accent : Py.lower "Reject: CAFÉ" = "reject: café".
Proof. vm_compute. reflexivity. Qed.

Example lower_final_sigma : Py.lower "ΟΔΟΣ ΣΑ" = "οδος σα".
Proof. vm_compute. reflexivity. Qed.

Example lower_dotted_capital : Py.decode (Py.lower "İ") = [105; 775].
Proof. vm_compute. reflexivity. Qed.

Example strip_no_break_space : Py.strip "  a　b 　 " = "a　b".
Proof. vm_compute. reflexivity. Qed.

Example drop_code_points : Py.drop 2 "éKk" = "k".
Proof. vm_compute. reflexivity. Qed.

Example decode_encode : Py.encode (Py.decode "sKip é 👤") = "sKip é 👤".
Proof. vm_compute. reflexivity. Qed.

Example split_token : Py.split "_" (Some 2%nat) "approve_42_ab_cd" = ["approve"; "42"; "ab_cd"].
Proof. reflexivity. Qed.

Example split_caption :
  Py.split "Order ID: " None "x Order ID: o1 y" = ["x "; "o1 y"].
Proof. reflexivity. Qed.

Example split_trailing : Py.split "," None "a,,b," = ["a"; ""; "b"; ""].
Proof. reflexivity. Qed.

(** ** Dictionaries *)

Section DictFacts.
Context {V : Type}.
Implicit Types (d : Py.dict V) (k : string) (v : V).

Lemma get_set_eq d k v : Py.get k (Py.set k v d) = Some v.
Proof.
  induction d as [|[k' v'] d IH]; simpl.
  - by rewrite String.eqb_refl.
  - destruct (String.eqb k k') eqn:E; simpl.
    + by rewrite String.eqb_refl.
    + by rewrite E.
Qed.

Lemma get_set_ne d k k' v : k ≠ k' → Py.get k' (Py.set k v d) = Py.get k' d.
Proof.
  intros Hne. induction d as [|[k0 v0] d IH]; simpl.
  - destruct (String.eqb k' k) eqn:E; [|done].
    apply String.eqb_eq in E. congruence.
  - destruct (String.eqb k k0) eqn:E; simpl.
    + apply String.eqb_eq in E. subst k0.
      destruct (String.eqb k' k) eqn:E'; [|done].
      apply String.eqb_eq in E'. congruence.
    + by rewrite IH.
Qed.

Lemma set_same d k v : Py.get k d = Some v → Py.set k v d = d.
Proof.
  induction d as [|[k' v'] d IH]; simpl; [done|].
  destruct (String.eqb k k') eqn:E.
  - apply String.eqb_eq in E. intros [= ->]. by subst.
  - intros H. by rewrite IH.
Qed.

Lemma get_del_eq d k : Py.get k (Py.del k d) = None.
Proof.
  induction d as [|[k' v'] d IH]; simpl; [done|].
  destruct (String.eqb k k') eqn:E; simpl; [done|]. by rewrite E.
Qed.

Lemma get_del_ne d k k' : k ≠ k' → Py.get k' (Py.del k d) = Py.get k' d.
Proof.
  intros Hne. induction d as [|[k0 v0] d IH]; simpl; [done|].
  destruct (String.eqb k k0) eqn:E; simpl.
  - apply String.eqb_eq in E. subst k0.
    destruct (String.eqb k' k) eqn:E'; [|done].
    apply String.eqb_eq in E'. congruence.
  - by rewrite IH.
Qed.

Lemma get_elem_of d k v : Py.get k d = Some v → (k, v) ∈ d.
Proof.
  induction d as [|[k' v'] d IH]; simpl; [done|].
  destruct (String.eqb k k') eqn:E.
  - apply String.eqb_eq in E. intros [= ->]. subst. left.
  - intros H. right. auto.
Qed.
End DictFacts.

(** ** The process memory *)

Lemma deref_alloc s b : deref (alloc s b).1 (alloc s b).2 = s.
Proof.
  unfold deref, alloc; simpl.
  rewrite lookup_total_app_r; [|done]. by rewrite Nat.sub_diag.
Qed.

Lemma deref_alloc_old s b l : (l < length (heap b))%nat → deref l (alloc s b).2 = deref l b.
Proof. intros H. unfold deref, alloc; simpl. by rewrite lookup_total_app_l. Qed.

Lemma deref_update_eq l f b : (l < length (heap b))%nat → deref l (update l f b) = f (deref l b).
Proof.
  intros H. unfold deref, update; simpl.
  rewrite !list_lookup_total_alt, list_lookup_alter_eq.
  destruct (heap b !! l) eqn:E; [done|].
  apply lookup_ge_None in E. lia.
Qed.

Lemma deref_update_ne l l' f b : l ≠ l' → deref l' (update l f b) = deref l' b.
Proof.
  intros H. unfold deref, update; simpl.
  by rewrite !list_lookup_total_alt, list_lookup_alter_ne.
Qed.

Lemma deref_update l l' f b (P : Session → Prop) :
  P (deref l' b) → (∀ s, P s → P (f s)) → P (deref l' (update l f b)).
Proof.
  intros H Hf. unfold deref, update in *; simpl.
  rewrite list_lookup_total_alter. case_decide as Hd; [|done].
  destruct Hd as [<- _]. auto.
Qed.

Lemma length_heap_update l f b : length (heap (update l f b)) = length (heap b).
Proof. unfold update; simpl. by rewrite length_alter. Qed.

(** ** Running programs *)

Lemma run_bind {A B : Type} (p : prog A) (f : A → prog B) w :
  run (p ≫= f) w = and_then (run p w) (λ a, run (f a)).
Proof.
  unfold mbind, prog_bind. revert w.
  induction p as [a|x|X g k IH|r k IH]; intros w; simpl; try done.
  - destruct (g (bot w)) as [y b]. apply IH.
  - destruct (perform r (env w)) as [a e]. apply IH.
Qed.

Lemma run_ret {A : Type} (a : A) w : run (mret a) w = (Returned a, w).
Proof. done. Qed.

Lemma run_raise {A : Type} (x : exn) w : run (Raise x : prog A) w = (Raised x, w).
Proof. done. Qed.

Lemma run_act {X : Type} (f : Bot → X * Bot) w :
  run (act f) w = (Returned (f (bot w)).1, with_bot (f (bot w)).2 w).
Proof. unfold act; simpl. by destruct (f (bot w)). Qed.

Lemma run_call r w :
  run (call r) w =
  (match (perform r (env w)).1 with inl x => Raised x | inr a => Returned a end,
   with_env (perform r (env w)).2 w).
Proof. unfold call; simpl. by destruct (perform r (env w)) as [[x|a] e]. Qed.

Lemma run_try_except {A : Type} (p : prog A) catches h w :
  run (try_except p catches h) w =
  match run p w with
  | (Raised x, w') => if catches x then run (h x) w' else (Raised x, w')
  | r => r
  end.
Proof.
  revert w. induction p as [a|x|X g k IH|r k IH]; intros w; simpl; try done.
  - by destruct (catches x).
  - destruct (g (bot w)) as [y b]. apply IH.
  - destruct (perform r (env w)) as [a e]. apply IH.
Qed.

Lemma run_for_each_cons {X : Type} (x : X) l (body : X → prog unit) w :
  run (for_each (x :: l) body) w = and_then (run (body x) w) (λ _, run (for_each l body)).
Proof. simpl. apply run_bind. Qed.

(** The coroutine semantics agrees with [run]: running to completion is
    advancing to the next [await] and running what is left. *)
Lemma run_advance {A : Type} (p : prog A) w :
  run p w =
  match advance p w with
  | (Done o, w') => (o, w')
  | (Waiting r k, w') => run (Call r k) w'
  end.
Proof.
  revert w. induction p as [a|x|X g k IH|r k IH]; intros w; simpl; try done.
  - destruct (g (bot w)) as [y b]. apply IH.
  - destruct (is_await r); [done|].
    destruct (perform r (env w)) as [a e]. apply IH.
Qed.

Lemma perform_log r e : ∃ x, log (perform r e).2 = log e ++ [(r, x)].
Proof.
  unfold perform. destruct (if is_local r then None else faults e (log e) r); simpl; [eauto|].
  destruct (exec r e) as [a e']; simpl. eauto.
Qed.

(** Symbolic execution of [run], one step at a time. *)
Ltac run_norm := cbn [and_then fst snd bot env with_env with_bot].

Ltac run_step :=
  first [ rewrite run_bind | rewrite run_act | rewrite run_ret | rewrite run_raise
        | rewrite run_try_except
        | match goal with
          | |- context [@run _ (call ?r) ?w] =>
              first
                [ rewrite (run_call r w)
                | let H := fresh in
                  pose proof (run_call r w) as H; cbn [answer] in H; rewrite H; clear H ]
          end ];
  run_norm.

Ltac run_perform :=
  match goal with
  | H : perform ?r ?e = _ |- context [perform ?r ?e] => rewrite H; run_norm
  | |- context [perform ?r ?e] => destruct (perform r e) as [[?|?] ?] eqn:?; run_norm
  end.

(** ** Session creation *)

Lemma get_user_session_existing user_id l b :
  Py.get user_id (user_sessions b) = Some l → get_user_session user_id b = (l, b).
Proof. intros H. unfold get_user_session. by rewrite H. Qed.

Lemma get_user_session_fresh user_id b :
  Py.get user_id (user_sessions b) = None →
  get_user_session user_id b =
  (length (heap b),
   set_user_sessions (Py.set user_id (length (heap b)) (user_sessions b))
     (set_heap (heap b ++ [new_session]) b)).
Proof. intros H. unfold get_user_session. by rewrite H. Qed.

Lemma get_user_session_registered user_id b :
  Py.get user_id (user_sessions (get_user_session user_id b).2)
  = Some (get_user_session user_id b).1.
Proof.
  destruct (Py.get user_id (user_sessions b)) as [l|] eqn:E.
  - by rewrite (get_user_session_existing _ _ _ E).
  - rewrite (get_user_session_fresh _ _ E). simpl. apply get_set_eq.
Qed.

(** C10. The first call of [get_user_session] for an identity creates a
    session: it appends one new object to the memory, with language ['en'],
    the eight section sequences empty, the six draft items empty and no
    current field, and enters it in the session table under the identity,
    leaving the objects of the memory and the entries of the other
    identities as they are.  After any call the table holds the returned
    reference under the identity and the reference denotes an object of the
    memory.  A call for an identity that has a session returns that very
    session and leaves the whole process memory as it is, so calling again
    never resets what was accumulated. *)
Theorem get_user_session_idempotent (user_id : string) (b : Bot) :
  let '(l, b1) := get_user_session user_id b in
  Py.get user_id (user_sessions b1) = Some l ∧
  (Py.get user_id (user_sessions b) = None →
     l = length (heap b) ∧
     heap b1 = heap b ++ [new_session] ∧
     heap b1 !! l = Some new_session ∧
     (∀ k, k ≠ user_id → Py.get k (user_sessions b1) = Py.get k (user_sessions b)) ∧
     user_cache b1 = user_cache b ∧ config b1 = config b ∧
     deref l b1 = new_session ∧
     language (deref l b1) = "en" ∧
     (∀ c, get_section c (deref l b1) = []) ∧
     current_work_experience (deref l b1) = [] ∧ current_education (deref l b1) = [] ∧
     current_skill (deref l b1) = [] ∧ current_certification (deref l b1) = [] ∧
     current_project (deref l b1) = [] ∧ current_language (deref l b1) = [] ∧
     current_field (deref l b1) = None ∧
     (∀ l', (l' < length (heap b))%nat → deref l' b1 = deref l' b)) ∧
  (∀ l0, Py.get user_id (user_sessions b) = Some l0 → l = l0 ∧ b1 = b) ∧
  get_user_session user_id b1 = (l, b1).
Proof.
  destruct (get_user_session user_id b) as [l b1] eqn:E.
  assert (Hreg := get_user_session_registered user_id b). rewrite E in Hreg; simpl in Hreg.
  split; [exact Hreg|]. split; [|split].
  - intros Hnone. rewrite (get_user_session_fresh _ _ Hnone) in E.
    injection E as <- <-.
    assert (Hd : deref (length (heap b))
                   (set_user_sessions (Py.set user_id (length (heap b)) (user_sessions b))
                      (set_heap (heap b ++ [new_session]) b)) = new_session).
    { unfold deref; simpl. rewrite lookup_total_app_r by done. by rewrite Nat.sub_diag. }
    rewrite Hd. repeat split; try done.
    + simpl. rewrite lookup_app_r by done. by rewrite Nat.sub_diag.
    + intros k Hk. simpl. apply get_set_ne. congruence.
    + by intros [].
    + intros l' Hl'. unfold deref; simpl. by rewrite lookup_total_app_l.
  - intros l0 H0. rewrite (get_user_session_existing _ _ _ H0) in E. by injection E as <- <-.
  - by apply get_user_session_existing.
Qed.

(** A second identity gets an object of its own: the session of the first
    stays where it was and as it was. *)
Example get_user_session_twice :
  let first := get_user_session "7" (init_bot example_config) in
  let second := get_user_session "8" first.2 in
  get_user_session "7" second.2 = (first.1, second.2) ∧ second.1 ≠ first.1.
Proof. vm_compute. split; [reflexivity | discriminate]. Qed.

(** ** The username resolver *)

Lemma populate_cached key user_id w :
  Py.get key (user_cache (bot w)) = Some user_id → populate key user_id w = w.
Proof.
  intros H. unfold populate, with_bot. rewrite (set_same _ _ _ H).
  by destruct w as [[] ?].
Qed.

Lemma with_bot_same w : with_bot (bot w) w = w.
Proof. by destruct w. Qed.

Lemma resolve_username_to_id_refines name w :
  run (resolve_username_to_id name) w = resolve name w.
Proof.
  unfold resolve_username_to_id, resolve, first_success, cache_tier. fold (normalized name).
  set (key := normalized name).
  do 2 run_step. rewrite with_bot_same.
  destruct (Py.get key (user_cache (bot w))) as [u|] eqn:Hc.
  { run_step. by rewrite (populate_cached _ _ _ Hc). }
  unfold chat_tier, admins_tier, member_tier, lookup_tier, remember, global, Exception, populate.
  run_norm.
  repeat first
    [ run_step
    | run_perform
    | match goal with
      | |- context [is_private ?c] => destruct (is_private c)
      | |- context [List.find ?f ?l] => destruct (List.find f l); cbn [fmap option_fmap option_map]
      end ];
  done.
Qed.

(** C8. [resolve_username_to_id] is the chain of tiers in their fixed order
    (cache under the normalised handle, direct chat lookup accepted only for a
    private chat, scan of the channel's administrators, channel-member
    lookup): the first tier that succeeds wins and its result is cached, a
    tier that fails hands over to the next one, and when all have failed the
    call raises [ValueError].  After a call that returned an identity, a
    second call for the same handle returns it again in any environment
    without touching the world: no external tier is invoked. *)
Theorem resolve_username_to_id_tiers (name : string) (w : World) :
  run (resolve_username_to_id name) w = resolve name w ∧
  ∀ user_id w',
    run (resolve_username_to_id name) w = (Returned user_id, w') →
    Py.get (normalized name) (user_cache (bot w')) = Some user_id ∧
    ∀ e, run (resolve_username_to_id name) (with_env e w') = (Returned user_id, with_env e w').
Proof.
  split; [apply resolve_username_to_id_refines|].
  intros u w' Hrun.
  assert (Hc : Py.get (normalized name) (user_cache (bot w')) = Some u).
  { rewrite resolve_username_to_id_refines in Hrun. unfold resolve in Hrun.
    destruct (first_success _ _ w) as [[u'|] w1] eqn:Hfs; [|done].
    injection Hrun as -> ->.
    revert Hfs. generalize [cache_tier; chat_tier; admins_tier; member_tier]. intros ts.
    revert w. induction ts as [|t ts IH]; intros w; simpl; [done|].
    destruct (t (normalized name) w) as [[v|] w2].
    - intros [= -> <-]. simpl. apply get_set_eq.
    - apply IH. }
  split; [done|]. intros e.
  rewrite resolve_username_to_id_refines. unfold resolve, first_success, cache_tier.
  change (bot (with_env e w')) with (bot w'). rewrite Hc.
  by rewrite populate_cached.
Qed.

(** ** The wizard *)

Lemma deref_get_user_session k b l : deref l (get_user_session k b).2 = deref l b.
Proof.
  unfold get_user_session. destruct (Py.get k (user_sessions b)); [done|].
  unfold deref, alloc; simpl.
  destruct (decide (l < length (heap b))%nat) as [Hlt|Hge].
  - by rewrite lookup_total_app_l.
  - rewrite !list_lookup_total_alt.
    rewrite (proj2 (lookup_ge_None (heap b) l)) by lia.
    destruct (decide (l = length (heap b))) as [->|Hne].
    + rewrite lookup_app_r by done. by rewrite Nat.sub_diag.
    + rewrite (proj2 (lookup_ge_None _ l)); [done|]. rewrite length_app; simpl. lia.
Qed.

Lemma get_user_session_valid k b :
  wf_bot b → ((get_user_session k b).1 < length (heap (get_user_session k b).2))%nat.
Proof.
  intros Hwf. unfold get_user_session.
  destruct (Py.get k (user_sessions b)) as [l|] eqn:E; simpl.
  - eauto.
  - rewrite length_app; simpl. lia.
Qed.

Example traversal_skips_skills :
  (run_all until_confirmed example_world).1 =
  Returned <$> (Some <$>
    [SELECT_LANGUAGE; START; COLLECT_PERSONAL_INFO;
     COLLECT_PERSONAL_INFO; COLLECT_PERSONAL_INFO; COLLECT_CONTACT_INFO;
     COLLECT_CONTACT_INFO; COLLECT_CONTACT_INFO; COLLECT_CONTACT_INFO; COLLECT_CONTACT_INFO;
     COLLECT_PROFILE_IMAGE; COLLECT_PROFESSIONAL_INFO;
     COLLECT_PROFESSIONAL_INFO; COLLECT_PROFESSIONAL_INFO; COLLECT_PROFESSIONAL_INFO;
     COLLECT_PROFESSIONAL_INFO; COLLECT_EDUCATION;
     COLLECT_EDUCATION; COLLECT_EDUCATION; COLLECT_EDUCATION; COLLECT_EDUCATION;
     COLLECT_EDUCATION; COLLECT_CAREER_OBJECTIVE; COLLECT_CERTIFICATIONS;
     COLLECT_CERTIFICATIONS; COLLECT_PROJECTS; COLLECT_PROJECTS; COLLECT_PROJECTS;
     COLLECT_PROJECTS; COLLECT_LANGUAGES; COLLECT_LANGUAGES; COLLECT_LANGUAGES;
     COLLECT_ACTIVITIES; CONFIRM_ORDER; PAYMENT]).
Proof. vm_compute. reflexivity. Qed.

Lemma wf_botb_sound b : wf_botb b = true → wf_bot b.
Proof.
  unfold wf_botb, wf_bot. intros H k l Hk.
  apply get_elem_of, list_elem_of_In in Hk.
  rewrite forallb_forall in H. apply H in Hk. simpl in Hk. by apply Nat.ltb_lt.
Qed.

Lemma field_is_eq s name : current_field s = Some name → ∀ other, field_is s other = eqs name other.
Proof. intros H other. unfold field_is. by rewrite H. Qed.

Ltac deref_simpl :=
  repeat first
    [ rewrite deref_update_eq by (rewrite ?length_heap_update; assumption)
    | rewrite deref_get_user_session ].

(** Decide the comparisons of two string literals. *)
Ltac eqs_literals :=
  repeat match goal with
    | |- context [eqs ?a ?b] =>
        let v := eval vm_compute in (eqs a b) in
        lazymatch v with
        | true => change (eqs a b) with true
        | false => change (eqs a b) with false
        end
    end;
  cbv beta iota.

(** Unfold the helpers of the handlers, outermost first. *)
Ltac unfold_ops :=
  unfold reply, edit; unfold prompt, open_session, notify_once;
  unfold session_of, modify, read, global, remember, when.

(** The opening of a proof about a handler that serves [u]: name the session
    object and the memory right after [get_user_session]. *)
Ltac open_handler u w Hwf l b1 Hl :=
  unfold session_after, session_before, session_loc in *;
  pose proof (get_user_session_valid (str (user_ident u)) _ Hwf) as Hl;
  repeat match goal with
    | H : context [deref _ (bot w)] |- _ =>
        rewrite <- (deref_get_user_session (str (user_ident u))) in H
    end;
  rewrite <- ?(deref_get_user_session (str (user_ident u)) (bot w));
  set (l := (get_user_session (str (user_ident u)) (bot w)).1) in *;
  set (b1 := (get_user_session (str (user_ident u)) (bot w)).2) in *.

(** Run a text handler whose session waits for the field [name]. *)
Ltac run_field Hf chat l b1 :=
  unfold_ops; repeat run_step; fold l b1;
  let Hf' := fresh in
  assert (Hf' : current_field (deref l (update l (set_chat_id (Some chat)) b1)) = _)
    by (deref_simpl; exact Hf);
  rewrite !(field_is_eq _ _ Hf'); eqs_literals;
  repeat first [run_step | run_perform]; deref_simpl.

Lemma linkedin_skip u chat t w :
  wf_bot (bot w) →
  current_field (session_before u w) = Some "linkedinProfile" →
  Py.get "linkedinProfile" (candidate_data (session_after u (collect_contact_info u chat t) w))
  = Some (unless_skip t).
Proof.
  intros Hwf Hf. open_handler u w Hwf l b1 Hl.
  unfold collect_contact_info. run_field Hf chat l b1; simpl; apply get_set_eq.
Qed.

Lemma gpa_skip u chat t w :
  wf_bot (bot w) →
  current_field (session_before u w) = Some "edu_gpa" →
  Py.get "gpa" (current_education (session_after u (collect_education u chat t) w))
  = Some (unless_skip t).
Proof.
  intros Hwf Hf. open_handler u w Hwf l b1 Hl.
  unfold collect_education. run_field Hf chat l b1; simpl; apply get_set_eq.
Qed.

Lemma achievements_skip u chat t w :
  wf_bot (bot w) →
  current_field (session_before u w) = Some "edu_achievementsHonors" →
  education (session_after u (collect_education u chat t) w)
  = education (session_before u w) ++
    [Py.set "achievementsHonors" (unless_skip t) (current_education (session_before u w))].
Proof.
  intros Hwf Hf. open_handler u w Hwf l b1 Hl.
  unfold collect_education. run_field Hf chat l b1; done.
Qed.

Lemma project_link_skip u chat t w :
  wf_bot (bot w) →
  current_field (session_before u w) = Some "project_projectLink" →
  projects (session_after u (collect_projects u chat t) w)
  = projects (session_before u w) ++
    [if is_skip t then current_project (session_before u w)
     else Py.set "projectLink" (PyStr t) (current_project (session_before u w))].
Proof.
  intros Hwf Hf. open_handler u w Hwf l b1 Hl.
  unfold collect_projects. unfold_ops. repeat run_step. fold l b1.
  assert (Hf' : current_field (deref l (update l (set_chat_id (Some chat)) b1)) = _)
    by (deref_simpl; exact Hf).
  rewrite !(field_is_eq _ _ Hf'); eqs_literals.
  destruct (is_skip t); cbn [negb];
    repeat first [run_step | run_perform]; deref_simpl; done.
Qed.

Lemma career_objective_skip u chat t w :
  wf_bot (bot w) →
  careerObjectives (session_after u (collect_career_objective u chat t) w)
  = careerObjectives (session_before u w) ++
    (if is_skip t then [] else [[("summaryText", PyStr t)]]).
Proof.
  intros Hwf. open_handler u w Hwf l b1 Hl.
  unfold collect_career_objective. unfold_ops. repeat run_step. fold l b1.
  destruct (is_skip t); cbn [negb];
    repeat first [run_step | run_perform]; deref_simpl; simpl; by rewrite ?app_nil_r.
Qed.

Lemma activities_skip u chat t w :
  wf_bot (bot w) →
  otherActivities (session_after u (collect_activities u chat t) w)
  = otherActivities (session_before u w) ++
    (if is_skip t then []
     else [[("activityType", PyStr "Other"); ("description", PyStr t)]]).
Proof.
  intros Hwf. open_handler u w Hwf l b1 Hl.
  unfold collect_activities. unfold_ops. repeat run_step. fold l b1.
  destruct (is_skip t); cbn [negb];
    repeat first [run_step | run_perform]; deref_simpl; simpl; by rewrite ?app_nil_r.
Qed.

Lemma is_skip_spec t : is_skip t = true ↔ Py.lower t = "skip".
Proof. unfold is_skip, eqs. apply String.eqb_eq. Qed.

(** C6, as amended.  For each of the six optional fields the sentinel is the
    word [skip] in any letter case: the handlers compare [text.lower()], the
    lower-casing of Unicode, with ['skip'].  On the sentinel the attribute stays unset: [None] is
    stored for the contact link, the GPA and the achievements, no
    [projectLink] key is added to the project, and no item is appended for the
    career objective or the other activities.  Any other text is stored as it
    was typed. *)
Theorem skip_sentinel_leaves_unset (u : User) (chat : Z) (t : string) (w : World) :
  wf_bot (bot w) →
  (is_skip t = true ↔ Py.lower t = "skip") ∧
  (current_field (session_before u w) = Some "linkedinProfile" →
   Py.get "linkedinProfile"
     (candidate_data (session_after u (collect_contact_info u chat t) w))
   = Some (if is_skip t then PyNone else PyStr t)) ∧
  (current_field (session_before u w) = Some "edu_gpa" →
   Py.get "gpa" (current_education (session_after u (collect_education u chat t) w))
   = Some (if is_skip t then PyNone else PyStr t)) ∧
  (current_field (session_before u w) = Some "edu_achievementsHonors" →
   education (session_after u (collect_education u chat t) w)
   = education (session_before u w) ++
     [Py.set "achievementsHonors" (if is_skip t then PyNone else PyStr t)
        (current_education (session_before u w))]) ∧
  (current_field (session_before u w) = Some "project_projectLink" →
   projects (session_after u (collect_projects u chat t) w)
   = projects (session_before u w) ++
     [if is_skip t then current_project (session_before u w)
      else Py.set "projectLink" (PyStr t) (current_project (session_before u w))]) ∧
  careerObjectives (session_after u (collect_career_objective u chat t) w)
  = careerObjectives (session_before u w) ++
    (if is_skip t then [] else [[("summaryText", PyStr t)]]) ∧
  otherActivities (session_after u (collect_activities u chat t) w)
  = otherActivities (session_before u w) ++
    (if is_skip t then []
     else [[("activityType", PyStr "Other"); ("description", PyStr t)]]).
Proof.
  intros Hwf. split; [apply is_skip_spec|].
  split; [by apply linkedin_skip|]. split; [by apply gpa_skip|].
  split; [by apply achievements_skip|]. split; [by apply project_link_skip|].
  split; [by apply career_objective_skip | by apply activities_skip].
Qed.

(** Witness of C6: Alice, asked for her LinkedIn profile, answers [skip]. *)
Lemma skip_sentinel_leaves_unset_witness :
  wf_bot (bot (run_all until_linkedin example_world).2) ∧
  Py.get "linkedinProfile"
    (candidate_data
       (session_after alice (collect_contact_info alice 7 "skip")
          (run_all until_linkedin example_world).2))
  = Some PyNone.
Proof.
  assert (Hwf : wf_bot (bot (run_all until_linkedin example_world).2))
    by (apply wf_botb_sound; vm_compute; reflexivity).
  split; [exact Hwf|].
  apply (proj1 (proj2 (skip_sentinel_leaves_unset alice 7 "skip" _ Hwf))).
  vm_compute. reflexivity.
Defined.

(** Counterexample to C6 as stated: [SKIP] is a non-empty text other than the
    literal [skip], yet it is not accepted as the value of the contact link. *)
Lemma skip_sentinel_ignores_case :
  "SKIP" ≠ "skip" ∧ "SKIP" ≠ "" ∧
  Py.get "linkedinProfile"
    (candidate_data
       (session_after alice (collect_contact_info alice 7 "SKIP")
          (run_all until_linkedin example_world).2))
  = Some PyNone.
Proof. split; [done|]. split; [done|]. vm_compute. reflexivity. Qed.

(** The lower-casing is that of [str.lower]: a text spelled with the Kelvin
    sign [U+212A], which it maps to [k], is the sentinel as well, and a text
    with other letters is stored as it was typed. *)
Example skip_sentinel_kelvin_sign :
  is_skip "sKip" = true ∧ is_skip "SKIP" = true ∧ is_skip "skip " = false ∧
  Py.get "linkedinProfile"
    (candidate_data
       (session_after alice (collect_contact_info alice 7 "sKip")
          (run_all until_linkedin example_world).2))
  = Some PyNone ∧
  Py.get "linkedinProfile"
    (candidate_data
       (session_after alice (collect_contact_info alice 7 "ΙΣ")
          (run_all until_linkedin example_world).2))
  = Some (PyStr "ΙΣ").
Proof. repeat split; vm_compute; reflexivity. Qed.

Lemma deref_out_of_range l b : (length (heap b) ≤ l)%nat → deref l b = new_session.
Proof.
  intros H. unfold deref. rewrite list_lookup_total_alt.
  by rewrite (proj2 (lookup_ge_None _ _) H).
Qed.

Lemma get_section_frame c (f : Session → Session) :
  (∀ s c', get_section c' (f s) = get_section c' s) →
  ∀ l l' b X, get_section c (deref l' b) = X → get_section c (deref l' (update l f b)) = X.
Proof.
  intros Hf l l' b X H.
  apply (deref_update l l' f b (λ s, get_section c s = X)); [done|].
  intros s Hs. by rewrite Hf.
Qed.

(** Setters that touch no section sequence. *)
Ltac frame_sections :=
  repeat first
    [ apply get_section_frame; [by intros ? []|]
    | rewrite deref_get_user_session ];
  try done.

Ltac run_choice q Hd :=
  unfold_ops; repeat first [run_step | run_perform];
  rewrite ?Hd; eqs_literals;
  repeat first [run_step | run_perform].

Lemma continue_keeps_sections name source target handler q w l c :
  (name, source, target, handler) ∈ continue_choices → data q = name →
  (name = "continue_skills" → c ≠ Skills) →
  get_section c (deref l (bot (run (handler q) w).2)) = get_section c (deref l (bot w)).
Proof.
  intros Hin Hd Hc. unfold continue_choices in Hin.
  repeat (apply elem_of_cons in Hin as [Hin|Hin]); try (by apply elem_of_nil in Hin);
    injection Hin as -> -> -> ->;
    [unfold handle_profile_image_choice | unfold handle_professional_info_choice
    |unfold handle_education_choice | unfold handle_skills_choice
    |unfold handle_certifications_choice | unfold handle_projects_choice
    |unfold handle_languages_choice];
    run_choice q Hd; frame_sections.
  all: apply (deref_update _ l (set_skills []) _
                (λ s, get_section c s = get_section c (deref l (bot w))));
    [frame_sections | intros s Hs; destruct c; try done; by destruct Hc].
Qed.

Lemma continue_returns_target name source target handler q w st :
  (name, source, target, handler) ∈ continue_choices → data q = name →
  (run (handler q) w).1 = Returned st → st = Some target.
Proof.
  intros Hin Hd. unfold continue_choices in Hin.
  repeat (apply elem_of_cons in Hin as [Hin|Hin]); try (by apply elem_of_nil in Hin);
    injection Hin as -> -> -> ->;
    [unfold handle_profile_image_choice | unfold handle_professional_info_choice
    |unfold handle_education_choice | unfold handle_skills_choice
    |unfold handle_certifications_choice | unfold handle_projects_choice
    |unfold handle_languages_choice];
    run_choice q Hd; by intros [= <-].
Qed.

Lemma continue_skills_clears q w st :
  data q = "continue_skills" →
  (run (handle_education_choice q) w).1 = Returned st →
  skills (session_after (from_user q) (handle_education_choice q) w) = [].
Proof.
  intros Hd. unfold session_after, session_loc, handle_education_choice.
  set (l := (get_user_session (str (user_ident (from_user q))) (bot w)).1).
  run_choice q Hd; fold l; try discriminate; intros _;
    match goal with
    | |- context [update l (set_skills []) ?b] =>
        destruct (decide (l < length (heap b))%nat) as [Hlt|Hge];
        [ by rewrite deref_update_eq
        | rewrite deref_out_of_range; [done | rewrite length_heap_update; lia] ]
    end.
Qed.

(** C7, as amended.  Each "continue" choice makes its handler return the
    state that follows the section in the declared order, with one
    exception: after Education the handler returns [COLLECT_CAREER_OBJECTIVE],
    two states ahead, so the Skills section is passed over.  A "continue"
    choice leaves every section sequence of every session as it was, except
    that the one after Education, when it returns, has emptied the
    session's [skills]. *)
Theorem continue_choice_transitions name source target handler (q : CallbackQuery)
    (w : World) :
  (name, source, target, handler) ∈ continue_choices →
  data q = name →
  (∀ st, (run (handler q) w).1 = Returned st → st = Some target) ∧
  state_index target
  = state_index source + (if decide (name = "continue_skills") then 2 else 1) ∧
  (∀ l c, (name = "continue_skills" → c ≠ Skills) →
     get_section c (deref l (bot (run (handler q) w).2)) = get_section c (deref l (bot w))) ∧
  (name = "continue_skills" →
     ∀ st, (run (handler q) w).1 = Returned st →
     skills (session_after (from_user q) (handler q) w) = []).
Proof.
  intros Hin Hd. split; [|split; [|split]].
  - intros st. by eapply continue_returns_target.
  - unfold continue_choices in Hin.
    repeat (apply elem_of_cons in Hin as [Hin|Hin]); try (by apply elem_of_nil in Hin);
      by injection Hin as -> -> -> ->.
  - intros l c Hc. by eapply continue_keeps_sections.
  - intros ->. unfold continue_choices in Hin.
    repeat (apply elem_of_cons in Hin as [Hin|Hin]); try (by apply elem_of_nil in Hin);
      try discriminate Hin.
    injection Hin as -> -> ->. intros st. by apply continue_skills_clears.
Qed.

(** Witness of C7: after her work experience Alice chooses "continue". *)
Lemma continue_choice_transitions_witness :
  (run (handle_professional_info_choice (press "continue_education")) example_world).1
  = Returned (Some COLLECT_EDUCATION).
Proof.
  destruct (run (handle_professional_info_choice (press "continue_education"))
              example_world).1 as [st|x] eqn:E.
  - f_equal.
    apply (proj1 (continue_choice_transitions "continue_education"
                    COLLECT_PROFESSIONAL_INFO COLLECT_EDUCATION
                    handle_professional_info_choice (press "continue_education")
                    example_world
                    ltac:(apply elem_of_cons; right; apply elem_of_cons; left; reflexivity)
                    eq_refl) st E).
  - vm_compute in E. discriminate E.
Defined.

(** Counterexample to C7 as stated: with her first education entry complete,
    Alice chooses "continue" and the handler returns the state of the career
    objective, not that of the skills; and a session that holds a skill loses
    it at that moment. *)
Lemma education_continue_skips_skills :
  (run (handle_education_choice (press "continue_skills"))
     (run_all until_education_done example_world).2).1
  = Returned (Some COLLECT_CAREER_OBJECTIVE) ∧
  COLLECT_CAREER_OBJECTIVE ≠ COLLECT_SKILLS ∧
  skills (session_before alice (run_all with_one_skill example_world).2)
  = [[("skillName", PyStr "Rocq"); ("proficiency", PyStr "Expert")]] ∧
  skills (session_after alice (handle_education_choice (press "continue_skills"))
            (run_all with_one_skill example_world).2) = [].
Proof.
  split; [vm_compute; reflexivity|]. split; [done|].
  split; vm_compute; reflexivity.
Qed.

(** ** Footprints *)

Lemma footprint_bind {A B : Type} R Q (p : prog A) (f : A → prog B) :
  footprint R Q p → (∀ a, footprint R Q (f a)) → footprint R Q (p ≫= f).
Proof.
  unfold mbind, prog_bind. intros Hp Hf.
  induction Hp; simpl; [auto | constructor | constructor; auto | constructor; auto].
Qed.

Lemma footprint_try_except {A : Type} R Q (p : prog A) catches h :
  footprint R Q p → (∀ x, footprint R Q (h x)) → footprint R Q (try_except p catches h).
Proof.
  intros Hp Hh. induction Hp; simpl.
  - constructor.
  - destruct (catches x); [auto | constructor].
  - constructor; auto.
  - constructor; auto.
Qed.

Lemma footprint_for_each {X : Type} R Q (l : list X) (body : X → prog unit) :
  (∀ x, footprint R Q (body x)) → footprint R Q (for_each l body).
Proof.
  intros Hb. induction l as [|x l IH]; simpl; [constructor|].
  apply footprint_bind; auto.
Qed.

Lemma footprint_call_unit R Q r : Q r → footprint R Q (call r).
Proof. intros H. constructor; [done|]. intros [x|a]; constructor. Qed.

Lemma footprint_act_ret {X : Type} R Q (f : Bot → X * Bot) :
  (∀ b, R b (f b).2) → footprint R Q (act f).
Proof. intros H. constructor; [done|]. intros y. constructor. Qed.

Lemma footprint_sound {A : Type} (R : Bot → Bot → Prop) (Q : request → Prop)
    (E : Env → Env → Prop) (p : prog A) w :
  Reflexive R → Transitive R → Reflexive E → Transitive E →
  (∀ r e, Q r → E e (perform r e).2) →
  footprint R Q p →
  R (bot w) (bot (run p w).2) ∧ E (env w) (env (run p w).2).
Proof.
  intros HR1 HR2 HE1 HE2 HQ Hp. revert w.
  induction Hp as [a|x|X f k Hf Hk IH|r k Hr Hk IH]; intros w; simpl; [done|done| |].
  - destruct (f (bot w)) as [y b] eqn:Ef.
    destruct (IH y {| bot := b; env := env w |}) as [H1 H2]. simpl in *.
    split; [|done]. etrans; [|exact H1]. specialize (Hf (bot w)). by rewrite Ef in Hf.
  - destruct (perform r (env w)) as [a e] eqn:Ep.
    destruct (IH a {| bot := bot w; env := e |}) as [H1 H2]. simpl in *.
    split; [done|]. etrans; [|exact H2]. specialize (HQ r (env w) Hr). by rewrite Ep in HQ.
Qed.

(** ** The polling loop *)

Lemma run_for_each_app {X : Type} (l1 l2 : list X) (body : X → prog unit) w :
  run (for_each (l1 ++ l2) body) w
  = and_then (run (for_each l1 body) w) (λ _, run (for_each l2 body)).
Proof.
  revert w. induction l1 as [|x l1 IH]; intros w; simpl; [done|].
  rewrite !run_bind. destruct (run (body x) w) as [[[]|e] w1]; simpl; [apply IH|done].
Qed.

Lemma poll_tick_returns w : (run poll_tick w).1 = Returned tt.
Proof.
  unfold poll_tick. rewrite run_try_except.
  destruct (run _ w) as [[[]|x] w']; done.
Qed.

(** One step of a proof of [footprint]: follow the structure of the program,
    split on what it branches on. *)
Ltac footprint_step :=
  lazymatch goal with
  | |- footprint _ _ (_ ≫= _) => apply footprint_bind; [|intros ?]
  | |- footprint _ _ (try_except _ _ _) => apply footprint_try_except; [|intros ?]
  | |- footprint _ _ (for_each _ _) => apply footprint_for_each; intros ?
  | |- @footprint _ ?R ?Q (call ?r) => apply (footprint_call_unit R Q r)
  | |- footprint _ _ (act _) => apply footprint_act_ret; intros ?
  | |- footprint _ _ (mret _) => apply footprint_ret
  | |- footprint _ _ (Ret _) => apply footprint_ret
  | |- footprint _ _ (Raise _) => apply footprint_raise
  | |- footprint _ _ (match ?x with _ => _ end) => destruct x
  | |- footprint _ _ (let '(_, _) := ?x in _) => destruct x
  end.

Ltac footprint_auto := unfold_ops; repeat footprint_step.

Lemma poll_session_sleepless l :
  footprint (λ _ _, True) (λ r, is_sleep (r, None) = false) (poll_session l).
Proof. unfold poll_session. footprint_auto; done. Qed.

Lemma poll_tick_sleepless :
  footprint (λ _ _, True) (λ r, is_sleep (r, None) = false) poll_tick.
Proof.
  unfold poll_tick. footprint_auto; try done. apply poll_session_sleepless.
Qed.

Lemma perform_log_result r e :
  log (perform r e).2
  = log e ++ [(r, match (perform r e).1 with inl x => Some x | inr _ => None end)].
Proof.
  unfold perform. destruct (if is_local r then None else faults e (log e) r); simpl; [done|].
  by destruct (exec r e) as [a e'].
Qed.

Lemma sleeps_app evs evs' : sleeps (evs ++ evs') = (sleeps evs + sleeps evs')%nat.
Proof. unfold sleeps. by rewrite List.filter_app, length_app. Qed.

Lemma poll_tick_sleeps w : sleeps (log (env (run poll_tick w).2)) = sleeps (log (env w)).
Proof.
  apply eq_sym.
  refine (proj2 (footprint_sound (λ _ _, True) _ (λ e e', sleeps (log e) = sleeps (log e'))
                   poll_tick w _ _ _ _ _ poll_tick_sleepless)); try done.
  - intros ??? -> ->. done.
  - intros r e Hr. rewrite perform_log_result, sleeps_app.
    unfold sleeps at 3; simpl. unfold is_sleep in *; simpl in *. rewrite Hr; simpl. lia.
Qed.

Lemma poll_rounds n w :
  (run (poll_order_status_changes n) w).1 = Returned tt ∧
  sleeps (log (env (run (poll_order_status_changes n) w).2)) = (sleeps (log (env w)) + n)%nat.
Proof.
  revert w. induction n as [|n IH]; intros w.
  - split; [done|]. simpl. lia.
  - change (poll_order_status_changes (S n))
      with (poll_tick ≫= λ _, call (sleep 300) ≫= λ _, poll_order_status_changes n).
    rewrite run_bind.
    pose proof (poll_tick_returns w) as Ht. pose proof (poll_tick_sleeps w) as Hs.
    destruct (run poll_tick w) as [[[]|x] w1]; [|done]. cbn [and_then fst snd] in *.
    rewrite run_bind, (run_call (sleep 300)).
    assert (Hp : (perform (sleep 300) (env w1)).1 = inr tt) by done.
    assert (Hl : log (perform (sleep 300) (env w1)).2 = log (env w1) ++ [(sleep 300, None)]).
    { rewrite perform_log_result. by rewrite Hp. }
    rewrite Hp. cbn [and_then].
    destruct (IH (with_env (perform (sleep 300) (env w1)).2 w1)) as [IH1 IH2].
    split; [done|]. rewrite IH2. cbn [with_env env]. rewrite Hl, sleeps_app, Hs.
    unfold sleeps at 2; simpl. lia.
Qed.

(** C3, as amended.  The [try] of the polling loop encloses the whole [for]
    loop of a round: a failure while one session is processed (the order
    fetch or the send raises) leaves the sessions that follow it in the
    snapshot unprocessed in that round, the round ending in the state in which
    the failure occurred.  The exception is caught there: a round never
    raises, so the loop goes on, and after [n] rounds [n] sleeps have
    completed whatever failed in between. *)
Theorem poll_failure_ends_the_round (w : World) :
  (∀ pre k l post x w1 w2,
     user_sessions (bot w) = pre ++ (k, l) :: post →
     run (for_each pre (λ entry, poll_session entry.2)) w = (Returned tt, w1) →
     run (poll_session l) w1 = (Raised x, w2) →
     run poll_tick w = (Returned tt, w2)) ∧
  (run poll_tick w).1 = Returned tt ∧
  (∀ n, (run (poll_order_status_changes n) w).1 = Returned tt ∧
        sleeps (log (env (run (poll_order_status_changes n) w).2))
        = (sleeps (log (env w)) + n)%nat).
Proof.
  split; [|split; [apply poll_tick_returns | intros n; apply poll_rounds]].
  intros pre k l post x w1 w2 Hs Hpre Hl.
  unfold poll_tick. rewrite run_try_except, run_bind, run_act. run_norm.
  rewrite with_bot_same, Hs, run_for_each_app, Hpre. run_norm.
  rewrite run_for_each_cons. cbn [and_then fst snd]. by rewrite Hl.
Qed.

(** Counterexample to C3 as stated: the send to the first user fails, and the
    second user, whose order is verified too, is not even looked at in that
    round (with a working transport the same round notifies both). *)
Lemma poll_failure_skips_the_rest :
  log (env (run poll_tick (two_pending (unreachable 7))).2)
  = [(Order_get_by_id "o7", None);
     (send_message 7 (Prompt "en" "payment_verified") [], Some NetworkError)] ∧
  notified (deref 1%nat (bot (run poll_tick (two_pending (unreachable 7))).2)) = Some false ∧
  notified (deref 1%nat (bot (run poll_tick (two_pending reliable)).2)) = Some true.
Proof. repeat split; vm_compute; reflexivity. Qed.

(** Witness of C3: the failing send to the first of the two users ends the
    round in the state in which it failed. *)
Lemma poll_failure_ends_the_round_witness :
  run poll_tick (two_pending (unreachable 7))
  = (Returned tt, (run (poll_session 0%nat) (two_pending (unreachable 7))).2).
Proof.
  apply (proj1 (poll_failure_ends_the_round (two_pending (unreachable 7)))
           [] "7" 0%nat [("8", 1%nat)] NetworkError (two_pending (unreachable 7))).
  - reflexivity.
  - reflexivity.
  - rewrite (surjective_pairing (run (poll_session 0%nat) (two_pending (unreachable 7)))).
    f_equal; vm_compute; reflexivity.
Defined.

(** ** The admin's button *)

Lemma perform_faults r e : faults (perform r e).2 = faults e.
Proof.
  unfold perform. destruct (if is_local r then None else faults e (log e) r); [done|].
  destruct (exec r e) as [a e'] eqn:E; simpl.
  destruct r; simpl in E; unfold sent in E; try (by injection E as <- <-).
  - destruct (approve_payment o); by injection E as <- <-.
  - destruct (reject_payment reason o); by injection E as <- <-.
Qed.

Lemma run_faults {A : Type} (p : prog A) w : faults (env (run p w).2) = faults (env w).
Proof.
  revert w. induction p as [a|x|X f k IH|r k IH]; intros w; simpl; try done.
  - destruct (f (bot w)) as [y b]. by rewrite IH.
  - destruct (perform r (env w)) as [a e] eqn:E. rewrite IH. simpl.
    pose proof (perform_faults r (env w)) as H. by rewrite E in H.
Qed.

Lemma perform_housekeeping r e :
  is_housekeeping r = true → housekeeping_reliable e →
  ∃ a, (perform r e).1 = inr a.
Proof.
  intros Hr He. unfold perform. rewrite (He _ _ Hr).
  destruct r; try discriminate Hr; simpl; eauto.
Qed.

Lemma perform_housekeeping_effect r e :
  is_housekeeping r = true → housekeeping_reliable e →
  orders (perform r e).2 = orders e.
Proof.
  intros Hr He. unfold perform. rewrite (He _ _ Hr).
  destruct r; try discriminate Hr; done.
Qed.

Lemma run_housekeeping r w :
  is_housekeeping r = true → housekeeping_reliable (env w) →
  ∃ a, (run (call r) w).1 = Returned a.
Proof.
  intros Hr He. rewrite run_call. destruct (perform_housekeeping r _ Hr He) as [a ->].
  simpl. eauto.
Qed.

Lemma housekeeping_reliable_run {A : Type} (p : prog A) w :
  housekeeping_reliable (env w) → housekeeping_reliable (env (run p w).2).
Proof. unfold housekeeping_reliable. rewrite run_faults. auto. Qed.

Lemma run_annotation c w :
  housekeeping_reliable (env w) →
  (run (call (edit_message_caption c)) w).1 = Returned tt.
Proof.
  intros He. destruct (run_housekeeping (edit_message_caption c) w eq_refl He) as [[] Hc].
  exact Hc.
Qed.

Lemma run_error_reply t w :
  housekeeping_reliable (env w) →
  (run (call (reply_text t []) ≫= λ _, mret tt) w).1 = Returned tt.
Proof.
  intros He. rewrite run_bind.
  destruct (run_housekeeping (reply_text t []) w eq_refl He) as [z Hc].
  destruct (run (call (reply_text t [])) w) as [o w3]. simpl in Hc. by subst o.
Qed.

Lemma admin_response_returns q w :
  housekeeping_reliable (env w) → (run (handle_admin_response q) w).1 = Returned tt.
Proof.
  intros He. unfold handle_admin_response.
  rewrite run_bind.
  destruct (run_housekeeping answer_query w eq_refl He) as [[] Ha].
  pose proof (housekeeping_reliable_run (call answer_query) w He) as He1.
  destruct (run (call answer_query) w) as [o w1]. simpl in Ha, He1. subst o.
  cbn [and_then]. rewrite run_try_except.
  match goal with |- context [run ?p w1] =>
    pose proof (housekeeping_reliable_run p w1 He1) as He2;
    destruct (run p w1) as [[[]|x] w2]
  end; [done|].
  simpl in He2. unfold Exception. cbv beta iota.
  destruct (is_exn ValueError x).
  - by apply run_annotation.
  - by apply run_error_reply.
Qed.

Lemma malformed_token_rejected q w :
  well_formed_token (data q) = false → housekeeping_reliable (env w) →
  bot (run (handle_admin_response q) w).2 = bot w ∧
  orders (env (run (handle_admin_response q) w).2) = orders (env w) ∧
  new_events w (run (handle_admin_response q) w).2
  = [(answer_query, None);
     (edit_message_caption (annotate q invalid_token_note), None)].
Proof.
  intros Hq He. unfold handle_admin_response, well_formed_token, new_events in *.
  assert (Hraise : match Py.split "_" (Some 2%nat) (data q) return prog unit with
                   | [action; telegram_id; order] => Raise ValueError
                   | _ => Raise ValueError
                   end = Raise ValueError).
  { by destruct (Py.split "_" (Some 2%nat) (data q)) as [|? [|? [|? [|? ?]]]]. }
  rewrite run_bind, (run_call answer_query).
  pose proof (perform_log_result answer_query (env w)) as Hl1.
  pose proof (perform_faults answer_query (env w)) as Hf1.
  pose proof (perform_housekeeping_effect answer_query (env w) eq_refl He) as Ho1.
  destruct (perform_housekeeping answer_query (env w) eq_refl He) as [[] Ha].
  rewrite Ha in *. cbn [and_then fst snd].
  set (e1 := (perform answer_query (env w)).2) in *.
  rewrite run_try_except.
  destruct (Py.split "_" (Some 2%nat) (data q)) as [|a0 [|a1 [|a2 [|a3 rest]]]];
    try discriminate Hq; rewrite run_raise; unfold Exception; cbn [is_exn bool_decide];
    (rewrite (run_call (edit_message_caption (annotate q invalid_token_note)));
     cbn [with_env bot env snd];
     assert (He1 : housekeeping_reliable e1) by (unfold housekeeping_reliable; by rewrite Hf1);
     pose proof (perform_log_result (edit_message_caption (annotate q invalid_token_note)) e1)
       as Hl2;
     pose proof (perform_housekeeping_effect
                   (edit_message_caption (annotate q invalid_token_note)) e1 eq_refl He1)
       as Ho2;
     destruct (perform_housekeeping
                 (edit_message_caption (annotate q invalid_token_note)) e1 eq_refl He1)
       as [[] Hb];
     rewrite Hb in Hl2;
     split; [done|]; split; [by rewrite Ho2, Ho1|];
     rewrite Hl2, Hl1, <- app_assoc, drop_app_length; done).
Qed.

Lemma perform_orders r e : writes_orders r = false → orders (perform r e).2 = orders e.
Proof.
  intros Hr. unfold perform.
  destruct (if is_local r then None else faults e (log e) r); [done|].
  destruct r; try discriminate Hr; done.
Qed.

Lemma run_log_extends {A : Type} (p : prog A) w :
  ∃ evs, log (env (run p w).2) = log (env w) ++ evs.
Proof.
  revert w. induction p as [a|x|X f k IH|r k IH]; intros w; simpl.
  - exists []. by rewrite app_nil_r.
  - exists []. by rewrite app_nil_r.
  - destruct (f (bot w)) as [y b]. apply (IH y {| bot := b; env := env w |}).
  - destruct (perform r (env w)) as [a e] eqn:E.
    destruct (IH a {| bot := bot w; env := e |}) as [evs Hevs].
    destruct (perform_log r (env w)) as [x Hx]. rewrite E in Hx. simpl in *.
    exists ((r, x) :: evs). by rewrite Hevs, Hx, <- app_assoc.
Qed.

Lemma process_update_returns target (h : prog unit) w :
  (run (process_update target h) w).1 = Returned tt.
Proof.
  unfold process_update. rewrite run_try_except.
  destruct (run h w) as [[[]|x] w1]; [done|].
  unfold Exception. cbv beta iota. rewrite run_try_except.
  by destruct (run (error_handler target) w1) as [[[]|x1] w2].
Qed.

Lemma error_handler_keeps_orders target w :
  orders (env (run (error_handler target) w).2) = orders (env w).
Proof.
  destruct target as [u|]; [|done]. unfold error_handler. unfold_ops.
  repeat first [ run_step | progress run_norm ].
  match goal with
  | |- context [perform ?r ?e] =>
      pose proof (perform_orders r e eq_refl) as Ho; destruct (perform r e) as [[x|z] e1]
  end; exact Ho.
Qed.

Lemma process_update_keeps_orders target (h : prog unit) w :
  orders (env (run h w).2) = orders (env w) →
  orders (env (run (process_update target h) w).2) = orders (env w).
Proof.
  intros Hh. unfold process_update. rewrite run_try_except.
  destruct (run h w) as [[[]|x] w1]; [done|]. simpl in Hh.
  unfold Exception. cbv beta iota. rewrite run_try_except.
  pose proof (error_handler_keeps_orders target w1) as He.
  destruct (run (error_handler target) w1) as [[[]|x1] w2]; simpl in *; congruence.
Qed.

(** An exception leaves [handle_admin_response] only from one of the calls
    with which it talks back to the admin, and that call is then the last one
    of the run. *)
Lemma admin_response_raises_from_transport q w x :
  (run (handle_admin_response q) w).1 = Raised x →
  ∃ r, is_housekeeping r = true ∧
       last (new_events w (run (handle_admin_response q) w).2) = Some (r, Some x).
Proof.
  unfold handle_admin_response, new_events. rewrite run_bind, (run_call answer_query).
  pose proof (perform_log_result answer_query (env w)) as Hl1.
  destruct (perform answer_query (env w)) as [[x0|[]] e1]; cbn [and_then fst snd] in *.
  { intros [= ->]. exists answer_query. split; [done|].
    cbn [env with_env]. by rewrite Hl1, drop_app_length. }
  rewrite run_try_except.
  match goal with |- context [run ?p ?W] =>
    destruct (run_log_extends p W) as [evs2 H2]; destruct (run p W) as [[[]|x2] w2]
  end; [done|]. cbn [snd env with_env] in H2.
  unfold Exception. cbv beta iota.
  destruct (is_exn ValueError x2); repeat first [ run_step | progress run_norm ].
  all: match goal with
       | |- context [perform ?r ?e] =>
           pose proof (perform_log_result r e) as Hl;
           destruct (perform r e) as [[y|z] e2];
           cbn [fst snd env with_env] in *; intros [=]; subst; exists r
       end.
  all: split; [done|].
  all: by rewrite Hl, H2, Hl1, <- !app_assoc, drop_app_length, !last_app.
Qed.

(** What a malformed token leads to, whatever the transport does: the
    acknowledgement, then the annotation, and nothing else. *)
Lemma malformed_token_trace q w :
  well_formed_token (data q) = false →
  bot (run (handle_admin_response q) w).2 = bot w ∧
  orders (env (run (handle_admin_response q) w).2) = orders (env w) ∧
  ((∃ x, (run (handle_admin_response q) w).1 = Raised x ∧
         new_events w (run (handle_admin_response q) w).2 = [(answer_query, Some x)]) ∨
   (∃ y, (run (handle_admin_response q) w).1
         = match y with Some x => Raised x | None => Returned tt end ∧
         new_events w (run (handle_admin_response q) w).2
         = [(answer_query, None);
            (edit_message_caption (annotate q invalid_token_note), y)])).
Proof.
  intros Hq. unfold handle_admin_response, well_formed_token, new_events in *.
  rewrite run_bind, (run_call answer_query).
  pose proof (perform_log_result answer_query (env w)) as Hl1.
  pose proof (perform_orders answer_query (env w) eq_refl) as Ho1.
  destruct (perform answer_query (env w)) as [[x|[]] e1]; cbn [and_then fst snd] in *.
  { split; [done|]. split; [done|]. left. exists x. split; [done|].
    cbn [env with_env]. by rewrite Hl1, drop_app_length. }
  rewrite run_try_except.
  destruct (Py.split "_" (Some 2%nat) (data q)) as [|a0 [|a1 [|a2 [|a3 rest]]]];
    try discriminate Hq; rewrite run_raise; unfold Exception; cbn [is_exn bool_decide];
    (rewrite (run_call (edit_message_caption (annotate q invalid_token_note)));
     cbn [with_env bot env fst snd];
     pose proof (perform_log_result (edit_message_caption (annotate q invalid_token_note)) e1)
       as Hl2;
     pose proof (perform_orders (edit_message_caption (annotate q invalid_token_note)) e1
                   eq_refl) as Ho2;
     split; [done|]; split; [by rewrite Ho2, Ho1|];
     right;
     destruct (perform (edit_message_caption (annotate q invalid_token_note)) e1)
       as [[y|[]] e2]; cbn [fst snd] in *;
     [exists (Some y) | exists None];
     (split; [done|]);
     rewrite Hl2, Hl1, <- app_assoc, drop_app_length; done).
Qed.

(** C9.  Whatever the button action token, and whatever the store and the
    transport do, the processing of a press on a decision button ends
    normally: no exception reaches the loop that fetches the updates.  The
    token itself never makes [handle_admin_response] raise: the [ValueError]
    of the unpacking is caught, and an exception leaves the handler only from
    one of the calls with which it talks back to the admin (the
    acknowledgement of the press, which stands before the [try], the
    annotation of the evidence message and the error reply, which stand in
    the [except] clauses), when the transport fails that call; it is then
    handed to the registered error handler.  With a transport that does not
    fail these calls the handler itself returns.  A token that does not split
    into three parts is answered with the "Invalid callback data" annotation
    and nothing else happens: after the acknowledgement the annotation is the
    only call, no session is created or changed, and no order is touched,
    neither by the handler nor by the error handler. *)
Theorem admin_response_tolerates_tokens (q : CallbackQuery) (w : World) :
  let handled := run (handle_admin_response q) w in
  let processed := run (process_update (press_target q) (handle_admin_response q)) w in
  processed.1 = Returned tt ∧
  (∀ x, handled.1 = Raised x →
        ∃ r, is_housekeeping r = true ∧ last (new_events w handled.2) = Some (r, Some x)) ∧
  (housekeeping_reliable (env w) → handled.1 = Returned tt) ∧
  (well_formed_token (data q) = false →
   bot handled.2 = bot w ∧
   orders (env handled.2) = orders (env w) ∧
   orders (env processed.2) = orders (env w) ∧
   ((∃ x, handled.1 = Raised x ∧ new_events w handled.2 = [(answer_query, Some x)]) ∨
    (∃ y, handled.1 = match y with Some x => Raised x | None => Returned tt end ∧
          new_events w handled.2
          = [(answer_query, None);
             (edit_message_caption (annotate q invalid_token_note), y)])) ∧
   (housekeeping_reliable (env w) →
    new_events w handled.2
    = [(answer_query, None);
       (edit_message_caption (annotate q invalid_token_note), None)])).
Proof.
  intros handled processed. subst handled processed.
  split; [apply process_update_returns|].
  split; [intros x; apply admin_response_raises_from_transport|].
  split; [apply admin_response_returns|].
  intros Hq. destruct (malformed_token_trace q w Hq) as (Hb & Ho & Ht).
  split; [exact Hb|]. split; [exact Ho|].
  split; [by apply process_update_keeps_orders|].
  split; [exact Ht|].
  intros He. by apply malformed_token_rejected.
Qed.

(** A token without its order part, on a transport that fails the
    annotation: the exception of the handler is the failure of that call, and
    the processing of the update ends normally all the same. *)
Lemma admin_response_tolerates_tokens_witness :
  well_formed_token "approve_7" = false ∧
  (run (handle_admin_response (admin_press "approve_7"))
     (with_faults no_annotation example_world)).1 = Raised BadRequest ∧
  (run (process_update (press_target (admin_press "approve_7"))
          (handle_admin_response (admin_press "approve_7")))
     (with_faults no_annotation example_world)).1 = Returned tt ∧
  bot (run (handle_admin_response (admin_press "approve_7"))
         (with_faults no_annotation example_world)).2
  = bot (with_faults no_annotation example_world) ∧
  orders (env (run (handle_admin_response (admin_press "approve_7"))
                 (with_faults no_annotation example_world)).2)
  = orders (env (with_faults no_annotation example_world)).
Proof.
  destruct (admin_response_tolerates_tokens (admin_press "approve_7")
              (with_faults no_annotation example_world))
    as (Hp & _ & _ & Hm).
  destruct (Hm eq_refl) as (Hb & Ho & _).
  split; [reflexivity|]. split; [vm_compute; reflexivity|].
  split; [exact Hp|]. split; [exact Hb | exact Ho].
Defined.

(** The acknowledgement of the press is awaited before the [try] is entered:
    when the transport fails it, the exception leaves the handler, whatever
    the token, and the application hands it to the error handler. *)
Example acknowledgement_failure_is_handled :
  let w := with_faults no_acknowledgement example_world in
  (run (handle_admin_response (admin_press "approve_7_uuid-1")) w).1 = Raised NetworkError ∧
  run (process_update (press_target (admin_press "approve_7_uuid-1"))
         (handle_admin_response (admin_press "approve_7_uuid-1"))) w
  = (Returned tt,
     (run (error_handler (Some admin))
        (run (handle_admin_response (admin_press "approve_7_uuid-1")) w).2).2).
Proof. split; vm_compute; reflexivity. Qed.

(** ** The admin's free-text reply *)

Example evidence_caption_parses :
  (parse_order_id <$> last_caption (log (env evidence_world))) = Some (Some "uuid-1") ∧
  stored_status "uuid-1" evidence_world = Some pending_verification.
Proof. split; vm_compute; reflexivity. Qed.

Lemma admin_reply_returns m w : (run (handle_admin_reply m) w).1 = Returned tt.
Proof.
  unfold handle_admin_reply. destruct m as [m|]; [|done].
  destruct (chat_ident_of m =? 0); [done|].
  unfold global. rewrite run_bind, run_act. run_norm.
  destruct (negb _); [done|]. destruct (negb _); [done|].
  rewrite run_try_except. destruct (run _ _) as [[[]|x] w']; done.
Qed.

Lemma perform_store r e :
  is_await r = false → store_reliable e →
  perform r e
  = ((exec r e).1,
     set_log (log e ++ [(r, match (exec r e).1 with inl x => Some x | inr _ => None end)])
       (exec r e).2).
Proof.
  intros Hr He. unfold perform. rewrite (He _ _ Hr).
  destruct (is_local r); by destruct (exec r e).
Qed.

Lemma perform_await_orders r e : is_await r = true → orders (perform r e).2 = orders e.
Proof.
  intros Hr. unfold perform.
  destruct (if is_local r then None else faults e (log e) r); [done|].
  destruct r; try discriminate Hr; done.
Qed.

Lemma store_reliable_perform r e : store_reliable e → store_reliable (perform r e).2.
Proof. unfold store_reliable. by rewrite perform_faults. Qed.

Lemma startswith_reject_not_approve s :
  Py.startswith s "reject:" = true → eqs s "approve" = false.
Proof.
  unfold Py.startswith, eqs. destruct s as [|c s]; [intros [=]|].
  destruct c as [[] [] [] [] [] [] [] []]; try (intros [=]; fail); intros _; reflexivity.
Qed.

Lemma approve_payment_spec o o' :
  approve_payment o = inr o' → status o' = verified ∧ order_ident o' = order_ident o.
Proof. unfold approve_payment. destruct (status o); intros [= <-]; done. Qed.

Lemma reject_payment_spec reason o o' :
  reject_payment reason o = inr o' →
  status o' = rejected ∧ statusDetails o' = Some reason ∧ order_ident o' = order_ident o.
Proof. unfold reject_payment. destruct (is_terminal (status o)); intros [= <-]; done. Qed.

Lemma admin_reply_unparsable m t caption w :
  text_of m = Some t → reply_to_message m = Some (Some caption) →
  parse_order_id caption = None →
  run (handle_admin_reply (Some m)) w = (Returned tt, w).
Proof.
  intros Ht Hr Hp. unfold handle_admin_reply.
  destruct (chat_ident_of m =? 0); [done|].
  unfold global. rewrite run_bind, run_act. run_norm. rewrite with_bot_same.
  destruct (negb _); [done|]. destruct (negb _); [done|].
  rewrite Hr. destruct caption as [|c r]; [done|].
  destruct (negb _); [done|]. by rewrite Hp.
Qed.

Lemma run_call_store r w :
  is_await r = false → store_reliable (env w) →
  run (call r) w
  = (match (exec r (env w)).1 with inl x => Raised x | inr a => Returned a end,
     with_env
       (set_log (log (env w) ++
                   [(r, match (exec r (env w)).1 with inl x => Some x | inr _ => None end)])
          (exec r (env w)).2) w).
Proof. intros Hr He. by rewrite run_call, perform_store. Qed.

(** A store call in a world whose store is reliable. *)
Ltac run_store Hstore :=
  match goal with
  | |- context [@run _ (call ?r) ?w] =>
      let H := fresh in
      pose proof (run_call_store r w eq_refl Hstore) as H;
      first [ rewrite H | cbn [answer] in H; rewrite H ];
      clear H; cbn [exec]; run_norm
  end.

Lemma notify_once_awaits l s chat t :
  footprint (λ _ _, True) (λ r, is_await r = true) (notify_once l s chat t).
Proof. unfold notify_once. footprint_auto; done. Qed.

Lemma notify_once_orders l s chat t w :
  orders (env (run (notify_once l s chat t) w).2) = orders (env w).
Proof.
  apply eq_sym.
  refine (proj2 (footprint_sound (λ _ _, True) _ (λ e e', orders e = orders e')
                   (notify_once l s chat t) w _ _ _ _ _ (notify_once_awaits l s chat t)));
    try done.
  - intros ??? -> ->. done.
  - intros r e Hr. by rewrite perform_await_orders.
Qed.

(** The common opening of the proofs about a reply that passes every guard
    of [handle_admin_reply]: run the handler up to the decision. *)
Ltac enter_reply Hchat Hchannel Htext Hreply Hmarker Hparse Hstore Horder Hsession Hsc :=
  unfold handle_admin_reply;
  rewrite (proj2 (Z.eqb_neq _ _) Hchat);
  unfold global; rewrite run_bind, run_act; run_norm; rewrite with_bot_same;
  rewrite Hchannel, Z.eqb_refl, Htext.

Ltac enter_decision Hreply Hmarker Hparse Hstore Horder Hsession Hsc :=
  rewrite Hreply;
  match type of Hmarker with
  | Py.startswith ?caption _ = true =>
      destruct caption as [|? ?]; [discriminate Hmarker|]
  end;
  rewrite Hmarker, Hparse; cbn [negb];
  rewrite run_try_except, run_bind; run_store Hstore; rewrite Horder; run_norm;
  unfold session_of; do 2 run_step; rewrite (get_user_session_existing _ _ _ Hsession);
  run_norm; unfold read; do 2 run_step; rewrite Hsc.

Lemma admin_reply_approves m t caption order o o' l chat w :
  chat_ident_of m ≠ 0 →
  chat_ident_of m = private_channel_id (config (bot w)) →
  text_of m = Some t →
  reply_to_message m = Some (Some caption) →
  Py.startswith caption payment_marker = true →
  parse_order_id caption = Some order →
  store_reliable (env w) →
  Py.get order (orders (env w)) = Some o →
  Py.get (telegramUserId o) (user_sessions (bot w)) = Some l →
  chat_id (deref l (bot w)) = Some chat →
  Py.lower t = "approve" →
  approve_payment o = inr o' →
  Py.get (order_ident o) (orders (env (run (handle_admin_reply (Some m)) w).2)) = Some o'.
Proof.
  intros Hchat Hchannel Htext Hreply Hmarker Hparse Hstore Horder Hsession Hsc Hlower Happrove.
  destruct (approve_payment_spec _ _ Happrove) as [_ Hid].
  enter_reply Hchat Hchannel Htext Hreply Hmarker Hparse Hstore Horder Hsession Hsc.
  rewrite Hlower. cbn [negb].
  change (Py.startswith "approve" "approve") with true. cbn [orb negb].
  enter_decision Hreply Hmarker Hparse Hstore Horder Hsession Hsc.
  change (eqs "approve" "approve") with true. cbv beta iota.
  rewrite run_bind. run_store Hstore. rewrite Happrove. run_norm.
  match goal with |- context [run (notify_once ?l ?s ?c ?t) ?W] =>
    pose proof (notify_once_orders l s c t W) as Ho;
    destruct (run (notify_once l s c t) W) as [[[]|x] w']
  end; unfold Exception; cbv beta iota; rewrite ?run_ret;
    cbn [fst snd env orders set_log set_orders with_env] in *;
    rewrite Ho, <- Hid; apply get_set_eq.
Qed.

Lemma admin_reply_rejects m t caption order o o' l chat w :
  chat_ident_of m ≠ 0 →
  chat_ident_of m = private_channel_id (config (bot w)) →
  text_of m = Some t →
  reply_to_message m = Some (Some caption) →
  Py.startswith caption payment_marker = true →
  parse_order_id caption = Some order →
  store_reliable (env w) →
  Py.get order (orders (env w)) = Some o →
  Py.get (telegramUserId o) (user_sessions (bot w)) = Some l →
  chat_id (deref l (bot w)) = Some chat →
  Py.startswith (Py.lower t) "reject:" = true →
  reject_payment (reason_of t) o = inr o' →
  Py.get (order_ident o) (orders (env (run (handle_admin_reply (Some m)) w).2)) = Some o'.
Proof.
  intros Hchat Hchannel Htext Hreply Hmarker Hparse Hstore Horder Hsession Hsc Hlower Hreject.
  destruct (reject_payment_spec _ _ _ Hreject) as (_ & _ & Hid).
  enter_reply Hchat Hchannel Htext Hreply Hmarker Hparse Hstore Horder Hsession Hsc.
  rewrite Hlower, orb_true_r. cbn [negb].
  enter_decision Hreply Hmarker Hparse Hstore Horder Hsession Hsc.
  rewrite (startswith_reject_not_approve _ Hlower). cbv beta iota.
  rewrite run_bind. run_store Hstore. fold (reason_of t). rewrite Hreject. run_norm.
  match goal with |- context [run (notify_once ?l ?s ?c ?t) ?W] =>
    pose proof (notify_once_orders l s c t W) as Ho;
    destruct (run (notify_once l s c t) W) as [[[]|x] w']
  end; unfold Exception; cbv beta iota; rewrite ?run_ret;
    cbn [fst snd env orders set_log set_orders with_env] in *;
    rewrite Ho, <- Hid; apply get_set_eq.
Qed.

(** C4, as amended.  An admin reply in the channel to an evidence message
    (the caption begins with the payment marker) never makes the handler
    raise.  When no order id can be parsed from the caption the reply is
    ignored: the world stays exactly as it was.  When the caption names a
    stored order whose owner has a session with a chat, and the store
    answers: a reply whose lower-cased text is [approve] approves the order; a
    reply whose lower-cased text begins with [reject:] rejects it, the reason
    being what follows the prefix in the lower-cased text, trimmed, or the
    default reason when nothing is left.  The lower-casing and the trimming
    are those of [str.lower] and [str.strip], on the characters of Unicode;
    the prefix is cut off by characters ([reply_text[7:]]). *)
Theorem admin_reply_decides (m : Message) (t caption : string) (w : World) :
  chat_ident_of m ≠ 0 →
  chat_ident_of m = private_channel_id (config (bot w)) →
  text_of m = Some t →
  reply_to_message m = Some (Some caption) →
  Py.startswith caption payment_marker = true →
  store_reliable (env w) →
  (run (handle_admin_reply (Some m)) w).1 = Returned tt ∧
  (parse_order_id caption = None → (run (handle_admin_reply (Some m)) w).2 = w) ∧
  (∀ order o l chat,
     parse_order_id caption = Some order →
     Py.get order (orders (env w)) = Some o →
     Py.get (telegramUserId o) (user_sessions (bot w)) = Some l →
     chat_id (deref l (bot w)) = Some chat →
     (Py.lower t = "approve" →
      ∀ o', approve_payment o = inr o' →
        status o' = verified ∧
        Py.get (order_ident o) (orders (env (run (handle_admin_reply (Some m)) w).2))
        = Some o') ∧
     (Py.startswith (Py.lower t) "reject:" = true →
      ∀ o', reject_payment (reason_of t) o = inr o' →
        status o' = rejected ∧ statusDetails o' = Some (reason_of t) ∧
        Py.get (order_ident o) (orders (env (run (handle_admin_reply (Some m)) w).2))
        = Some o')) ∧
  (Py.strip (Py.drop 7 (Py.lower t)) = "" → reason_of t = default_reason).
Proof.
  intros Hchat Hchannel Htext Hreply Hmarker Hstore.
  split; [apply admin_reply_returns|]. split; [|split].
  - intros Hp. by rewrite (admin_reply_unparsable m t caption w Htext Hreply Hp).
  - intros order o l chat Hparse Horder Hsession Hsc. split.
    + intros Hlower o' Ho'. split; [by apply (approve_payment_spec o)|].
      by eapply admin_reply_approves.
    + intros Hlower o' Ho'.
      destruct (reject_payment_spec _ _ _ Ho') as (H1 & H2 & _).
      split; [done|]. split; [done|]. by eapply admin_reply_rejects.
  - intros Hblank. unfold reason_of. by rewrite Hblank.
Qed.

(** Witness of C4: the admin replies [Approve] to the evidence of Alice's
    payment. *)
Lemma admin_reply_decides_witness :
  (run (handle_admin_reply (Some (admin_reply "Approve" evidence_world))) evidence_world).1
  = Returned tt.
Proof.
  refine (proj1 (admin_reply_decides (admin_reply "Approve" evidence_world) "Approve"
                   (default "" (last_caption (log (env evidence_world)))) evidence_world
                   _ _ _ _ _ _)).
  - vm_compute. discriminate.
  - reflexivity.
  - reflexivity.
  - vm_compute. reflexivity.
  - vm_compute. reflexivity.
  - intros h r _. vm_compute. reflexivity.
Defined.

(** Counterexample to C4 as stated.  [Approve it] begins with [approve], yet
    the order stays pending (the plain [Approve] verifies it); the reason of
    [Reject: Blurry Receipt] is stored lower-cased; and after a restart of the
    process, when the owner has no session with a chat, [approve] leaves the
    order pending. *)
Lemma approve_prefix_is_ignored :
  Py.startswith (Py.lower "Approve it") "approve" = true ∧
  stored_status "uuid-1"
    (run (handle_admin_reply (Some (admin_reply "Approve it" evidence_world)))
       evidence_world).2
  = Some pending_verification ∧
  stored_status "uuid-1"
    (run (handle_admin_reply (Some (admin_reply "Approve" evidence_world)))
       evidence_world).2
  = Some verified ∧
  (statusDetails <$>
     Py.get "uuid-1"
       (orders (env (run (handle_admin_reply
                            (Some (admin_reply "Reject: Blurry Receipt" evidence_world)))
                       evidence_world).2)))
  = Some (Some "blurry receipt") ∧
  stored_status "uuid-1"
    (run (handle_admin_reply (Some (admin_reply "approve" evidence_world)))
       (with_bot (init_bot example_config) evidence_world)).2
  = Some pending_verification.
Proof. repeat split; vm_compute; reflexivity. Qed.

(** The reason on texts beyond ASCII: an accented capital is lowered, the
    no-break space [U+00A0] and the ideographic space [U+3000] are trimmed
    like a blank, and a reply that holds nothing else gets the default
    reason. *)
Example reason_of_unicode_text :
  reason_of "Reject: CAFÉ　" = "café" ∧
  reason_of "reject: 　 " = default_reason ∧
  reason_of "REJECT:" = default_reason ∧
  (statusDetails <$>
     Py.get "uuid-1"
       (orders (env (run (handle_admin_reply
                            (Some (admin_reply "Reject: CAFÉ" evidence_world)))
                       evidence_world).2)))
  = Some (Some "café") ∧
  (statusDetails <$>
     Py.get "uuid-1"
       (orders (env (run (handle_admin_reply
                            (Some (admin_reply "reject: " evidence_world)))
                       evidence_world).2)))
  = Some (Some "No reason provided").
Proof. repeat split; vm_compute; reflexivity. Qed.

(** ** Monitors *)

Section Monitored.
Context (M : monitor).

Lemma monitored_bind {A B : Type} s (p : prog A) (f : A → prog B) :
  monitored M s p → (∀ a s', monitored M s' (f a)) → monitored M s (p ≫= f).
Proof.
  unfold mbind, prog_bind. intros Hp Hf.
  induction Hp; simpl; [auto | constructor | constructor; auto | constructor; auto].
Qed.

Lemma monitored_call_bind {B : Type} s r (f : answer r → prog B) :
  call_ok M s r → (∀ a, monitored M (on_call M s r (inr a)) (f a)) →
  monitored M s (call r ≫= f).
Proof.
  intros Hr Hf. unfold mbind, prog_bind, call; simpl. constructor; [done|].
  intros [x|a]; simpl; [constructor | apply Hf].
Qed.

Lemma monitored_act_bind {X B : Type} s (g : Bot → X * Bot) (f : X → prog B) :
  (∀ b, act_ok M s b (g b).2) → (∀ y, monitored M s (f y)) →
  monitored M s (act g ≫= f).
Proof. intros Hg Hf. unfold mbind, prog_bind, act; simpl. constructor; auto. Qed.

Lemma monitored_call_bind_bind {B C : Type} s r (f : answer r → prog B) (g : B → prog C) :
  call_ok M s r → (∀ a, monitored M (on_call M s r (inr a)) (f a ≫= g)) →
  monitored M s ((call r ≫= f) ≫= g).
Proof.
  intros Hr Hf. unfold mbind, prog_bind, call; simpl. constructor; [done|].
  intros [x|a]; simpl; [constructor | apply Hf].
Qed.

Lemma monitored_call_last s r : call_ok M s r → monitored M s (call r).
Proof. intros Hr. constructor; [done|]. intros [x|a]; constructor. Qed.

Lemma monitored_act_last {X : Type} s (g : Bot → X * Bot) :
  (∀ b, act_ok M s b (g b).2) → monitored M s (act g).
Proof. intros Hg. constructor; [done|]. intros; constructor. Qed.

Lemma monitored_try_except {A : Type} s (p : prog A) catches h :
  monitored M s p → (∀ x s', monitored M s' (h x)) →
  monitored M s (try_except p catches h).
Proof.
  intros Hp Hh. induction Hp; simpl.
  - constructor.
  - destruct (catches x); [auto | constructor].
  - constructor; auto.
  - constructor; auto.
Qed.

End Monitored.

(** One step of a proof of [monitored]. *)
Ltac monitored_step :=
  lazymatch goal with
  | |- @monitored _ _ _ ((call _ ≫= _) ≫= _) => apply monitored_call_bind_bind; [|intros ?]
  | |- @monitored _ ?M ?s (mret ?a ≫= ?g) => change (monitored M s (g a)); cbv beta
  | |- @monitored _ _ _ (call _ ≫= _) => apply monitored_call_bind; [|intros ?]
  | |- @monitored _ _ _ (act _ ≫= _) => apply monitored_act_bind; [intros ?|intros ?]
  | |- @monitored _ _ _ (_ ≫= _) => apply monitored_bind; [|intros ? ?]
  | |- @monitored _ _ _ (try_except _ _ _) => apply monitored_try_except; [|intros ? ?]
  | |- @monitored _ ?M ?s (call ?r) => refine (monitored_call_last M s r _)
  | |- @monitored _ _ _ (act _) => apply monitored_act_last; intros ?
  | |- @monitored _ _ _ (mret _) => apply monitored_ret
  | |- @monitored _ _ _ (Ret _) => apply monitored_ret
  | |- @monitored _ _ _ (Raise _) => apply monitored_raise
  | |- @monitored _ _ _ (match ?x with _ => _ end) => destruct x
  end.

Ltac monitored_auto := unfold_ops; repeat monitored_step.

(** *** Durability before delivery *)

Lemma transition_first_snoc evs r x :
  transition_first evs →
  (is_send r = true → ∃ j r', evs !! j = Some (r', None) ∧ is_transition r' = true) →
  transition_first (evs ++ [(r, x)]).
Proof.
  intros Hevs Hr i r0 x0 Hi Hs.
  destruct (decide (i < length evs)%nat) as [Hlt|Hge].
  - rewrite lookup_app_l in Hi by done.
    destruct (Hevs i r0 x0 Hi Hs) as (j & r' & Hj & Hj' & Ht).
    exists j, r'. split; [done|]. split; [|done].
    rewrite lookup_app_l by (by eapply lookup_lt_Some). done.
  - apply Nat.nlt_ge in Hge. rewrite lookup_app_r in Hi by done.
    match type of Hi with _ !! ?k = _ => destruct k as [|n] eqn:En end;
      [|destruct n; discriminate Hi].
    injection Hi as <- <-. destruct (Hr Hs) as (j & r' & Hj & Ht).
    exists j, r'. pose proof (lookup_lt_Some _ _ _ Hj).
    split; [eapply Nat.lt_le_trans; eassumption|]. split; [|done]. by rewrite lookup_app_l.
Qed.

Lemma perform_approve o e o' :
  (perform (Order_approve_payment o) e).1 = inr o' →
  Py.get (order_ident o) (orders (perform (Order_approve_payment o) e).2) = Some o'
  ∧ status o' = verified.
Proof.
  unfold perform. destruct (if is_local _ then None else faults e (log e) _); [done|].
  simpl. destruct (approve_payment o) as [x|o1] eqn:E; simpl; [done|].
  intros [= ->]. destruct (approve_payment_spec _ _ E) as [Hs <-].
  by rewrite get_set_eq.
Qed.

Lemma perform_reject o reason e o' :
  (perform (Order_reject_payment o reason) e).1 = inr o' →
  Py.get (order_ident o) (orders (perform (Order_reject_payment o reason) e).2) = Some o'
  ∧ status o' = rejected ∧ statusDetails o' = Some reason.
Proof.
  unfold perform. destruct (if is_local _ then None else faults e (log e) _); [done|].
  simpl. destruct (reject_payment reason o) as [x|o1] eqn:E; simpl; [done|].
  intros [= ->]. destruct (reject_payment_spec _ _ _ E) as (Hs & Hd & <-).
  by rewrite get_set_eq.
Qed.

Lemma settled_orders evs e e' : orders e' = orders e → settled evs e → settled evs e'.
Proof. intros He Hevs r Hin. specialize (Hevs r Hin). by rewrite He. Qed.

Lemma settled_snoc r e :
  settled [(r, match (perform r e).1 with inl x => Some x | inr _ => None end)]
          (perform r e).2.
Proof.
  intros r' Hin. apply list_elem_of_singleton in Hin.
  destruct (perform r e).1 as [x|a] eqn:Ea; [done|]. injection Hin as ->.
  destruct r; try done.
  - destruct (perform_approve _ _ _ Ea) as [-> Hs]. simpl. by rewrite Hs.
  - destruct (perform_reject _ _ _ _ Ea) as (-> & Hs & Hd). simpl. by rewrite Hs, Hd.
Qed.

Lemma is_transition_writes r : is_transition r = true → writes_orders r = true.
Proof. by destruct r. Qed.

Lemma durability_sound {A : Type} (p : prog A) s w base evs :
  monitored durability s p →
  log (env w) = base ++ evs →
  durability_inv s evs (env w) →
  ∃ evs' s', log (env (run p w).2) = base ++ evs'
             ∧ durability_inv s' evs' (env (run p w).2).
Proof.
  intros Hp. revert w evs.
  induction Hp as [s a|s x|s X f k Hf Hk IH|s r k Hr Hk IH]; intros w evs Hlog Hinv; simpl.
  - eauto.
  - eauto.
  - destruct (f (bot w)) as [y b]. by apply (IH y _ evs).
  - pose proof (perform_log_result r (env w)) as Hl.
    pose proof (settled_snoc r (env w)) as Hnew.
    pose proof (perform_orders r (env w)) as Hsame.
    destruct (perform r (env w)) as [a e] eqn:Ep. simpl in Hl, Hnew, Hsame.
    destruct Hr as [Hsend Hwrite]. destruct Hinv as (Hfirst & Hset & Hs).
    apply (IH a _ (evs ++ [(r, match a with inl x => Some x | inr _ => None end)])).
    { simpl. by rewrite Hl, Hlog, app_assoc. }
    simpl. split; [|split].
    + apply transition_first_snoc; [done|]. intros Hr. by rewrite (Hsend Hr) in Hs.
    + intros r' Hin. apply elem_of_app in Hin as [Hin|Hin]; [|by apply Hnew].
      destruct (writes_orders r) eqn:Ew.
      * rewrite (Hwrite eq_refl) in Hs. specialize (Hs _ Hin). by destruct r'.
      * specialize (Hset _ Hin). by rewrite (Hsame eq_refl).
    + destruct s; simpl.
      * destruct Hs as (j & r' & Hj & Ht). exists j, r'.
        pose proof (lookup_lt_Some _ _ _ Hj). by rewrite lookup_app_l.
      * destruct (is_transition r) eqn:Et; simpl.
        -- destruct a as [x|a]; simpl.
           ++ intros r' Hin. apply elem_of_app in Hin as [Hin|Hin]; [eauto|].
              by apply list_elem_of_singleton in Hin.
           ++ exists (length evs), r. split; [|done].
              rewrite lookup_app_r by done. by rewrite Nat.sub_diag.
        -- intros r' Hin. apply elem_of_app in Hin as [Hin|Hin]; [eauto|].
           apply list_elem_of_singleton in Hin. congruence.
Qed.

Lemma durability_new_events {A : Type} (p : prog A) w :
  monitored durability false p →
  transition_first (new_events w (run p w).2)
  ∧ settled (new_events w (run p w).2) (env (run p w).2).
Proof.
  intros Hp.
  destruct (durability_sound p false w (log (env w)) [] Hp) as (evs & s' & Hl & Hevs).
  - by rewrite app_nil_r.
  - split; [|split].
    + intros i r x Hi. done.
    + intros r Hin. by apply elem_of_nil in Hin.
    + intros r Hin. by apply elem_of_nil in Hin.
  - unfold new_events. rewrite Hl, drop_app_length. by destruct Hevs as (? & ? & _).
Qed.

Ltac durability_side := simpl; first [ done | split; done | split; intros [=] ].

Lemma admin_reply_durable m : monitored durability false (handle_admin_reply m).
Proof.
  unfold handle_admin_reply.
  destruct m as [m|]; [|constructor]. destruct (chat_ident_of m =? 0); [constructor|].
  monitored_auto; durability_side.
Qed.

Lemma admin_response_durable q : monitored durability false (handle_admin_response q).
Proof. unfold handle_admin_response. monitored_auto; durability_side. Qed.

(** *** The [notified] gate *)

Lemma keeps_notified_trans b1 b2 b3 :
  keeps_notified b1 b2 → keeps_notified b2 b3 → keeps_notified b1 b3.
Proof. intros H12 H23 l. by rewrite H23, H12. Qed.

Lemma keeps_notified_session k b : keeps_notified b (get_user_session k b).2.
Proof. intros l. by rewrite deref_get_user_session. Qed.

Lemma gate_sound {A : Type} (p : prog A) s w base evs b0 :
  monitored gate s p →
  log (env w) = base ++ evs →
  gate_inv s evs b0 (bot w) →
  ∃ evs' s', log (env (run p w).2) = base ++ evs' ∧ gate_inv s' evs' b0 (bot (run p w).2).
Proof.
  intros Hp. revert w evs.
  induction Hp as [s a|s x|s X f k Hf Hk IH|s r k Hr Hk IH]; intros w evs Hlog Hinv; simpl.
  - eauto.
  - eauto.
  - specialize (Hf (bot w)). destruct (f (bot w)) as [y b]. apply (IH y _ evs); [done|].
    simpl in *. destruct s; simpl in *.
    + destruct Hf as [?|Hf]; [done|]. destruct Hinv as [Hevs Hb].
      split; [done|]. by apply keeps_notified_trans with (bot w).
    + done.
    + destruct Hf as [?|Hf]; [done|]. by apply keeps_notified_trans with (bot w).
  - destruct (perform r (env w)) as [a e] eqn:Ep.
    pose proof (perform_log_result r (env w)) as Hl. rewrite Ep in Hl. simpl in Hl.
    apply (IH a _ (evs ++ [(r, match a with inl x => Some x | inr _ => None end)])).
    + simpl. by rewrite Hl, Hlog, app_assoc.
    + simpl in *. destruct (is_send r) eqn:Es.
      * rewrite (Hr eq_refl) in Hinv. destruct Hinv as [Hevs Hb].
        destruct a as [x|a]; simpl; [done|]. split.
        -- exists r. split; [|done]. apply elem_of_app. right. by apply list_elem_of_singleton.
        -- intros r' x' Hin Hs'. apply elem_of_app in Hin as [Hin|Hin].
           ++ rewrite (Hevs _ _ Hin) in Hs'. done.
           ++ apply list_elem_of_singleton in Hin. congruence.
      * destruct s; simpl in *.
        -- destruct Hinv as [Hevs Hb]. split; [|done].
           intros r' x' Hin. apply elem_of_app in Hin as [Hin|Hin]; [eauto|].
           apply list_elem_of_singleton in Hin. congruence.
        -- destruct Hinv as [(r0 & Hin0 & Hs0) Hevs]. split.
           ++ exists r0. split; [|done]. apply elem_of_app. by left.
           ++ intros r' x' Hin Hs'. apply elem_of_app in Hin as [Hin|Hin]; [eauto|].
              apply list_elem_of_singleton in Hin. congruence.
        -- done.
Qed.

Lemma gate_new_events {A : Type} (p : prog A) w :
  monitored gate not_sent p →
  keeps_notified (bot w) (bot (run p w).2)
  ∨ (send_succeeded (new_events w (run p w).2) ∧ ¬ send_failed (new_events w (run p w).2)).
Proof.
  intros Hp.
  destruct (gate_sound p not_sent w (log (env w)) [] (bot w) Hp) as (evs & s' & Hl & Hinv).
  - by rewrite app_nil_r.
  - split; [|done]. intros r' x' Hin'. by apply elem_of_nil in Hin'.
  - unfold new_events. rewrite Hl, drop_app_length.
    destruct s'; simpl in Hinv.
    + left. by destruct Hinv.
    + right. destruct Hinv as [Hok Hevs]. split; [done|].
      intros (r & x & Hin & Hs). by specialize (Hevs _ _ Hin Hs).
    + by left.
Qed.

Ltac gate_side :=
  first [ done
        | by left
        | right; first [ done | apply keeps_notified_session ] ].

Lemma admin_reply_gated m : monitored gate not_sent (handle_admin_reply m).
Proof.
  unfold handle_admin_reply.
  destruct m as [m|]; [|constructor]. destruct (chat_ident_of m =? 0); [constructor|].
  monitored_auto; simpl; gate_side.
Qed.

Lemma admin_response_gated q : monitored gate not_sent (handle_admin_response q).
Proof. unfold handle_admin_response. monitored_auto; simpl; gate_side. Qed.

Lemma poll_session_gated l : monitored gate not_sent (poll_session l).
Proof.
  unfold poll_session, read. monitored_step; [gate_side|].
  destruct (order_id y), (chat_id y); try apply monitored_ret.
  monitored_step; [done|]. destruct a as [o|]; [|apply monitored_ret].
  destruct (status o); cbn [is_terminal andb]; try apply monitored_ret;
    (destruct (negb (get_notified y)); [|apply monitored_ret]);
    monitored_auto; simpl; gate_side.
Qed.

(** *** What C5 says *)

Example delivery_fails_after_approval :
  let w := with_faults (unreachable 7) evidence_world in
  let w' := (run (handle_admin_reply (Some (admin_reply "approve" w))) w).2 in
  (λ ev : event, (is_transition ev.1, is_send ev.1, ev.2)) <$> new_events w w'
  = [(false, false, None); (true, false, None); (false, true, Some NetworkError)]
  ∧ stored_status "uuid-1" w' = Some verified
  ∧ notified (session_before alice w') = notified (session_before alice w).
Proof. vm_compute. done. Qed.

(** After such a failure the next round of the poller, on a transport that
    works again, delivers the notification and sets the flag. *)
Example poller_recovers_delivery :
  let w := with_faults (unreachable 7) evidence_world in
  let w1 := (run (handle_admin_reply (Some (admin_reply "approve" w))) w).2 in
  let w2 := (run poll_tick (with_faults reliable w1)).2 in
  deliveries 7 (new_events w w1) = 0%nat ∧
  deliveries 7 (new_events w1 w2) = 1%nat ∧
  notified (session_before alice w2) = Some true.
Proof. vm_compute. done. Qed.

(** C5: on the approval and rejection paths of both admin handlers, every
    message sent to the user comes after a transition that has succeeded, and
    a transition that has succeeded is in the store as soon as its call
    returns and still when the handler ends; the handlers and the poller
    change [notified] only after a send that has succeeded, so whenever the
    send fails, every session keeps its flag while the new status stays
    stored. *)
Theorem durability_before_delivery :
  (∀ o e o', (perform (Order_approve_payment o) e).1 = inr o' →
     Py.get (order_ident o) (orders (perform (Order_approve_payment o) e).2) = Some o'
     ∧ status o' = verified)
  ∧ (∀ o reason e o', (perform (Order_reject_payment o reason) e).1 = inr o' →
       Py.get (order_ident o) (orders (perform (Order_reject_payment o reason) e).2) = Some o'
       ∧ status o' = rejected ∧ statusDetails o' = Some reason)
  ∧ (∀ m w, let w' := (run (handle_admin_reply m) w).2 in
       transition_first (new_events w w') ∧ settled (new_events w w') (env w')
       ∧ (keeps_notified (bot w) (bot w')
          ∨ (send_succeeded (new_events w w') ∧ ¬ send_failed (new_events w w'))))
  ∧ (∀ q w, let w' := (run (handle_admin_response q) w).2 in
       transition_first (new_events w w') ∧ settled (new_events w w') (env w')
       ∧ (keeps_notified (bot w) (bot w')
          ∨ (send_succeeded (new_events w w') ∧ ¬ send_failed (new_events w w'))))
  ∧ (∀ l w, let w' := (run (poll_session l) w).2 in
       keeps_notified (bot w) (bot w')
       ∨ (send_succeeded (new_events w w') ∧ ¬ send_failed (new_events w w'))).
Proof.
  split; [exact perform_approve|]. split; [exact perform_reject|].
  split; [|split].
  - intros m w w'. destruct (durability_new_events _ w (admin_reply_durable m)) as [H1 H2].
    split; [done|]. split; [done|]. apply gate_new_events, admin_reply_gated.
  - intros q w w'. destruct (durability_new_events _ w (admin_response_durable q)) as [H1 H2].
    split; [done|]. split; [done|]. apply gate_new_events, admin_response_gated.
  - intros l w w'. apply gate_new_events, poll_session_gated.
Qed.

(** ** At most one delivery *)

Lemma deliveries_app c evs evs' :
  deliveries c (evs ++ evs') = (deliveries c evs + deliveries c evs')%nat.
Proof. unfold deliveries. by rewrite List.filter_app, length_app. Qed.

Lemma chat_in_range l b chat : chat_id (deref l b) = Some chat → (l < length (heap b))%nat.
Proof.
  intros Hc. destruct (decide (l < length (heap b))%nat) as [|Hge]; [done|].
  apply Nat.nlt_ge in Hge. by rewrite (deref_out_of_range _ _ Hge) in Hc.
Qed.

Lemma get_elem {V : Type} k (v : V) d : Py.get k d = Some v → (k, v) ∈ d.
Proof.
  induction d as [|[k0 v0] d IH]; simpl; [done|].
  destruct (String.eqb k k0) eqn:E.
  - apply String.eqb_eq in E as ->. intros [= ->]. apply list_elem_of_here.
  - intros H. apply list_elem_of_further. auto.
Qed.

Lemma set_fresh {V : Type} k (v : V) d : Py.get k d = None → Py.set k v d = d ++ [(k, v)].
Proof.
  induction d as [|[k0 v0] d IH]; simpl; [done|].
  destruct (String.eqb k k0); [done|]. intros H. by rewrite IH.
Qed.

Lemma get_app_l {V : Type} k (v : V) d d' : Py.get k d = Some v → Py.get k (d ++ d') = Some v.
Proof.
  induction d as [|[k0 v0] d IH]; simpl; [done|]. destruct (String.eqb k k0); auto.
Qed.

Lemma same_sessions_refl b : same_sessions b b.
Proof. split; [done|]. exists []. by rewrite app_nil_r. Qed.

Lemma same_sessions_get_user_session k b : same_sessions b (get_user_session k b).2.
Proof.
  split; [intros l; apply deref_get_user_session|].
  unfold get_user_session. destruct (Py.get k (user_sessions b)) eqn:E; simpl.
  - exists []. by rewrite app_nil_r.
  - exists [(k, length (heap b))]. split; [by apply set_fresh|].
    apply Forall_cons. split; [|apply Forall_nil; exact I].
    unfold deref; simpl. rewrite lookup_total_app_r by done. by rewrite Nat.sub_diag.
Qed.

Lemma get_user_session_entry k b :
  (k, (get_user_session k b).1) ∈ user_sessions (get_user_session k b).2.
Proof. apply get_elem, get_user_session_registered. Qed.

Lemma no_chat_no_wait c b (more : list (string * loc)) :
  Forall (λ entry : string * loc, chat_id (deref entry.2 b) = None) more →
  List.filter (λ entry : string * loc, is_waiting c (deref entry.2 b)) more = [].
Proof.
  induction 1 as [|entry more Hc _ IH]; simpl; [done|].
  unfold is_waiting, has_chat at 1. by rewrite Hc.
Qed.

Lemma waiting_same c b b' : same_sessions b b' → waiting c b' = waiting c b.
Proof.
  intros [Hd (more & Ht & Hmore)]. unfold waiting.
  rewrite Ht, List.filter_app, length_app, (no_chat_no_wait c b' more Hmore), Nat.add_0_r.
  f_equal. apply List.filter_ext. intros entry. by rewrite Hd.
Qed.

Lemma update_flag_other c l l0 b :
  is_waiting c (deref l0 (update l (set_notified (Some true)) b)) = true →
  is_waiting c (deref l0 b) = true.
Proof.
  destruct (decide (l = l0)) as [<-|Hne]; [|by rewrite deref_update_ne].
  destruct (decide (l < length (heap b))%nat) as [Hlt|Hge].
  - rewrite deref_update_eq by done. unfold is_waiting, get_notified. simpl.
    by rewrite andb_false_r.
  - apply Nat.nlt_ge in Hge. rewrite !deref_out_of_range; [done|done|].
    by rewrite length_heap_update.
Qed.

(** Flagging a session of the table takes it out of the waiting ones. *)
Lemma waiting_flagged c l chat b :
  chat_id (deref l b) = Some chat → get_notified (deref l b) = false →
  (∃ k, (k, l) ∈ user_sessions b) →
  (waiting c (update l (set_notified (Some true)) b) + (if (chat =? c)%Z then 1 else 0)
   ≤ waiting c b)%nat.
Proof.
  intros Hc Hn [k Hin]. pose proof (chat_in_range _ _ _ Hc) as Hlt. unfold waiting.
  change (user_sessions (update l (set_notified (Some true)) b)) with (user_sessions b).
  set (b' := update l (set_notified (Some true)) b).
  assert (Hmono : ∀ t : list (string * loc),
             (length (List.filter (λ entry : string * loc, is_waiting c (deref entry.2 b')) t)
              ≤ length (List.filter (λ entry : string * loc, is_waiting c (deref entry.2 b)) t))%nat).
  { induction t as [|entry t IH]; simpl; [done|].
    destruct (is_waiting c (deref entry.2 b')) eqn:E.
    - rewrite (update_flag_other c l entry.2 b E). simpl. lia.
    - destruct (is_waiting c (deref entry.2 b)); simpl; lia. }
  revert Hin. generalize (user_sessions b). intros t Hin.
  induction t as [|entry t IH]; [by apply elem_of_nil in Hin|].
  apply elem_of_cons in Hin as [<-|Hin]; simpl.
  - unfold b' at 1. rewrite deref_update_eq by done.
    unfold is_waiting at 1. unfold get_notified at 1. simpl. rewrite andb_false_r.
    unfold is_waiting at 2. unfold has_chat. rewrite Hc, Hn, andb_true_r.
    specialize (Hmono t). destruct (chat =? c); simpl; lia.
  - specialize (IH Hin).
    destruct (is_waiting c (deref entry.2 b')) eqn:E.
    + rewrite (update_flag_other c l entry.2 b E). simpl. lia.
    + destruct (is_waiting c (deref entry.2 b)); simpl; lia.
Qed.

Lemma accounted_refl c w : accounted c w w.
Proof.
  split; [exists []; by rewrite app_nil_r|]. split; [done|].
  exists []. split; [by rewrite app_nil_r|]. simpl. done.
Qed.

Lemma accounted_trans c w1 w2 w3 :
  accounted c w1 w2 → accounted c w2 w3 → accounted c w1 w3.
Proof.
  intros ([m1 Ht1] & Hk1 & evs1 & Hl1 & Hle1) ([m2 Ht2] & Hk2 & evs2 & Hl2 & Hle2).
  split; [exists (m1 ++ m2); by rewrite Ht2, Ht1, app_assoc|].
  split.
  - intros l. destruct (Hk1 l) as [Ho1 Hc1], (Hk2 l) as [Ho2 Hc2].
    split; congruence.
  - exists (evs1 ++ evs2). split; [by rewrite Hl2, Hl1, app_assoc|].
    rewrite deliveries_app. lia.
Qed.

(** A stretch of the run in which nothing is delivered to [c] and no session
    changes. *)
Lemma accounted_quiet c w w' evs :
  same_sessions (bot w) (bot w') →
  log (env w') = log (env w) ++ evs →
  deliveries c evs = 0%nat →
  accounted c w w'.
Proof.
  intros Hs Hl Hd. pose proof (waiting_same c _ _ Hs) as Hw.
  destruct Hs as [Hb (more & Ht & _)].
  split; [by exists more|]. split; [intros l; by rewrite Hb|].
  exists evs. split; [done|]. rewrite Hd, Hw. done.
Qed.

(** A stretch of the run that ends with a session of the table being
    flagged: it may hold one delivery to the chat of that session. *)
Lemma accounted_notified c l chat w b w' evs :
  same_sessions (bot w) b →
  (∃ k, (k, l) ∈ user_sessions b) →
  chat_id (deref l b) = Some chat →
  get_notified (deref l b) = false →
  bot w' = update l (set_notified (Some true)) b →
  log (env w') = log (env w) ++ evs →
  (deliveries c evs ≤ if (chat =? c)%Z then 1 else 0)%nat →
  accounted c w w'.
Proof.
  intros Hs Hin Hchat Hn Hb' Hl Hd.
  pose proof (waiting_same c _ _ Hs) as Hw.
  pose proof (waiting_flagged c l chat b Hchat Hn Hin) as Hf.
  destruct Hs as [Hb (more & Ht & _)].
  split; [exists more; by rewrite Hb'|]. split.
  - intros l0. rewrite Hb', <- !Hb. split.
    + apply (deref_update l l0 _ b (λ s, order_id s = order_id (deref l0 b))); done.
    + apply (deref_update l l0 _ b (λ s, chat_id s = chat_id (deref l0 b))); done.
  - exists evs. split; [done|]. rewrite Hb'. lia.
Qed.

(** The log of a world that a sequence of calls has produced. *)
Ltac log_chain :=
  repeat match goal with
         | H : perform ?r ?e = (?a, ?e') |- _ =>
             let Hl := fresh "Hl" in
             pose proof (perform_log_result r e) as Hl;
             rewrite H in Hl; cbn [fst snd] in Hl; revert H
         end;
  intros;
  cbn [env bot with_env with_bot];
  repeat match goal with
         | Hl : log ?e = _ |- context [log ?e] => rewrite Hl
         end;
  rewrite <- ?app_assoc.

Ltac account_quiet :=
  cbn [run mret prog_ret fst snd];
  eapply accounted_quiet;
    [ cbn [env bot with_env with_bot];
      first [ apply same_sessions_refl | apply same_sessions_get_user_session ]
    | log_chain; first [ reflexivity | symmetry; apply app_nil_r ]
    | reflexivity ].

Ltac account_notified Hs Hin Ec En :=
  eapply accounted_notified;
    [ exact Hs
    | exact Hin
    | exact Ec
    | exact En
    | reflexivity
    | log_chain; reflexivity
    | unfold deliveries; cbn [List.filter is_delivery length app];
      match goal with |- context [(?x =? ?y)%Z] => destruct (x =? y)%Z end;
      cbn [length]; lia ].

Lemma poll_session_accounted c l w :
  (∃ k, (k, l) ∈ user_sessions (bot w)) → accounted c w (run (poll_session l) w).2.
Proof.
  intros Hin. unfold poll_session, read. rewrite run_bind, run_act. run_norm.
  rewrite with_bot_same.
  destruct (order_id (deref l (bot w))) as [oid|] eqn:Eo; [|account_quiet].
  destruct (chat_id (deref l (bot w))) as [chat|] eqn:Ec; [|account_quiet].
  run_step. run_step. run_perform; [account_quiet|].
  destruct a as [o|]; [|account_quiet].
  destruct (status o); cbn [is_terminal andb]; try account_quiet;
    (destruct (get_notified (deref l (bot w))) eqn:En; cbn [negb]; [account_quiet|]);
    rewrite !run_bind; run_step; run_perform; try account_quiet;
    unfold modify; rewrite run_ret; run_norm; rewrite run_act; run_norm;
    account_notified (same_sessions_refl (bot w)) Hin Ec En.
Qed.

(** The loop of a tick goes over a snapshot of the table; the entries of
    the snapshot stay in the table while it runs. *)
Lemma poll_sessions_accounted c (snapshot : list (string * loc)) w :
  (∀ entry, entry ∈ snapshot → entry ∈ user_sessions (bot w)) →
  accounted c w (run (for_each snapshot (λ entry, poll_session entry.2)) w).2.
Proof.
  revert w. induction snapshot as [|[k l] snapshot IH]; intros w Hin.
  - apply accounted_refl.
  - rewrite run_for_each_cons.
    assert (Hx : accounted c w (run (poll_session l) w).2).
    { apply poll_session_accounted. exists k. apply Hin, list_elem_of_here. }
    cbn [snd]. destruct (run (poll_session l) w) as [[[]|e] w1]; [|done]. simpl in *.
    eapply accounted_trans; [exact Hx|]. apply IH. intros entry He.
    destruct Hx as ([more ->] & _). apply elem_of_app. left.
    apply Hin, list_elem_of_further, He.
Qed.

Lemma poll_tick_accounted c w : accounted c w (run poll_tick w).2.
Proof.
  unfold poll_tick. rewrite run_try_except, run_bind, run_act. run_norm.
  rewrite with_bot_same.
  pose proof (poll_sessions_accounted c (user_sessions (bot w)) w (λ _ H, H)) as H.
  destruct (run (for_each _ _) w) as [[[]|e] w1]; done.
Qed.

Lemma run_swallow (p : prog unit) w :
  (run (try_except p Exception (λ _, mret tt)) w).2 = (run p w).2.
Proof. rewrite run_try_except. by destruct (run p w) as [[[]|x] w']. Qed.

Lemma admin_reply_accounted c m w : accounted c w (run (handle_admin_reply m) w).2.
Proof.
  unfold handle_admin_reply.
  destruct m as [m|]; [|account_quiet].
  destruct (chat_ident_of m =? 0); [account_quiet|].
  unfold global. rewrite run_bind, run_act. run_norm. rewrite with_bot_same.
  destruct (negb (chat_ident_of m =? _)); [account_quiet|].
  set (reply_text := match text_of m with Some t => Py.lower t | None => "" end).
  destruct (negb (_ || _)); [account_quiet|].
  rewrite run_swallow.
  destruct (reply_to_message m) as [[[|ch caption]|]|]; try account_quiet.
  destruct (negb (Py.startswith _ payment_marker)); [account_quiet|].
  destruct (parse_order_id _) as [order|]; [|account_quiet].
  run_step. run_step. run_perform; [account_quiet|].
  destruct a as [o|]; [|account_quiet].
  unfold session_of, read. do 4 run_step.
  destruct (chat_id (deref _ _)) as [chat|] eqn:Ec; [|account_quiet].
  unfold notify_once, when, modify.
  destruct (eqs reply_text "approve"); [|destruct (Py.startswith reply_text "reject:")];
    try account_quiet.
  all: run_step; run_step; run_perform; [account_quiet|].
  all: destruct (get_notified (deref _ _)) eqn:En; cbn [negb]; [account_quiet|].
  all: run_step; run_step; run_perform; [account_quiet|].
  all: rewrite run_act; run_norm.
  all: account_notified (same_sessions_get_user_session (telegramUserId o) (bot w))
         (ex_intro (λ k, (k, _) ∈ _) _ (get_user_session_entry (telegramUserId o) (bot w)))
         Ec En.
Qed.

Lemma fire_accounted c t w : accounted c w (run (fire t) w).2.
Proof. destruct t; [apply poll_tick_accounted | apply admin_reply_accounted]. Qed.

Lemma run_all_accounted c ts w : accounted c w (run_all (fire <$> ts) w).2.
Proof.
  revert w. induction ts as [|t ts IH]; intros w; [apply accounted_refl|].
  cbn [fmap list_fmap run_all]. pose proof (fire_accounted c t w) as Ht.
  destruct (run (fire t) w) as [o w1]. specialize (IH w1).
  change (list_fmap _ _ fire ts) with (fire <$> ts).
  destruct (run_all (fire <$> ts) w1) as [os w2]. by apply accounted_trans with w1.
Qed.

Lemma filter_both {X : Type} (f g : X → bool) (xs : list X) :
  List.filter (λ x, f x && g x) xs = List.filter g (List.filter f xs).
Proof.
  induction xs as [|x xs IH]; simpl; [done|].
  destruct (f x); simpl; [|done]. destruct (g x); by rewrite IH.
Qed.

Lemma sole_waiting k l c b :
  sole_session k l c b → waiting c b = if get_notified (deref l b) then 0%nat else 1%nat.
Proof.
  intros Hs. unfold waiting, is_waiting.
  rewrite (filter_both (λ entry : string * loc, has_chat c (deref entry.2 b))
             (λ entry : string * loc, negb (get_notified (deref entry.2 b)))).
  unfold sole_session in Hs. rewrite Hs. simpl. by destruct (get_notified (deref l b)).
Qed.

Lemma waiting_entry c entry b :
  entry ∈ user_sessions b → is_waiting c (deref entry.2 b) = true → (1 ≤ waiting c b)%nat.
Proof.
  intros Hin Hw. unfold waiting.
  assert (In entry (List.filter (λ entry : string * loc, is_waiting c (deref entry.2 b))
                      (user_sessions b))) as H.
  { apply List.filter_In. split; [by apply list_elem_of_In|done]. }
  destruct (List.filter _ _); [done|]. simpl. lia.
Qed.

(** C1, as amended.  When the poller's ticks and the admin's free-text
    replies run one after the other, each to completion, then whatever the
    state of the process, the store and the transport, every notification
    that reaches a chat [c] is paid for by the [notified] flag of a session
    of the table whose chat is [c]: the deliveries to [c] and the sessions
    still waiting in [c] afterwards are together no more than the sessions
    that were waiting in [c] before.  Every session keeps its order and its
    chat, and every user keeps their session, so this is one notification at
    most for the order of a session.  In particular the user whose session
    is the only one of the table with chat [c] receives at most one
    notification: none when the session is already flagged, and after the
    one delivery the session is flagged. *)
Theorem sequential_delivery_at_most_once (ts : list trigger) (c : Z) (w : World) :
  let w' := (run_all (fire <$> ts) w).2 in
  (deliveries c (new_events w w') + waiting c (bot w') ≤ waiting c (bot w))%nat ∧
  (∀ l, order_id (deref l (bot w')) = order_id (deref l (bot w))
        ∧ chat_id (deref l (bot w')) = chat_id (deref l (bot w))) ∧
  (∀ k l, Py.get k (user_sessions (bot w)) = Some l →
          Py.get k (user_sessions (bot w')) = Some l) ∧
  (∀ k l, sole_session k l c (bot w) →
          (deliveries c (new_events w w') ≤ 1)%nat ∧
          (get_notified (deref l (bot w)) = true → deliveries c (new_events w w') = 0%nat) ∧
          (deliveries c (new_events w w') = 1%nat → get_notified (deref l (bot w')) = true)).
Proof.
  intros w'. destruct (run_all_accounted c ts w) as ([more Ht] & Hk & evs & Hl & Hle).
  fold w' in Ht, Hk, Hl, Hle. unfold new_events. rewrite Hl, drop_app_length.
  split; [exact Hle|]. split; [exact Hk|].
  split; [intros k l Hg; rewrite Ht; by apply get_app_l|].
  intros k l Hs. pose proof (sole_waiting k l c _ Hs) as Hw. rewrite Hw in Hle.
  split; [destruct (get_notified (deref l (bot w))); lia|].
  split; [intros Hn; rewrite Hn in Hle; lia|].
  intros Hd. destruct (get_notified (deref l (bot w'))) eqn:En; [done|]. exfalso.
  assert (In (k, l) (List.filter (λ entry : string * loc, has_chat c (deref entry.2 (bot w)))
                       (user_sessions (bot w)))) as Hin
    by (unfold sole_session in Hs; rewrite Hs; by left).
  apply List.filter_In in Hin as [Hin Hc]. cbn [snd] in Hc.
  assert (1 ≤ waiting c (bot w'))%nat as H1.
  { apply (waiting_entry c (k, l)).
    - rewrite Ht. apply elem_of_app. left. by apply list_elem_of_In.
    - cbn [snd]. unfold is_waiting, has_chat in *.
      rewrite (proj2 (Hk l)), En. by rewrite andb_true_r. }
  destruct (get_notified (deref l (bot w))); lia.
Qed.

(** Witness of C1: Alice has cancelled and started again, so two session
    objects of the memory hold her chat, one of them detached; the admin
    approves her payment, then the poller ticks twice. *)
Lemma sequential_delivery_at_most_once_witness :
  chat_id (deref 0%nat (bot restarted_world)) = Some 7 ∧
  chat_id (deref 1%nat (bot restarted_world)) = Some 7 ∧
  sole_session "7" 1%nat 7 (bot restarted_world) ∧
  (deliveries 7
     (new_events restarted_world
        (run_all (fire <$> [free_text_reply (Some (admin_reply "approve" restarted_world));
                            tick; tick])
           restarted_world).2)
   ≤ 1)%nat.
Proof.
  assert (Hs : sole_session "7" 1%nat 7 (bot restarted_world)) by (vm_compute; reflexivity).
  split; [vm_compute; reflexivity|]. split; [vm_compute; reflexivity|].
  split; [exact Hs|].
  exact (proj1 (proj2 (proj2 (proj2
           (sequential_delivery_at_most_once
              [free_text_reply (Some (admin_reply "approve" restarted_world)); tick; tick]
              7 restarted_world))) "7" 1%nat Hs)).
Defined.

Example one_delivery_in_sequence :
  deliveries 7
    (new_events evidence_world
       (run_all (fire <$> [free_text_reply (Some (admin_reply "approve" evidence_world));
                           tick; tick])
          evidence_world).2)
  = 1%nat
  ∧ deliveries 7
      (new_events restarted_world
         (run_all (fire <$> [free_text_reply (Some (admin_reply "approve" restarted_world));
                             tick; tick])
            restarted_world).2)
    = 1%nat.
Proof. split; vm_compute; reflexivity. Qed.

(** Counterexample to C1 as stated: no lock protects the check of [notified],
    the send and the setting of the flag.  The admin's reply approves the
    order and waits for its send; the poller wakes up, finds the order
    verified and the flag unset, and waits for its send as well; both are
    then resumed, and Alice receives the notification twice. *)
Lemma interleaved_triggers_deliver_twice :
  (racing [0; 1]%nat).1 = [Done (Returned tt); Done (Returned tt)] ∧
  deliveries 7 (new_events evidence_world (racing [0; 1]%nat).2) = 2%nat ∧
  stored_status "uuid-1" (racing [0; 1]%nat).2 = Some verified.
Proof. vm_compute. done. Qed.

(** The button is left out of the statement above: [handle_admin_response]
    sends without looking at [notified], and sets the flag only after the
    evidence message has been annotated.  When that annotation fails, the
    poller delivers the notification again. *)
Example button_press_then_tick :
  let w := with_faults no_annotation evidence_world in
  let w1 := (run (handle_admin_response (admin_press "approve_7_uuid-1")) w).2 in
  let w2 := (run poll_tick w1).2 in
  deliveries 7 (new_events w w1) = 1%nat ∧
  notified (session_before alice w1) = Some false ∧
  deliveries 7 (new_events w w2) = 2%nat.
Proof. vm_compute. done. Qed.

(** ** The [notified] flag between two orders *)

Lemma session_view_refl strict b : session_view strict b b.
Proof. split; [by intros l|]. by intros _ k l. Qed.

Lemma session_view_trans strict b1 b2 b3 :
  session_view strict b1 b2 → session_view strict b2 b3 → session_view strict b1 b3.
Proof.
  intros [Ho1 Ht1] [Ho2 Ht2]. split.
  - intros l. destruct (Ho1 l) as [Hn1 Hi1], (Ho2 l) as [Hn2 Hi2].
    split; [auto|]. by rewrite Hi2.
  - intros Hs k l Hk. apply Ht2, Ht1; done.
Qed.

Lemma session_view_session strict k b : session_view strict b (get_user_session k b).2.
Proof.
  split.
  - intros l. by rewrite deref_get_user_session.
  - intros _ k' l Hk'. unfold get_user_session.
    destruct (Py.get k (user_sessions b)) eqn:Ek; [done|]. simpl.
    rewrite get_set_ne; [done|]. intros ->. by rewrite Ek in Hk'.
Qed.

Lemma session_view_update strict l g b :
  keeps_order_fields g → session_view strict b (update l g b).
Proof.
  intros Hg. split; [|by intros _ k l'].
  intros l'. split.
  - intros Hn. apply deref_update; [done|]. intros s Hs. by apply (Hg s).
  - apply (deref_update l l' g b (λ s, order_id s = order_id (deref l' b))); [done|].
    intros s Hs. by rewrite (proj2 (Hg s)).
Qed.

Lemma session_view_cache strict c b : session_view strict b (set_user_cache c b).
Proof. split; [by intros l|]. by intros _ k l. Qed.

Lemma order_view_alloc s b :
  order_id s = None → notified s = None →
  order_view b (alloc s b).2.
Proof.
  intros Ho Hn l. unfold alloc, deref; simpl.
  destruct (decide (l < length (heap b))%nat) as [Hlt|Hge].
  - by rewrite lookup_total_app_l.
  - apply Nat.nlt_ge in Hge.
    rewrite (list_lookup_total_alt (heap b)), (proj2 (lookup_ge_None (heap b) l)) by done.
    simpl. split; [done|].
    rewrite list_lookup_total_alt, lookup_app_r by done.
    destruct (l - length (heap b))%nat as [|n]; simpl; [done|]. by destruct n.
Qed.

Lemma session_view_restart k l b :
  session_view false b
    (let '(l', b') := alloc (restarted_session (deref l b)) b in
     (l', set_user_sessions (Py.set k l' (user_sessions b')) b')).2.
Proof.
  split; [|done]. intros l0.
  exact (order_view_alloc (restarted_session (deref l b)) b eq_refl eq_refl l0).
Qed.

Lemma session_view_cancel k b :
  session_view false b
    (if Py.mem k (user_sessions b)
     then set_user_sessions (Py.del k (user_sessions b)) b else b).
Proof. split; [|done]. intros l. by destruct (Py.mem k (user_sessions b)). Qed.

Ltac order_fields :=
  intros ?; unfold set_section; split; cbn;
  repeat match goal with
         | |- context [match ?c with _ => _ end] => destruct c; cbn
         end;
  done.

Ltac session_side :=
  cbn [fst snd];
  first [ apply session_view_refl
        | apply session_view_session
        | apply session_view_cache
        | apply session_view_update; order_fields
        | apply session_view_restart
        | apply session_view_cancel ].

Ltac session_auto := footprint_auto; try done; try session_side.

Ltac unfold_handlers :=
  unfold handler, discard;
  unfold start, select_language, handle_returning_user_choice, start_collecting_info,
    collect_personal_info, collect_contact_info, collect_profile_image,
    handle_profile_image_choice, collect_professional_info,
    handle_professional_info_choice, collect_education, handle_education_choice,
    collect_skills, handle_skills_choice, collect_career_objective, collect_certifications,
    handle_certifications_choice, collect_projects, handle_projects_choice,
    collect_languages, handle_languages_choice, collect_activities, edit_info,
    handle_payment_screenshot, handle_admin_response, handle_admin_reply,
    ignore_non_reply_messages, log_file_id, cancel, help_command, error_handler, poll_tick,
    cache_user_info, resolve_username_to_id;
  unfold send_tutorial_video, send_sample_cvs, poll_session, restart_session;
  unfold delete_menu, chat_of.

Lemma handler_keeps op :
  associates_order op = false →
  footprint (session_view (negb (replaces_session op))) (λ _, True) (handler op).
Proof.
  destruct op; intros [=]; cbn [replaces_session negb]; unfold_handlers.
  all: session_auto.
Qed.

Lemma session_view_weaken (s s' : bool) b b' :
  (s' = true → s = true) → session_view s b b' → session_view s' b b'.
Proof. intros Hs [Ho Ht]. split; [done|]. auto. Qed.

Lemma handler_view op w :
  associates_order op = false →
  session_view (negb (replaces_session op)) (bot w) (bot (run (handler op) w).2).
Proof.
  intros Hop.
  refine (proj1 (footprint_sound (session_view _) (λ _, True) (λ _ _, True)
                   (handler op) w _ _ _ _ _ (handler_keeps op Hop))); try done.
  - intros b. apply session_view_refl.
  - intros b1 b2 b3. apply session_view_trans.
Qed.

Lemma run_all_view ops w :
  between_orders ops = true →
  session_view (keeps_objects ops) (bot w) (bot (run_all (handler <$> ops) w).2).
Proof.
  revert w. induction ops as [|op ops IH]; intros w Hops; [apply session_view_refl|].
  cbn [between_orders keeps_objects forallb] in *.
  apply andb_true_iff in Hops as [Hop Hops]. apply negb_true_iff in Hop.
  cbn [fmap list_fmap run_all]. pose proof (handler_view op w Hop) as H1.
  destruct (run (handler op) w) as [o w1]. specialize (IH w1 Hops).
  change (list_fmap _ _ handler ops) with (handler <$> ops).
  destruct (run_all (handler <$> ops) w1) as [os w2]. cbn [fst snd] in *.
  apply session_view_trans with (bot w1).
  - eapply session_view_weaken; [|exact H1]. intros H. by apply andb_true_iff in H as [? _].
  - eapply session_view_weaken; [|exact IH]. intros H. by apply andb_true_iff in H as [_ ?].
Qed.

(** C2, as amended.  Through any sequence of operations of the bot none of
    which attaches an order to a session (the confirmation of the order, and
    the two payment-retry commands, which attach the user's latest rejected
    order again), a session object keeps its order, and a [notified] that is
    true stays true; so between two such attachments the flag goes from false
    to true at most once.  Unless the sequence holds the restart of the
    wizard or a cancellation, which replace or remove the table entry, every
    identity also keeps its session object. *)
Theorem notified_kept_between_orders (ops : list operation) (l : loc) (w : World) :
  between_orders ops = true →
  let w' := (run_all (handler <$> ops) w).2 in
  (notified (deref l (bot w)) = Some true → notified (deref l (bot w')) = Some true) ∧
  order_id (deref l (bot w')) = order_id (deref l (bot w)) ∧
  (keeps_objects ops = true →
   ∀ k, Py.get k (user_sessions (bot w)) = Some l → Py.get k (user_sessions (bot w')) = Some l).
Proof.
  intros Hops w'. destruct (run_all_view ops w Hops) as [Ho Ht]. fold w' in Ho, Ht.
  destruct (Ho l) as [Hn Hi]. split; [done|]. split; [done|].
  intros Hk k. by apply Ht.
Qed.

(** Witness of C2: after the rejection has been delivered, the poller ticks,
    Alice asks for help and sends the next screenshot. *)
Lemma notified_kept_between_orders_witness :
  between_orders [on_poll_tick; on_help alice; on_payment_screenshot screenshot] = true ∧
  (notified (deref 0%nat (bot rejected_world)) = Some true →
   notified
     (deref 0%nat
        (bot (run_all (handler <$> [on_poll_tick; on_help alice;
                                    on_payment_screenshot screenshot])
                rejected_world).2))
   = Some true).
Proof.
  split; [reflexivity|].
  exact (proj1 (notified_kept_between_orders
                  [on_poll_tick; on_help alice; on_payment_screenshot screenshot]
                  0%nat rejected_world eq_refl)).
Defined.

Example rejection_is_delivered :
  order_and_flag rejected_world = (Some "uuid-1", Some true) ∧
  stored_status "uuid-1" rejected_world = Some rejected ∧
  deliveries 7 (new_events evidence_world rejected_world) = 1%nat.
Proof. vm_compute. done. Qed.

(** Counterexample to C2 as stated.  Alice's order has been rejected and the
    rejection delivered, so [notified] is true.  [/payment] attaches the same
    rejected order again, no new one, and resets the flag; the next tick of
    the poller finds the order still rejected, delivers the rejection again
    and sets the flag a second time for this order. *)
Lemma payment_command_resets_notified :
  let w1 := (run (handle_payment_command alice 7) rejected_world).2 in
  let w2 := (run poll_tick w1).2 in
  order_and_flag rejected_world = (Some "uuid-1", Some true) ∧
  order_and_flag w1 = (Some "uuid-1", Some false) ∧
  order_and_flag w2 = (Some "uuid-1", Some true) ∧
  (orders (env w2)).*1 = ["uuid-1"] ∧
  deliveries 7 (new_events rejected_world w2) = 1%nat.
Proof. vm_compute. done. Qed.

(** ** Which operations write the store *)

Lemma perform_profile r e :
  writes_profile r = false →
  candidates (perform r e).2 = candidates e ∧ subdocs (perform r e).2 = subdocs e.
Proof.
  intros Hr. unfold perform.
  destruct (if is_local r then None else faults e (log e) r); [done|].
  destruct r; try discriminate Hr; try done; simpl.
  - by destruct (approve_payment o).
  - by destruct (reject_payment reason o).
Qed.

Ltac unfold_all_handlers :=
  unfold_handlers;
  unfold confirm_order, payment_retry_command, handle_payment_command;
  unfold get_rejected_order_for_user, tag_and_save, log_saved, restart_session;
  unfold delete_menu, chat_of.

Lemma handler_reads_orders op :
  order_writer op = false →
  footprint (λ _ _, True) (λ r, writes_orders r = false) (handler op).
Proof.
  destruct op; intros [=]; unfold_all_handlers; footprint_auto; done.
Qed.

Lemma handler_reads_profile op :
  profile_writer op = false →
  footprint (λ _ _, True) (λ r, writes_profile r = false) (handler op).
Proof.
  destruct op; intros [=]; unfold_all_handlers; footprint_auto; done.
Qed.

(** X1. The orders of the store are written by four operations only: the
    confirmation of an order, the upload of payment evidence and the two
    admin decisions; candidates and their sections are written by the
    confirmation only.  Every other operation leaves them as they are,
    whatever the store and the transport answer. *)
Theorem store_writers (op : operation) (w : World) :
  (order_writer op = false →
   orders (env (run (handler op) w).2) = orders (env w)) ∧
  (profile_writer op = false →
   candidates (env (run (handler op) w).2) = candidates (env w) ∧
   subdocs (env (run (handler op) w).2) = subdocs (env w)).
Proof.
  split; intros Hop.
  - apply eq_sym.
    refine (proj2 (footprint_sound (λ _ _, True) _ (λ e e', orders e = orders e')
                     (handler op) w _ _ _ _ _ (handler_reads_orders op Hop))); try done.
    + intros ??? -> ->. done.
    + intros r e Hr. by rewrite perform_orders.
  - assert (H : candidates (env w) = candidates (env (run (handler op) w).2)
                ∧ subdocs (env w) = subdocs (env (run (handler op) w).2)).
    { refine (proj2 (footprint_sound (λ _ _, True) _
                       (λ e e', candidates e = candidates e' ∧ subdocs e = subdocs e')
                       (handler op) w _ _ _ _ _ (handler_reads_profile op Hop))); try done.
      + intros ??? [-> ->] [-> ->]. done.
      + intros r e Hr. by destruct (perform_profile r e Hr) as [-> ->]. }
    by destruct H as [-> ->].
Qed.

(** ** A handler works on the session of its user only *)

Lemma others_kept_refl l k b : others_kept l k b b.
Proof. split; [done|]. split; [done|]. split; done. Qed.

Lemma others_kept_trans l k b1 b2 b3 :
  others_kept l k b1 b2 → others_kept l k b2 b3 → others_kept l k b1 b3.
Proof.
  intros (Hl1 & Hd1 & Ht1 & Hc1) (Hl2 & Hd2 & Ht2 & Hc2). split; [|split; [|split]].
  - lia.
  - intros l' Hne Hlt. rewrite Hd2; [by apply Hd1|done|lia].
  - intros k' Hne. rewrite Ht2; [by apply Ht1|done].
  - by rewrite Hc2.
Qed.

Lemma others_kept_session l k b : others_kept l k b (get_user_session k b).2.
Proof.
  split; [|split; [|split]].
  - unfold get_user_session. destruct (Py.get k (user_sessions b)); simpl; [done|].
    rewrite length_app. lia.
  - intros l' _ _. apply deref_get_user_session.
  - intros k' Hne. unfold get_user_session.
    destruct (Py.get k (user_sessions b)); simpl; [done|]. by apply get_set_ne.
  - unfold get_user_session. by destruct (Py.get k (user_sessions b)).
Qed.

Lemma others_kept_update l k g b : others_kept l k b (update l g b).
Proof.
  split; [|split; [|split]]; try done.
  - by rewrite length_heap_update.
  - intros l' Hne _. by apply deref_update_ne.
Qed.

Lemma others_kept_restart l k l0 b :
  others_kept l k b
    (let '(l', b') := alloc (restarted_session (deref l0 b)) b in
     (l', set_user_sessions (Py.set k l' (user_sessions b')) b')).2.
Proof.
  split; [|split; [|split]]; simpl.
  - rewrite length_app. lia.
  - intros l' _ Hlt. by apply deref_alloc_old.
  - intros k' Hne. by apply get_set_ne.
  - done.
Qed.

Lemma others_kept_cancel l k b :
  others_kept l k b
    (if Py.mem k (user_sessions b)
     then set_user_sessions (Py.del k (user_sessions b)) b else b).
Proof.
  destruct (Py.mem k (user_sessions b)); [|apply others_kept_refl].
  split; [done|]. split; [done|]. split; [|done].
  intros k' Hne. simpl. by apply get_del_ne.
Qed.

Lemma others_kept_sound {A : Type} l k (p : prog A) w :
  footprint (others_kept l k) (λ _, True) p →
  others_kept l k (bot w) (bot (run p w).2).
Proof.
  intros Hp.
  refine (proj1 (footprint_sound (others_kept l k) (λ _, True) (λ _ _, True)
                   p w (others_kept_refl l k) (others_kept_trans l k) _ _ _ Hp)); done.
Qed.

Lemma isolated_session_of {A : Type} k (rest : loc → prog A) :
  (∀ l, footprint (others_kept l k) (λ _, True) (rest l)) →
  isolated k (session_of k ≫= rest).
Proof.
  intros Hrest w. unfold session_of. rewrite run_bind, run_act. run_norm.
  eapply others_kept_trans; [apply others_kept_session|].
  apply (others_kept_sound _ _ (rest _) (with_bot _ w)), Hrest.
Qed.

Lemma isolated_open_session {A : Type} u chat (rest : loc → prog A) :
  (∀ l, footprint (others_kept l (str (user_ident u))) (λ _, True) (rest l)) →
  isolated (str (user_ident u)) (open_session u chat ≫= rest).
Proof.
  intros Hrest w. unfold open_session, session_of, modify.
  rewrite !run_bind, run_act. run_norm. rewrite run_bind, run_act. run_norm.
  rewrite run_ret. run_norm.
  eapply others_kept_trans; [apply others_kept_session|].
  eapply others_kept_trans; [apply others_kept_update|].
  match goal with |- context [run _ ?W] => apply (others_kept_sound _ _ (rest _) W) end.
  apply Hrest.
Qed.

Lemma isolated_call_bind {A : Type} k r (f : answer r → prog A) :
  (∀ a, isolated k (f a)) → isolated k (call r ≫= f).
Proof.
  intros Hf w. rewrite run_bind.
  pose proof (run_call r w) as Hr. cbn [answer] in *. rewrite Hr. clear Hr.
  destruct (perform r (env w)) as [[x|a] e]; run_norm; [apply others_kept_refl|].
  apply (Hf a (with_env e w)).
Qed.

Lemma isolated_discard {A : Type} k (p : prog A) : isolated k p → isolated k (discard p).
Proof.
  intros Hp w. unfold discard. rewrite run_bind. specialize (Hp w).
  by destruct (run p w) as [[a|x] w'].
Qed.

Lemma isolated_ret {A : Type} k (a : A) : isolated k (mret a).
Proof. intros w. apply others_kept_refl. Qed.

Ltac others_side :=
  cbn [fst snd];
  first [ apply others_kept_refl
        | apply others_kept_update
        | apply others_kept_restart
        | apply others_kept_cancel ].

Ltac isolated_auto :=
  repeat first
    [ apply isolated_discard
    | apply isolated_open_session; intros ?
    | apply isolated_session_of; intros ?
    | apply isolated_call_bind; intros ? ];
  footprint_auto; try done; try others_side.

Lemma handler_isolated op u :
  served op = Some u → isolated (str (user_ident u)) (handler op).
Proof.
  destruct op; intros H; simpl in H; simplify_eq; unfold handler.
  all: unfold_all_handlers; cbv zeta.
  all: isolated_auto.
Qed.

(** X2. A handler that serves a user reads and writes the session of that user
    only: the session objects of the other users, their entries in the
    session table and the username cache are as they were, whatever the
    store and the transport answer. *)
Theorem handler_serves_one_user (op : operation) (u : User) (w : World) :
  served op = Some u →
  let b := bot w in
  let b' := bot (run (handler op) w).2 in
  (∀ l, l ≠ session_loc u w → (l < length (heap b))%nat → deref l b' = deref l b) ∧
  (∀ k, k ≠ str (user_ident u) → Py.get k (user_sessions b') = Py.get k (user_sessions b)) ∧
  user_cache b' = user_cache b.
Proof.
  intros Hop b b'. destruct (handler_isolated op u Hop w) as (_ & Hd & Ht & Hc).
  split; [exact Hd|]. split; [exact Ht | exact Hc].
Qed.

(** Alice cancels while another user waits for the decision on a payment. *)
Lemma handler_serves_one_user_witness :
  served (on_cancel alice) = Some alice ∧
  deref 1%nat (bot (run (handler (on_cancel alice)) (two_pending reliable)).2)
  = awaiting_notification 8 "o8".
Proof.
  split; [reflexivity|].
  refine (proj1 (handler_serves_one_user (on_cancel alice) alice (two_pending reliable)
                   eq_refl) 1%nat _ _).
  - vm_compute. discriminate.
  - vm_compute. lia.
Defined.

(** ** The username cache *)

Lemma cache_user_info_caches u n w :
  username u = Some n → n ≠ "" →
  run (cache_user_info (Some u)) w
  = (Returned tt,
     with_bot (set_user_cache (Py.set (Py.lower n) (user_ident u) (user_cache (bot w)))
                 (bot w)) w).
Proof.
  intros Hn Hne. unfold cache_user_info. rewrite Hn.
  destruct n as [|c r]; [done|]. by rewrite run_act.
Qed.

(** X3. A user whom [cache_user_info] has seen is resolved from the cache: for
    every spelling of the handle that normalises to the lower-cased username
    (any letter case, with or without [@]), [resolve_username_to_id] returns
    the identity of the user and calls nothing. *)
Theorem cached_user_is_resolved (u : User) (n name : string) (w : World) :
  username u = Some n → n ≠ "" →
  normalized name = Py.lower n →
  let w1 := (run (cache_user_info (Some u)) w).2 in
  run (resolve_username_to_id name) w1 = (Returned (user_ident u), w1).
Proof.
  intros Hn Hne Hname w1. unfold w1. rewrite (cache_user_info_caches u n w Hn Hne).
  cbn [snd]. rewrite resolve_username_to_id_refines.
  unfold resolve, first_success, cache_tier. rewrite Hname.
  cbn [bot with_bot user_cache set_user_cache]. rewrite get_set_eq.
  rewrite populate_cached; [done|]. cbn [bot with_bot user_cache set_user_cache].
  apply get_set_eq.
Qed.

Lemma cached_user_is_resolved_witness :
  username alice = Some "Alice" ∧ "Alice" ≠ "" ∧ normalized "@ALICE" = Py.lower "Alice" ∧
  (run (resolve_username_to_id "@ALICE") (run (cache_user_info (Some alice)) example_world).2).1
  = Returned 7.
Proof.
  split; [reflexivity|]. split; [done|]. split; [reflexivity|].
  by rewrite (cached_user_is_resolved alice "Alice" "@ALICE" example_world eq_refl
                ltac:(done) eq_refl).
Defined.

(** ** A text that no field is waiting for *)

Lemma field_is_stale s (fields : list string) :
  (∀ f, current_field s = Some f → f ∉ fields) →
  ∀ name, name ∈ fields → field_is s name = false.
Proof.
  intros Hs name Hin. unfold field_is. destruct (current_field s) as [f|] eqn:E; [|done].
  unfold eqs. apply String.eqb_neq. intros ->. by apply (Hs name).
Qed.

Lemma run_open_session u chat w :
  run (open_session u chat) w = (Returned (session_loc u w), opened u chat w).
Proof.
  unfold open_session, session_of, modify, opened, session_loc.
  rewrite run_bind, run_act. run_norm. rewrite run_bind, run_act. run_norm.
  by rewrite run_ret.
Qed.

Lemma current_field_opened u chat w :
  current_field (deref (session_loc u w) (bot (opened u chat w)))
  = current_field (session_before u w).
Proof.
  unfold opened, session_before. cbn [bot with_bot].
  apply deref_update; [by rewrite deref_get_user_session|done].
Qed.

(** X4. When the session of the user waits for none of the fields of a text
    handler, the handler stores nothing and sends nothing: it records the
    chat and returns no state. *)
Theorem stale_field_is_ignored handler (fields : list string) (u : User) (chat : Z) (t : string)
    (w : World) :
  (handler, fields) ∈ collectors →
  (∀ f, current_field (session_before u w) = Some f → f ∉ fields) →
  run (handler u chat t) w = (Returned None, opened u chat w).
Proof.
  intros Hin Hstale.
  rewrite <- (current_field_opened u chat w) in Hstale.
  pose proof (field_is_stale _ _ Hstale) as Hf.
  unfold collectors in Hin.
  repeat (apply elem_of_cons in Hin as [Hin|Hin]); try (by apply elem_of_nil in Hin);
    injection Hin as -> ->;
    [unfold collect_personal_info | unfold collect_contact_info
    |unfold collect_professional_info | unfold collect_education
    |unfold collect_skills | unfold collect_certifications
    |unfold collect_projects | unfold collect_languages];
    rewrite run_bind, run_open_session; run_norm;
    unfold read; rewrite run_bind, run_act; run_norm; rewrite with_bot_same;
    repeat match goal with
           | |- context [field_is ?s ?name] => rewrite (Hf name) by (repeat constructor)
           end;
    reflexivity.
Qed.

(** Alice is asked for her phone number, and her text reaches the handler of
    the personal data. *)
Lemma stale_field_is_ignored_witness :
  (run (collect_personal_info alice 7 "Alice")
     (run_all until_linkedin example_world).2).1
  = Returned None.
Proof.
  rewrite (stale_field_is_ignored collect_personal_info ["firstName"; "middleName"; "lastName"]
             alice 7 "Alice" (run_all until_linkedin example_world).2).
  - reflexivity.
  - constructor.
  - intros f Hf. vm_compute in Hf. injection Hf as <-.
    intros Hin. repeat (apply elem_of_cons in Hin as [Hin|Hin]; [discriminate Hin|]).
    by apply elem_of_nil in Hin.
Defined.

(** ** Entering the fields of an item *)

Lemma alter_alter {X : Type} (f g : X → X) i (l : list X) :
  alter g i (alter f i l) = alter (λ x, g (f x)) i l.
Proof.
  revert i. induction l as [|x l IH]; intros [|i]; simpl; try done.
  f_equal. apply IH.
Qed.

Lemma update_update l f g b : update l g (update l f b) = update l (λ s, g (f s)) b.
Proof. unfold update, set_heap; simpl. by rewrite alter_alter. Qed.

Lemma wf_bot_session k b : wf_bot b → wf_bot (get_user_session k b).2.
Proof.
  intros Hwf. unfold get_user_session.
  destruct (Py.get k (user_sessions b)) as [l|] eqn:E; [done|].
  intros k' l'. simpl. rewrite length_app. simpl.
  destruct (decide (k = k')) as [<-|Hne].
  - rewrite get_set_eq. intros [= <-]. lia.
  - rewrite get_set_ne by done. intros H. apply Hwf in H. lia.
Qed.

(** What a handler that has only updated the session of its user leaves
    behind. *)
Lemma after_update u chat G w w' :
  wf_bot (bot w) →
  bot w' = update (session_loc u w) G (bot (opened u chat w)) →
  wf_bot (bot w') ∧ session_loc u w' = session_loc u w
  ∧ session_before u w' = G (set_chat_id (Some chat) (session_before u w)).
Proof.
  intros Hwf Hb. unfold opened in Hb. cbn [bot with_bot] in Hb.
  rewrite update_update in Hb.
  pose proof (wf_bot_session (str (user_ident u)) _ Hwf) as Hwf1.
  pose proof (get_user_session_valid (str (user_ident u)) _ Hwf) as Hl.
  pose proof (get_user_session_registered (str (user_ident u)) (bot w)) as Hreg.
  assert (Hloc : session_loc u w' = session_loc u w).
  { unfold session_loc at 1. rewrite Hb.
    by rewrite (get_user_session_existing (str (user_ident u)) _ (update _ _ _) Hreg). }
  split; [|split; [done|]].
  - rewrite Hb. intros k l. unfold update; simpl. rewrite length_alter. apply Hwf1.
  - unfold session_before. rewrite Hloc, Hb. unfold session_loc.
    rewrite deref_update_eq by done. by rewrite deref_get_user_session.
Qed.

(** Run a text handler in a session that waits for the field of [Hf]: the
    memory afterwards is the opened one, with the session of the user
    updated. *)
Ltac text_step u chat w Hf :=
  rewrite run_bind, run_open_session; run_norm;
  unfold read; rewrite run_bind, run_act; run_norm; rewrite with_bot_same;
  rewrite <- (current_field_opened u chat w) in Hf;
  rewrite !(field_is_eq _ _ Hf); eqs_literals;
  repeat match goal with
         | H : is_skip ?t = _ |- context [is_skip ?t] => rewrite H
         end;
  cbn [negb]; cbv beta iota;
  unfold_ops; cbv beta iota; repeat first [run_step | run_perform];
  cbn [bot with_bot with_env]; rewrite ?update_update; reflexivity.

(** One step of a chain of text handlers: [w1] is the world after [h] has
    handled [t] in [w]. *)
Ltac chain h u chat t w Hwf Hf w1 Hwf1 Hs1 :=
  let o := fresh "o" in
  let E := fresh "E" in
  let H := fresh "H" in
  destruct (run (h u chat t) w) as [o w1] eqn:E;
  eassert (H : bot w1 = update (session_loc u w) _ (bot (opened u chat w)));
  [ change w1 with (o, w1).2; rewrite <- E; unfold h; text_step u chat w Hf |];
  destruct (after_update u chat _ w w1 Hwf H) as (Hwf1 & _ & Hs1).

Ltac next_field Hs name H :=
  match type of Hs with
  | session_before ?u ?w = _ =>
      assert (H : current_field (session_before u w) = Some name) by (by rewrite Hs)
  end.

Section Items.
Context (u : User) (chat : Z) (w : World).

Lemma work_item t1 t2 t3 t4 :
  wf_bot (bot w) →
  current_field (session_before u w) = Some "work_jobTitle" →
  current_work_experience (session_before u w) = [] →
  is_skip t1 = false →
  let w' := (run_all (collect_professional_info u chat <$> [t1; t2; t3; t4]) w).2 in
  (∀ c, get_section c (session_before u w')
        = get_section c (session_before u w)
          ++ match c with
             | WorkExperiences =>
                 [[("jobTitle", PyStr t1); ("companyName", PyStr t2);
                   ("location", PyStr t3); ("description", PyStr t4)]]
             | _ => []
             end)
  ∧ current_work_experience (session_before u w') = [].
Proof.
  intros Hwf Hf Hd Hskip. cbn [fmap list_fmap run_all].
  chain collect_professional_info u chat t1 w Hwf Hf w1 Hwf1 Hs1.
  next_field Hs1 "work_companyName" Hf1.
  chain collect_professional_info u chat t2 w1 Hwf1 Hf1 w2 Hwf2 Hs2.
  next_field Hs2 "work_location" Hf2.
  chain collect_professional_info u chat t3 w2 Hwf2 Hf2 w3 Hwf3 Hs3.
  next_field Hs3 "work_description" Hf3.
  chain collect_professional_info u chat t4 w3 Hwf3 Hf3 w4 Hwf4 Hs4.
  cbn [snd]. rewrite Hs4, Hs3, Hs2, Hs1. cbn. rewrite Hd. split; [|done].
  intros []; cbn; by rewrite ?app_nil_r.
Qed.

Lemma education_item t1 t2 t3 t4 t5 :
  wf_bot (bot w) →
  current_field (session_before u w) = Some "edu_degreeName" →
  current_education (session_before u w) = [] →
  let w' := (run_all (collect_education u chat <$> [t1; t2; t3; t4; t5]) w).2 in
  (∀ c, get_section c (session_before u w')
        = get_section c (session_before u w)
          ++ match c with
             | Educations =>
                 [[("degreeName", PyStr t1); ("institutionName", PyStr t2);
                   ("gpa", unless_skip t3); ("description", PyStr t4);
                   ("achievementsHonors", unless_skip t5)]]
             | _ => []
             end)
  ∧ current_education (session_before u w') = [].
Proof.
  intros Hwf Hf Hd. cbn [fmap list_fmap run_all].
  chain collect_education u chat t1 w Hwf Hf w1 Hwf1 Hs1.
  next_field Hs1 "edu_institutionName" Hf1.
  chain collect_education u chat t2 w1 Hwf1 Hf1 w2 Hwf2 Hs2.
  next_field Hs2 "edu_gpa" Hf2.
  chain collect_education u chat t3 w2 Hwf2 Hf2 w3 Hwf3 Hs3.
  next_field Hs3 "edu_description" Hf3.
  chain collect_education u chat t4 w3 Hwf3 Hf3 w4 Hwf4 Hs4.
  next_field Hs4 "edu_achievementsHonors" Hf4.
  chain collect_education u chat t5 w4 Hwf4 Hf4 w5 Hwf5 Hs5.
  cbn [snd]. rewrite Hs5, Hs4, Hs3, Hs2, Hs1. cbn. rewrite Hd. split; [|done].
  intros []; cbn; by rewrite ?app_nil_r.
Qed.

Lemma skills_item t1 t2 :
  wf_bot (bot w) →
  current_field (session_before u w) = Some "skill_skillName" →
  current_skill (session_before u w) = [] →
  let w' := (run_all (collect_skills u chat <$> [t1; t2]) w).2 in
  (∀ c, get_section c (session_before u w')
        = get_section c (session_before u w)
          ++ match c with
             | Skills => [[("skillName", PyStr t1); ("proficiency", PyStr t2)]]
             | _ => []
             end)
  ∧ current_skill (session_before u w') = [].
Proof.
  intros Hwf Hf Hd. cbn [fmap list_fmap run_all].
  chain collect_skills u chat t1 w Hwf Hf w1 Hwf1 Hs1.
  next_field Hs1 "skill_proficiency" Hf1.
  chain collect_skills u chat t2 w1 Hwf1 Hf1 w2 Hwf2 Hs2.
  cbn [snd]. rewrite Hs2, Hs1. cbn. rewrite Hd. split; [|done].
  intros []; cbn; by rewrite ?app_nil_r.
Qed.

Lemma certification_item t1 t2 :
  wf_bot (bot w) →
  current_field (session_before u w) = Some "cert_certificateName" →
  current_certification (session_before u w) = [] →
  is_skip t1 = false →
  let w' := (run_all (collect_certifications u chat <$> [t1; t2]) w).2 in
  (∀ c, get_section c (session_before u w')
        = get_section c (session_before u w)
          ++ match c with
             | CertificationsAwards =>
                 [[("certificateName", PyStr t1); ("issuer", PyStr t2)]]
             | _ => []
             end)
  ∧ current_certification (session_before u w') = [].
Proof.
  intros Hwf Hf Hd Hskip. cbn [fmap list_fmap run_all].
  chain collect_certifications u chat t1 w Hwf Hf w1 Hwf1 Hs1.
  next_field Hs1 "cert_issuer" Hf1.
  chain collect_certifications u chat t2 w1 Hwf1 Hf1 w2 Hwf2 Hs2.
  cbn [snd]. rewrite Hs2, Hs1. cbn. rewrite Hd. split; [|done].
  intros []; cbn; by rewrite ?app_nil_r.
Qed.

Lemma project_item t1 t2 t3 :
  wf_bot (bot w) →
  current_field (session_before u w) = Some "project_projectTitle" →
  current_project (session_before u w) = [] →
  let w' := (run_all (collect_projects u chat <$> [t1; t2; t3]) w).2 in
  (∀ c, get_section c (session_before u w')
        = get_section c (session_before u w)
          ++ match c with
             | Projects =>
                 [[("projectTitle", PyStr t1); ("description", PyStr t2)]
                  ++ (if is_skip t3 then [] else [("projectLink", PyStr t3)])]
             | _ => []
             end)
  ∧ current_project (session_before u w') = [].
Proof.
  intros Hwf Hf Hd. cbn [fmap list_fmap run_all].
  chain collect_projects u chat t1 w Hwf Hf w1 Hwf1 Hs1.
  next_field Hs1 "project_description" Hf1.
  chain collect_projects u chat t2 w1 Hwf1 Hf1 w2 Hwf2 Hs2.
  next_field Hs2 "project_projectLink" Hf2.
  destruct (is_skip t3) eqn:Hskip.
  all: chain collect_projects u chat t3 w2 Hwf2 Hf2 w3 Hwf3 Hs3.
  all: cbn [snd]; rewrite Hs3, Hs2, Hs1; cbn; rewrite Hd; (split; [|done]).
  all: intros []; cbn; by rewrite ?app_nil_r.
Qed.

Lemma language_item t1 t2 :
  wf_bot (bot w) →
  current_field (session_before u w) = Some "lang_languageName" →
  current_language (session_before u w) = [] →
  let w' := (run_all (collect_languages u chat <$> [t1; t2]) w).2 in
  (∀ c, get_section c (session_before u w')
        = get_section c (session_before u w)
          ++ match c with
             | Languages => [[("languageName", PyStr t1); ("proficiencyLevel", PyStr t2)]]
             | _ => []
             end)
  ∧ current_language (session_before u w') = [].
Proof.
  intros Hwf Hf Hd. cbn [fmap list_fmap run_all].
  chain collect_languages u chat t1 w Hwf Hf w1 Hwf1 Hs1.
  next_field Hs1 "lang_proficiencyLevel" Hf1.
  chain collect_languages u chat t2 w1 Hwf1 Hf1 w2 Hwf2 Hs2.
  cbn [snd]. rewrite Hs2, Hs1. cbn. rewrite Hd. split; [|done].
  intros []; cbn; by rewrite ?app_nil_r.
Qed.

End Items.

(** X5. An item is entered field by field, by one text handler: when the session
    waits for the first field of an item and the draft is empty, the texts of
    the fields, handled one after the other, leave exactly one more item in
    the section of the handler, with these texts under their keys; the other
    sections are as they were and the draft is empty again.  Nothing of this
    depends on the transport: every handler updates the session before it
    replies.  ([skip] as a job title or as a certificate name ends the
    section instead; as a GPA or as achievements it is stored as [None], and
    as a project link it leaves the key out.) *)
Theorem fields_make_one_item (u : User) (chat : Z) (w : World) :
  wf_bot (bot w) →
  let after (h : User → Z → string → prog (option state)) (ts : list string) :=
    session_before u (run_all (h u chat <$> ts) w).2 in
  let grown (s : Session) (section : section) (it : item) :=
    ∀ c, get_section c s
         = get_section c (session_before u w) ++ (if decide (c = section) then [it] else []) in
  (∀ t1 t2 t3 t4,
     current_field (session_before u w) = Some "work_jobTitle" →
     current_work_experience (session_before u w) = [] → is_skip t1 = false →
     grown (after collect_professional_info [t1; t2; t3; t4]) WorkExperiences
       [("jobTitle", PyStr t1); ("companyName", PyStr t2); ("location", PyStr t3);
        ("description", PyStr t4)]
     ∧ current_work_experience (after collect_professional_info [t1; t2; t3; t4]) = []) ∧
  (∀ t1 t2 t3 t4 t5,
     current_field (session_before u w) = Some "edu_degreeName" →
     current_education (session_before u w) = [] →
     grown (after collect_education [t1; t2; t3; t4; t5]) Educations
       [("degreeName", PyStr t1); ("institutionName", PyStr t2); ("gpa", unless_skip t3);
        ("description", PyStr t4); ("achievementsHonors", unless_skip t5)]
     ∧ current_education (after collect_education [t1; t2; t3; t4; t5]) = []) ∧
  (∀ t1 t2,
     current_field (session_before u w) = Some "skill_skillName" →
     current_skill (session_before u w) = [] →
     grown (after collect_skills [t1; t2]) Skills
       [("skillName", PyStr t1); ("proficiency", PyStr t2)]
     ∧ current_skill (after collect_skills [t1; t2]) = []) ∧
  (∀ t1 t2,
     current_field (session_before u w) = Some "cert_certificateName" →
     current_certification (session_before u w) = [] → is_skip t1 = false →
     grown (after collect_certifications [t1; t2]) CertificationsAwards
       [("certificateName", PyStr t1); ("issuer", PyStr t2)]
     ∧ current_certification (after collect_certifications [t1; t2]) = []) ∧
  (∀ t1 t2 t3,
     current_field (session_before u w) = Some "project_projectTitle" →
     current_project (session_before u w) = [] →
     grown (after collect_projects [t1; t2; t3]) Projects
       ([("projectTitle", PyStr t1); ("description", PyStr t2)]
        ++ (if is_skip t3 then [] else [("projectLink", PyStr t3)]))
     ∧ current_project (after collect_projects [t1; t2; t3]) = []) ∧
  (∀ t1 t2,
     current_field (session_before u w) = Some "lang_languageName" →
     current_language (session_before u w) = [] →
     grown (after collect_languages [t1; t2]) Languages
       [("languageName", PyStr t1); ("proficiencyLevel", PyStr t2)]
     ∧ current_language (after collect_languages [t1; t2]) = []).
Proof.
  intros Hwf after grown. unfold after, grown.
  repeat split; intros.
  all: lazymatch goal with
       | |- context [collect_professional_info _ _ <$> [?a; ?b; ?c; ?d]] =>
           destruct (work_item u chat w a b c d Hwf ltac:(assumption)
                       ltac:(assumption) ltac:(assumption)) as [Hs Hd]
       | |- context [collect_education _ _ <$> [?a; ?b; ?c; ?d; ?e]] =>
           destruct (education_item u chat w a b c d e Hwf ltac:(assumption)
                       ltac:(assumption)) as [Hs Hd]
       | |- context [collect_skills _ _ <$> [?a; ?b]] =>
           destruct (skills_item u chat w a b Hwf ltac:(assumption)
                       ltac:(assumption)) as [Hs Hd]
       | |- context [collect_certifications _ _ <$> [?a; ?b]] =>
           destruct (certification_item u chat w a b Hwf ltac:(assumption)
                       ltac:(assumption) ltac:(assumption)) as [Hs Hd]
       | |- context [collect_projects _ _ <$> [?a; ?b; ?c]] =>
           destruct (project_item u chat w a b c Hwf ltac:(assumption)
                       ltac:(assumption)) as [Hs Hd]
       | |- context [collect_languages _ _ <$> [?a; ?b]] =>
           destruct (language_item u chat w a b Hwf ltac:(assumption)
                       ltac:(assumption)) as [Hs Hd]
       end.
  all: first [ exact Hd | rewrite Hs; by destruct c ].
Qed.

Lemma fields_make_one_item_witness :
  wf_bot (bot editing_skills) ∧
  skills (session_before alice
            (run_all (collect_skills alice 7 <$> ["Rocq"; "Expert"]) editing_skills).2)
  = [[("skillName", PyStr "Rocq"); ("proficiency", PyStr "Expert")]].
Proof.
  assert (Hwf : wf_bot (bot editing_skills)) by (apply wf_botb_sound; vm_compute; reflexivity).
  split; [exact Hwf|].
  destruct (fields_make_one_item alice 7 editing_skills Hwf) as (_ & _ & H & _).
  destruct (H "Rocq" "Expert") as [Hs _]; [vm_compute; reflexivity ..|].
  exact (Hs Skills).
Defined.

(** ** The personal data and the contact data *)

Lemma get_set {V : Type} (d : Py.dict V) k k' v :
  Py.get k (Py.set k' v d) = if String.eqb k k' then Some v else Py.get k d.
Proof.
  destruct (String.eqb k k') eqn:E.
  - apply String.eqb_eq in E as ->. apply get_set_eq.
  - apply String.eqb_neq in E. by apply get_set_ne.
Qed.

(** X6. The first eight texts of the wizard: from a session that waits for the
    first name, the two handlers store the texts under the keys of the
    personal and contact data, in the order in which they are asked
    ([skip] as the contact link is stored as [None]), leave every other key
    of [candidate_data] as it was, and end with no field waited for. *)
Theorem personal_and_contact_data (u : User) (chat : Z) (w : World)
    (t1 t2 t3 t4 t5 t6 t7 t8 : string) :
  wf_bot (bot w) →
  current_field (session_before u w) = Some "firstName" →
  let s' :=
    session_before u
      (run_all ((collect_personal_info u chat <$> [t1; t2; t3])
                ++ (collect_contact_info u chat <$> [t4; t5; t6; t7; t8])) w).2 in
  (∀ k, Py.get k (candidate_data s')
        = match Py.get k [("firstName", PyStr t1); ("middleName", PyStr t2);
                          ("lastName", PyStr t3); ("phoneNumber", PyStr t4);
                          ("emailAddress", PyStr t5); ("linkedinProfile", unless_skip t6);
                          ("city", PyStr t7); ("country", PyStr t8)] with
          | Some v => Some v
          | None => Py.get k (candidate_data (session_before u w))
          end)
  ∧ current_field s' = None
  ∧ ∀ c, get_section c s' = get_section c (session_before u w).
Proof.
  intros Hwf Hf. cbn [fmap list_fmap app run_all].
  chain collect_personal_info u chat t1 w Hwf Hf w1 Hwf1 Hs1.
  next_field Hs1 "middleName" Hf1.
  chain collect_personal_info u chat t2 w1 Hwf1 Hf1 w2 Hwf2 Hs2.
  next_field Hs2 "lastName" Hf2.
  chain collect_personal_info u chat t3 w2 Hwf2 Hf2 w3 Hwf3 Hs3.
  next_field Hs3 "phoneNumber" Hf3.
  chain collect_contact_info u chat t4 w3 Hwf3 Hf3 w4 Hwf4 Hs4.
  next_field Hs4 "emailAddress" Hf4.
  chain collect_contact_info u chat t5 w4 Hwf4 Hf4 w5 Hwf5 Hs5.
  next_field Hs5 "linkedinProfile" Hf5.
  chain collect_contact_info u chat t6 w5 Hwf5 Hf5 w6 Hwf6 Hs6.
  next_field Hs6 "city" Hf6.
  chain collect_contact_info u chat t7 w6 Hwf6 Hf6 w7 Hwf7 Hs7.
  next_field Hs7 "country" Hf7.
  chain collect_contact_info u chat t8 w7 Hwf7 Hf7 w8 Hwf8 Hs8.
  cbn [snd]. rewrite Hs8, Hs7, Hs6, Hs5, Hs4, Hs3, Hs2, Hs1.
  split; [|split; [reflexivity | by intros []]].
  intros k. cbn [candidate_data set_current_field set_chat_id put_candidate set_candidate_data].
  rewrite !get_set. cbn [Py.get].
  repeat match goal with
         | |- context [String.eqb k ?key] =>
             destruct (String.eqb k key) eqn:?;
             [ match goal with H : String.eqb k key = true |- _ =>
                 apply String.eqb_eq in H; subst k end; reflexivity |]
         end.
  reflexivity.
Qed.

Lemma personal_and_contact_data_witness :
  wf_bot (bot wizard_started) ∧
  Py.get "city"
    (candidate_data
       (session_before alice
          (run_all ((collect_personal_info alice 7 <$> ["Alice"; "B"; "Carroll"])
                    ++ (collect_contact_info alice 7
                          <$> ["0911"; "a@b.c"; "skip"; "Addis Ababa"; "Ethiopia"]))
             wizard_started).2))
  = Some (PyStr "Addis Ababa").
Proof.
  assert (Hwf : wf_bot (bot wizard_started))
    by (apply wf_botb_sound; vm_compute; reflexivity).
  split; [exact Hwf|].
  by rewrite (proj1 (personal_and_contact_data alice 7 wizard_started "Alice" "B" "Carroll"
                       "0911" "a@b.c" "skip" "Addis Ababa" "Ethiopia" Hwf
                       ltac:(vm_compute; reflexivity)) "city").
Defined.

(** ** Cancelling and restarting *)

Lemma delete_menu_table l w :
  user_sessions (bot (run (delete_menu l) w).2) = user_sessions (bot w).
Proof.
  apply eq_sym.
  refine (proj1 (footprint_sound (λ b b', user_sessions b = user_sessions b') (λ _, True)
                   (λ _ _, True) (delete_menu l) w _ _ _ _ _ _)); try done.
  - intros ??? -> ->. done.
  - unfold delete_menu, chat_of. footprint_auto; done.
Qed.

Lemma delete_menu_returns l w : (run (delete_menu l) w).1 = Returned tt.
Proof.
  unfold delete_menu, read. rewrite run_bind, run_act. run_norm. rewrite with_bot_same.
  destruct (menu_message_id (deref l (bot w))); [|done].
  rewrite run_try_except. by destruct (run _ w) as [[[]|x] w'].
Qed.

Lemma session_before_fresh u w :
  Py.get (str (user_ident u)) (user_sessions (bot w)) = None →
  session_before u w = new_session.
Proof.
  intros H. unfold session_before, session_loc. rewrite (get_user_session_fresh _ _ H).
  cbn [fst]. by apply deref_out_of_range.
Qed.

(** X7. [/cancel] forgets the user whatever the transport does: the entry of the
    user leaves the session table before the farewell is sent, so the next
    handler that serves the user starts from the default session, with the
    language reset to English and no order attached. *)
Theorem cancel_forgets_the_user (u : User) (w : World) :
  let w' := (run (cancel u) w).2 in
  Py.get (str (user_ident u)) (user_sessions (bot w')) = None ∧
  session_before u w' = new_session ∧
  ((run (cancel u) w).1 = Returned (Some END) ∨ ∃ x, (run (cancel u) w).1 = Raised x).
Proof.
  intros w'. unfold w', cancel, session_of. rewrite run_bind, run_act. run_norm.
  set (l := (get_user_session (str (user_ident u)) (bot w)).1).
  set (w1 := with_bot _ w). rewrite run_bind.
  pose proof (delete_menu_returns l w1) as Hr. pose proof (delete_menu_table l w1) as Ht.
  destruct (run (delete_menu l) w1) as [o w2]. simpl in Hr, Ht. subst o. run_norm.
  rewrite run_bind, run_act. run_norm.
  set (b3 := if Py.mem _ _ then _ else _).
  assert (Hgone : Py.get (str (user_ident u)) (user_sessions b3) = None).
  { unfold b3, Py.mem.
    destruct (Py.get (str (user_ident u)) (user_sessions (bot w2))) eqn:E; [|done].
    simpl. apply get_del_eq. }
  unfold reply, prompt, read. repeat first [run_step | run_perform].
  all: cbn [bot with_bot with_env]; split; [exact Hgone|]; split; eauto.
  all: by apply session_before_fresh.
Qed.

(** ** The edit menu *)

(** X8. A choice of the edit menu that [edit_info] has served to the end returns
    the state of the chosen part; it empties the section of the choice, if it
    has one, and no other section, and it keeps the personal data.  The
    session then waits for the first field of the part, except after
    [edit_career] and [edit_activities], which leave the field that was
    waited for. *)
Theorem edit_menu_opens_one_section token cleared field target (q : CallbackQuery)
    (w : World) (st : option state) :
  (token, cleared, field, target) ∈ edit_choices →
  data q = token →
  wf_bot (bot w) →
  (run (edit_info q) w).1 = Returned st →
  st = Some target
  ∧ (∀ c, get_section c (session_after (from_user q) (edit_info q) w)
          = if decide (cleared = Some c) then []
            else get_section c (session_before (from_user q) w))
  ∧ current_field (session_after (from_user q) (edit_info q) w)
    = default (current_field (session_before (from_user q) w)) field
  ∧ candidate_data (session_after (from_user q) (edit_info q) w)
    = candidate_data (session_before (from_user q) w).
Proof.
  intros Hin Hd Hwf. open_handler (from_user q) w Hwf l b1 Hl.
  unfold edit_choices in Hin.
  repeat (apply elem_of_cons in Hin as [Hin|Hin]); try (by apply elem_of_nil in Hin);
    injection Hin as -> -> -> ->; unfold edit_info, restart_session;
    run_choice q Hd; fold l b1; try discriminate; intros [= <-];
    (split; [reflexivity|]); deref_simpl; cbn;
    (split; [by intros []|]); done.
Qed.

Lemma edit_menu_opens_one_section_witness :
  wf_bot (bot (run_all with_one_skill example_world).2) ∧
  skills (session_after alice (edit_info (press "edit_skills"))
            (run_all with_one_skill example_world).2)
  = [].
Proof.
  assert (Hwf : wf_bot (bot (run_all with_one_skill example_world).2))
    by (apply wf_botb_sound; vm_compute; reflexivity).
  split; [exact Hwf|].
  destruct (run (edit_info (press "edit_skills")) (run_all with_one_skill example_world).2).1
    as [st|x] eqn:E; [|vm_compute in E; discriminate E].
  destruct (edit_menu_opens_one_section "edit_skills" (Some Skills)
              (Some (Some "skill_skillName")) COLLECT_SKILLS (press "edit_skills") _ st
              ltac:(repeat constructor) eq_refl Hwf E) as (_ & Hs & _).
  exact (Hs Skills).
Defined.


Lemma restart_result k l b :
  let b' := set_user_sessions (Py.set k (length (heap b)) (user_sessions b))
              (set_heap (heap b ++ [restarted_session (deref l b)]) b) in
  deref (get_user_session k b').1 b' = restarted_session (deref l b)
  ∧ ∀ l0, (l0 < length (heap b))%nat → deref l0 b' = deref l0 b.
Proof.
  intros b'.
  assert (Hreg : Py.get k (user_sessions b') = Some (length (heap b))) by apply get_set_eq.
  rewrite (get_user_session_existing _ _ b' Hreg). cbn [fst]. split.
  - unfold b', deref; cbn [heap set_user_sessions set_heap].
    rewrite lookup_total_app_r by done. by rewrite Nat.sub_diag.
  - intros l0 Hl0. unfold b', deref; cbn [heap set_user_sessions set_heap].
    by apply lookup_total_app_l.
Qed.

(** X9. [edit_no], the restart of the wizard, puts a new session object in the
    place of the old one: it has the language of the old session and the chat
    of the button press, it waits for the first name, and everything else is
    as in a session just created; in particular no order is attached to it.
    The old object stays as it was. *)
Theorem edit_no_restarts (q : CallbackQuery) (w : World) (st : option state) :
  data q = "edit_no" →
  wf_bot (bot w) →
  (run (edit_info q) w).1 = Returned st →
  let w' := (run (edit_info q) w).2 in
  st = Some COLLECT_PERSONAL_INFO
  ∧ session_before (from_user q) w'
    = set_current_field (Some "firstName")
        (set_chat_id (Some (message_chat_id q))
           (set_language (language (session_before (from_user q) w)) new_session))
  ∧ order_id (session_before (from_user q) w') = None
  ∧ deref (session_loc (from_user q) w) (bot w')
    = set_chat_id (Some (message_chat_id q)) (session_before (from_user q) w).
Proof.
  intros Hd Hwf.
  pose proof (get_user_session_valid (str (user_ident (from_user q))) _ Hwf) as Hl.
  unfold edit_info. rewrite run_bind. run_step. run_perform; [discriminate|].
  rewrite run_bind, run_open_session. run_norm. rewrite Hd. eqs_literals.
  unfold restart_session, alloc. rewrite run_bind, run_act. run_norm.
  set (B := bot (opened (from_user q) (message_chat_id q) (with_env e w))).
  set (l := session_loc (from_user q) (with_env e w)) in *.
  assert (HB : B = update l (set_chat_id (Some (message_chat_id q)))
                     (get_user_session (str (user_ident (from_user q))) (bot w)).2)
    by reflexivity.
  assert (Hlen : length (heap B) = length (heap (get_user_session
                                                   (str (user_ident (from_user q))) (bot w)).2))
    by (by rewrite HB, length_heap_update).
  assert (Hold : deref l B = set_chat_id (Some (message_chat_id q))
                               (session_before (from_user q) w)).
  { rewrite HB. unfold l, session_loc, session_before. cbn [bot with_env].
    rewrite deref_update_eq by done. by rewrite deref_get_user_session. }
  unfold edit, prompt, read. repeat first [run_step | run_perform]; [discriminate|].
  intros [= <-]. split; [reflexivity|].
  destruct (restart_result (str (user_ident (from_user q))) l B) as [Hnew Hkeep].
  cbv zeta in Hnew, Hkeep.
  split; [|split].
  - etrans; [exact Hnew|]. by rewrite Hold.
  - transitivity (order_id (restarted_session (deref l B))); [|reflexivity].
    f_equal. exact Hnew.
  - etrans; [apply (Hkeep l); by rewrite Hlen|]. exact Hold.
Qed.

Lemma edit_no_restarts_witness :
  wf_bot (bot (run_all with_one_skill example_world).2) ∧
  skills (session_before alice
            (run (edit_info (press "edit_no")) (run_all with_one_skill example_world).2).2)
  = [].
Proof.
  assert (Hwf : wf_bot (bot (run_all with_one_skill example_world).2))
    by (apply wf_botb_sound; vm_compute; reflexivity).
  split; [exact Hwf|].
  destruct (run (edit_info (press "edit_no")) (run_all with_one_skill example_world).2).1
    as [st|x] eqn:E; [|vm_compute in E; discriminate E].
  destruct (edit_no_restarts (press "edit_no") _ st eq_refl Hwf E) as (_ & Hs & _).
  exact (f_equal skills Hs).
Defined.

(** ** Uploads *)

Lemma perform_get_file f e a e' : perform (get_file f) e = (inr a, e') → a = f.
Proof.
  unfold perform. destruct (if is_local _ then None else faults e (log e) _); [discriminate|].
  simpl. by intros [= <- _].
Qed.

(** Split on what the program under [run] branches on, keeping the
    equation. *)
Ltac run_branch :=
  match goal with
  | |- context [run (match ?x with _ => _ end) _] => destruct x eqn:?
  | |- context [run (match ?x with _ => _ end ≫= _) _] => destruct x eqn:?
  end.

Ltac run_all_paths :=
  unfold_ops;
  repeat first [ run_step | run_perform | run_branch | progress unfold Exception
               | progress cbv beta iota ].

(** The events that a run has added, as a list, from the equations of its
    calls. *)
Ltac new_events_list :=
  unfold new_events, opened in *; cbn [fst snd env bot with_env with_bot] in *; log_chain;
  cbn [fst snd env bot with_env with_bot];
  first [ rewrite drop_app_length | rewrite <- (app_nil_r (log _)), drop_app_length ].

Lemma config_get_user_session k b : config (get_user_session k b).2 = config b.
Proof. unfold get_user_session. by destruct (Py.get k (user_sessions b)). Qed.

Lemma config_opened u chat w : config (bot (opened u chat w)) = config (bot w).
Proof. unfold opened. cbn. apply config_get_user_session. Qed.

Ltac event_leaves :=
  new_events_list;
  repeat match goal with
         | |- Forall _ (_ ++ _) => apply Forall_app; split
         | |- Forall _ (_ :: _) => apply Forall_cons; split
         | |- Forall _ [] => apply Forall_nil
         end;
  unfold sends_upload, sends_evidence; cbn [fst is_media];
  try exact I;
  try (intros [=]; fail).

Ltac upload_checks :=
  repeat match goal with
         | H : perform (get_file _) _ = (inr _, _) |- _ => apply perform_get_file in H; subst
         | H : last (photos _) = _ |- _ => rewrite H
         | H : doc _ = _ |- _ => rewrite H
         | H : negb _ = false |- _ => apply negb_false_iff in H
         | H : (max_size <? _) = false |- _ => rewrite H; clear H
         | H : among _ allowed_mime_types = true |- _ => rewrite H; clear H
         end;
  cbn [negb andb].

Ltac upload_accepted :=
  upload_checks;
  first
    [ done
    | match goal with
      | H : match file_name ?d with _ => _ end = false |- _ =>
          destruct (file_name d) as [[|? ?]|]; [done| |done]; by apply negb_false_iff in H
      end ].

Lemma order_id_update l l' f b :
  (∀ s, order_id (f s) = order_id s) →
  order_id (deref l' (update l f b)) = order_id (deref l' b).
Proof.
  intros Hf. apply (deref_update l l' f b (λ s, order_id s = order_id (deref l' b))); [done|].
  by intros s <-.
Qed.

Lemma profile_image_forwarded m w :
  Forall (λ ev : event, sends_upload m (private_channel_id (config (bot w))) ev.1)
    (new_events w (run (collect_profile_image m) w).2).
Proof.
  unfold collect_profile_image. rewrite run_bind, run_open_session. run_norm.
  run_all_paths.
  all: event_leaves.
  all: intros _; unfold acceptable_upload, uploaded_file.
  all: split;
    [ upload_accepted
    | upload_checks; do 4 eexists; split; [reflexivity|];
      cbn [config update set_heap]; by rewrite config_get_user_session ].
Qed.

Lemma payment_evidence_forwarded m w :
  Forall (λ ev : event, sends_evidence m w ev.1)
    (new_events w (run (handle_payment_screenshot m) w).2).
Proof.
  unfold handle_payment_screenshot. rewrite run_bind, run_open_session. run_norm.
  run_all_paths.
  all: event_leaves.
  all: intros _; unfold acceptable_upload, uploaded_file.
  all: split; [ upload_accepted | upload_checks ].
  all: rewrite ?order_id_update in * by done.
  all: rewrite ?deref_get_user_session in *.
  all: try match goal with H : order_id _ = Some _ |- _ => rewrite H end.
  all: do 6 eexists; split; [reflexivity|]; split; [eassumption|].
  all: cbn [config update set_heap]; by rewrite config_get_user_session.
Qed.

(** X10. Whatever media [collect_profile_image] sends is an upload that passed
    the checks of the handler (size, and for a document its MIME type and the
    extension of its name), and it is the uploaded file itself, sent to the
    private channel. *)
Theorem profile_image_upload_checked m w r x :
  (r, x) ∈ new_events w (run (collect_profile_image m) w).2 →
  is_media r = true →
  acceptable_upload m = true ∧
  ∃ f kind caption buttons,
    uploaded_file m = Some f ∧
    r = send_media kind (private_channel_id (config (bot w))) (file_id f) caption buttons.
Proof.
  intros Hin. pose proof (profile_image_forwarded m w) as H.
  rewrite Forall_forall in H. exact (H _ Hin).
Qed.

Lemma profile_image_upload_checked_witness : acceptable_upload screenshot = true.
Proof.
  refine (proj1 (profile_image_upload_checked screenshot wizard_started
                   (send_media photo (-1001) "photo-1"
                      (Str ("📸 Profile Image Received" +:+ nl +:+ nl +:+ user_info_of alice)) [])
                   None _ _)).
  - apply (list_elem_of_lookup_2 _ 1%nat). vm_compute. reflexivity.
  - reflexivity.
Defined.

(** X11. Whatever media [handle_payment_screenshot] sends is an upload that
    passed the checks, sent to the private channel for the order of the
    sender's session: the caption names that order and the two buttons carry
    the sender's id and the order id. *)
Theorem payment_evidence_checked m w r x :
  (r, x) ∈ new_events w (run (handle_payment_screenshot m) w).2 →
  is_media r = true →
  acceptable_upload m = true ∧
  ∃ f kind what retry phone order,
    uploaded_file m = Some f ∧
    order_id (session_before (from m) w) = Some order ∧
    r = send_media kind (private_channel_id (config (bot w))) (file_id f)
          (payment_caption what retry
             ((user_info_of (from m) +:+ nl +:+ "📋 Order ID: " +:+ order)
              +:+ nl +:+ "📞 Phone: " +:+ phone))
          (decision_buttons (str (user_ident (from m))) order).
Proof.
  intros Hin. pose proof (payment_evidence_forwarded m w) as H.
  rewrite Forall_forall in H. exact (H _ Hin).
Qed.

Lemma payment_evidence_checked_witness : acceptable_upload screenshot = true.
Proof.
  refine (proj1 (payment_evidence_checked screenshot (run_all until_confirmed example_world).2
                   _ _ _ _)).
  - apply (list_elem_of_lookup_2 _ 1%nat). vm_compute. reflexivity.
  - reflexivity.
Defined.

(** ** An upload of payment evidence without an order *)





(** ** The tokens of the decision buttons *)

Lemma rev_acc_app cur a b : Py.rev_acc cur a +:+ b = Py.rev_acc cur (a +:+ b).
Proof. revert a. induction cur as [|c cur IH]; intros a; simpl; [done|]. by rewrite IH. Qed.

Lemma append_cons c s t : String c s +:+ t = String c (s +:+ t).
Proof. reflexivity. Qed.

Lemma append_empty s : s +:+ "" = s.
Proof. induction s as [|c s IH]; [done|]. rewrite append_cons. by f_equal. Qed.

Lemma prefix_empty s : String.prefix "" s = true.
Proof. by destruct s. Qed.

Lemma split_aux_exhausted sep cur s :
  Py.split_aux sep (Some 0%nat) 0 cur s = [Py.rev_acc cur "" +:+ s].
Proof.
  revert cur. induction s as [|c s IH]; intros cur; simpl.
  - by rewrite append_empty.
  - rewrite IH. cbn [Py.rev_acc]. by rewrite !rev_acc_app.
Qed.

Lemma split_aux_piece s cur n rest :
  Forall (λ c, c ≠ "_"%char) (String.list_ascii_of_string s) →
  Py.split_aux "_" (Some (S n)) 0 cur (s +:+ "_" +:+ rest)
  = (Py.rev_acc cur "" +:+ s) :: Py.split_aux "_" (Some n) 0 [] rest.
Proof.
  revert cur. induction s as [|c s IH]; intros cur Hs.
  - change ("" +:+ "_" +:+ rest) with (String "_" rest).
    simpl. by rewrite prefix_empty, append_empty.
  - inversion Hs as [|? ? Hc Hs']; subst.
    rewrite append_cons. cbn [Py.split_aux String.prefix].
    destruct (ascii_dec "_" c) as [<-|_]; [done|].
    rewrite IH by done. cbn [Py.rev_acc]. by rewrite !rev_acc_app.
Qed.

Lemma pretty_N_go_free x s :
  Forall (λ c, c ≠ "_"%char) (String.list_ascii_of_string s) →
  Forall (λ c, c ≠ "_"%char) (String.list_ascii_of_string (pretty_N_go x s)).
Proof.
  revert s. induction (N.lt_wf_0 x) as [x _ IH]; intros s Hs.
  assert (x = 0 ∨ 0 < x)%N as [->|Hx] by lia.
  - by rewrite pretty_N_go_0.
  - rewrite pretty_N_go_step by done. apply IH.
    { by apply N.div_lt. }
    simpl. constructor; [|done].
    unfold pretty_N_char. by repeat case_match.
Qed.

Lemma str_free z : Forall (λ c, c ≠ "_"%char) (String.list_ascii_of_string (str z)).
Proof.
  assert (∀ p, Forall (λ c, c ≠ "_"%char) (String.list_ascii_of_string (pretty (N.pos p)))) as Hp.
  { intros p. unfold pretty, pretty_N. case_decide; [done|].
    apply pretty_N_go_free. constructor. }
  unfold str, pretty, pretty_Z. destruct z as [|p|p].
  - repeat constructor; done.
  - apply Hp.
  - simpl. constructor; [done|]. apply Hp.
Qed.

(** X13. The tokens that [handle_payment_screenshot] puts on the two buttons are
    split by [handle_admin_response] into the action, the user's id and the
    order id again, whatever characters the order id has. *)
Theorem decision_buttons_parse (z : Z) (order : string) :
  Py.split "_" (Some 2%nat) <$> decision_buttons (str z) order
  = [["approve"; str z; order]; ["reject"; str z; order]].
Proof.
  unfold decision_buttons, Py.split. cbn [fmap list_fmap].
  change ("approve_" +:+ str z +:+ "_" +:+ order)
    with ("approve" +:+ "_" +:+ (str z +:+ "_" +:+ order)).
  change ("reject_" +:+ str z +:+ "_" +:+ order)
    with ("reject" +:+ "_" +:+ (str z +:+ "_" +:+ order)).
  repeat first [ rewrite split_aux_piece by apply str_free
               | rewrite split_aux_piece by (repeat constructor; done) ].
  by rewrite !split_aux_exhausted.
Qed.

(** ** The caption of forwarded evidence *)

Lemma append_assoc a b c : (a +:+ b) +:+ c = a +:+ b +:+ c.
Proof. induction a as [|x a IH]; [done|]. rewrite !append_cons. by f_equal. Qed.

Lemma prefix_append sep rest : String.prefix sep (sep +:+ rest) = true.
Proof.
  induction sep as [|a sep IH]; [apply prefix_empty|].
  rewrite append_cons. simpl. by destruct (ascii_dec a a).
Qed.

Lemma split_aux_skip sep b t cur rest :
  Py.split_aux sep b (String.length t) cur (t +:+ rest) = Py.split_aux sep b 0 cur rest.
Proof. induction t as [|c t IH]; [done|]. rewrite append_cons. simpl. apply IH. Qed.

Lemma split_aux_found a sep cur rest :
  Py.split_aux (String a sep) None 0 cur (String a sep +:+ rest)
  = Py.rev_acc cur "" :: Py.split_aux (String a sep) None 0 [] rest.
Proof.
  rewrite append_cons. cbn [Py.split_aux].
  change (String a (sep +:+ rest)) with (String a sep +:+ rest).
  rewrite prefix_append. f_equal.
  destruct sep as [|c sep]; [done|].
  cbn [String.length fmap option_fmap option_map].
  apply (split_aux_skip (String a (String c sep)) None (String c sep)).
Qed.

Lemma rev_acc_push pre cur s :
  Py.rev_acc (rev (String.list_ascii_of_string pre) ++ cur) s = Py.rev_acc cur (pre +:+ s).
Proof.
  revert cur s. induction pre as [|c pre IH]; intros cur s; [done|].
  cbn [String.list_ascii_of_string rev]. rewrite <- app_assoc. cbn [app].
  by rewrite IH.
Qed.

Lemma split_aux_head sep s cur :
  ∃ p tl, Py.split_aux sep None 0 cur s = (Py.rev_acc cur "" +:+ p) :: tl.
Proof.
  revert cur. induction s as [|c s IH]; intros cur.
  - exists "", []. simpl. by rewrite append_empty.
  - cbn [Py.split_aux]. destruct (String.prefix sep (String c s)).
    + eexists "", _. by rewrite append_empty.
    + destruct (IH (c :: cur)) as (p & tl & ->). exists (String c p), tl.
      cbn [Py.rev_acc]. by rewrite !rev_acc_app.
Qed.

(** The separator does not start inside [pre], when [tail] follows. *)
Lemma split_aux_pass sep pre tail cur :
  (∀ a b, pre = a +:+ b → b ≠ "" → String.prefix sep (b +:+ tail) = false) →
  Py.split_aux sep None 0 cur (pre +:+ tail)
  = Py.split_aux sep None 0 (rev (String.list_ascii_of_string pre) ++ cur) tail.
Proof.
  revert cur. induction pre as [|c pre IH]; intros cur H; [done|].
  rewrite append_cons. cbn [Py.split_aux].
  change (String c (pre +:+ tail)) with (String c pre +:+ tail).
  rewrite (H "" (String c pre)) by done.
  rewrite IH.
  - cbn [String.list_ascii_of_string rev]. by rewrite <- app_assoc.
  - intros a b -> Hb. by apply (H (String c a) b).
Qed.

Lemma chars_app a b :
  String.list_ascii_of_string (a +:+ b)
  = String.list_ascii_of_string a ++ String.list_ascii_of_string b.
Proof. induction a as [|c a IH]; [done|]. rewrite append_cons. simpl. by f_equal. Qed.

Lemma misses_first_char a sep pre tail :
  Forall (λ c, c ≠ a) (String.list_ascii_of_string pre) →
  ∀ x b, pre = x +:+ b → b ≠ "" → String.prefix (String a sep) (b +:+ tail) = false.
Proof.
  intros Hpre x b -> Hb. rewrite chars_app in Hpre. apply Forall_app in Hpre as [_ Hb'].
  destruct b as [|d b]; [done|]. inversion Hb'; subst.
  rewrite append_cons. simpl. by destruct (ascii_dec a d).
Qed.

Lemma prefix_foreign sep t c tail :
  Forall (λ a, a ≠ c) (String.list_ascii_of_string sep) →
  String.prefix sep (t +:+ String c tail) = String.prefix sep t.
Proof.
  revert t. induction sep as [|a sep IH]; intros t Hsep.
  - by rewrite !prefix_empty.
  - inversion Hsep; subst. destruct t as [|d t].
    + simpl. by destruct (ascii_dec a c).
    + rewrite append_cons. simpl. destruct (ascii_dec a d); [|done]. by apply IH.
Qed.

Lemma occurs_suffix sep a b : occurs sep (a +:+ b) = false → String.prefix sep b = false.
Proof.
  induction a as [|c a IH].
  - change ("" +:+ b) with b. destruct b; simpl; intros H; by apply orb_false_elim in H as [? ?].
  - rewrite append_cons. simpl. intros H. apply orb_false_elim in H as [_ H]. by apply IH.
Qed.

Lemma misses_occurs sep pre c tail :
  occurs sep pre = false →
  Forall (λ a, a ≠ c) (String.list_ascii_of_string sep) →
  ∀ x b, pre = x +:+ b → b ≠ "" → String.prefix sep (b +:+ String c tail) = false.
Proof.
  intros Hpre Hsep x b -> _. rewrite prefix_foreign by done. by apply (occurs_suffix sep x b).
Qed.

Lemma misses_char c pre tail :
  occurs (String c "") pre = false →
  ∀ x b, pre = x +:+ b → b ≠ "" → String.prefix (String c "") (b +:+ tail) = false.
Proof.
  intros Hpre x b -> Hb. apply occurs_suffix in Hpre.
  destruct b as [|d b]; [done|]. rewrite append_cons. simpl in *.
  destruct (ascii_dec c d); [|done]. by rewrite prefix_empty in Hpre.
Qed.

(** X14. The caption that [handle_payment_screenshot] writes is read back
    by [handle_admin_reply]: it starts with the payment marker, and
    [parse_order_id] finds the order id in it, provided the header with the
    names of the user does not contain the text [Order ID: ] and the order id
    has neither that text nor a line break nor blanks at its ends. *)
Theorem evidence_caption_names_order u what retry order phone caption :
  what ∈ ["Screenshot"; "Document"] →
  retry ∈ [""; " (RETRY)"] →
  occurs "Order ID: " (user_info_of u) = false →
  occurs "Order ID: " order = false →
  occurs nl order = false →
  Py.strip order = order →
  payment_caption what retry
    ((user_info_of u +:+ nl +:+ "📋 Order ID: " +:+ order) +:+ nl +:+ "📞 Phone: " +:+ phone)
  = Str caption →
  Py.startswith caption payment_marker = true ∧ parse_order_id caption = Some order.
Proof.
  intros Hwhat Hretry Hu Ho Hnl Hstrip [= <-]. split.
  { unfold Py.startswith. apply prefix_append. }
  match goal with
  | |- parse_order_id ?cap = _ =>
      assert (∃ A, Forall (λ c, c ≠ "O"%char) (String.list_ascii_of_string A) ∧
                   cap = A +:+ user_info_of u +:+ (nl +:+ "📋 ") +:+ "Order ID: " +:+ order +:+ nl
                       +:+ "📞 Phone: " +:+ phone)
        as (A & HA & ->)
  end.
  { exists (payment_marker +:+ " " +:+ what +:+ " Received" +:+ retry +:+ nl +:+ nl).
    split.
    - repeat (apply elem_of_cons in Hwhat as [->|Hwhat]); [| |by apply elem_of_nil in Hwhat];
        (repeat (apply elem_of_cons in Hretry as [->|Hretry]);
         [| |by apply elem_of_nil in Hretry]);
        vm_compute; repeat constructor; done.
    - rewrite !append_assoc. reflexivity. }
  assert (Forall (λ a, a ≠ "010"%char) (String.list_ascii_of_string "Order ID: ")) as Hsep
    by (repeat constructor; done).
  unfold parse_order_id, Py.split.
  rewrite (split_aux_pass "Order ID: " A) by (by apply misses_first_char).
  rewrite (split_aux_pass "Order ID: " (user_info_of u))
    by (intros x b; by apply (misses_occurs "Order ID: " _ "010"%char)).
  rewrite (split_aux_pass "Order ID: " (nl +:+ "📋 "))
    by (apply misses_first_char; repeat constructor; done).
  rewrite split_aux_found.
  rewrite (split_aux_pass "Order ID: " order)
    by (intros x b; by apply (misses_occurs "Order ID: " _ "010"%char)).
  rewrite (split_aux_pass "Order ID: " nl)
    by (apply misses_first_char; repeat constructor; done).
  destruct (split_aux_head "Order ID: " ("📞 Phone: " +:+ phone)
              (rev (String.list_ascii_of_string nl) ++ rev (String.list_ascii_of_string order) ++ []))
    as (p & tl & ->).
  rewrite !rev_acc_push. cbn [Py.rev_acc].
  rewrite append_assoc.
  rewrite (split_aux_pass nl order) by (by apply misses_char).
  change ((nl +:+ "") +:+ p) with (nl +:+ p).
  unfold nl. rewrite split_aux_found. cbn [head default].
  rewrite rev_acc_push. cbn [Py.rev_acc]. unfold id. by rewrite append_empty, Hstrip.
Qed.

Lemma evidence_caption_names_order_witness :
  parse_order_id
    ("💳 Payment Screenshot Received" +:+ nl +:+ nl +:+
     (user_info_of alice +:+ nl +:+ "📋 Order ID: " +:+ "uuid-0") +:+ nl +:+ "📞 Phone: " +:+ "N/A")
  = Some "uuid-0".
Proof.
  refine (proj2 (evidence_caption_names_order alice "Screenshot" "" "uuid-0" "N/A" _
                   _ _ _ _ _ _ eq_refl)).
  - repeat constructor.
  - repeat constructor.
  - reflexivity.
  - reflexivity.
  - reflexivity.
  - reflexivity.
Defined.

(** ** Loading a stored profile *)

(** Name the list of events that the run from [w] to [W] has added. *)
Ltac events_of w W E :=
  eassert (new_events w W = _) as E by (new_events_list; reflexivity).

Ltac wrong_last :=
  match goal with
  | |- (∃ t, last (new_events ?w ?W) = _) → _ =>
      let E := fresh "E" in
      let t := fresh "t" in
      let Hl := fresh "Hl" in
      events_of w W E; intros [t Hl]; rewrite E in Hl; cbn [app last] in Hl; discriminate
  end.

(** X15. When [start_collecting_info] has shown the menu of the sections
    of a stored profile, every item of every section of the session carries
    one and the same non-empty [candidate_uid]: the documents of the profile
    that are untagged or tagged for another candidate have been dropped. *)
Theorem profile_load_keeps_own_items (q : CallbackQuery) (w : World) :
  wf_bot (bot w) →
  data q = "update_profile" →
  let out := run (start_collecting_info q) w in
  (∃ t, last (new_events w out.2) = Some (edit_message_text t edit_buttons, None)) →
  ∃ uid, ∀ c it,
    it ∈ get_section c (session_before (from_user q) out.2) → owned_by uid it = true.
Proof.
  intros Hwf Hd. cbv zeta. unfold start_collecting_info. rewrite Hd.
  change (eqs "update_profile" "update_profile") with true. cbv iota.
  unfold sections. cbn [for_each].
  rewrite run_bind. run_norm. run_step. run_perform; [wrong_last|].
  rewrite run_bind, run_open_session. run_norm.
  run_all_paths.
  all: try wrong_last.
  intros _. exists (uid c).
  match goal with
  | |- context [session_before ?u ?W] =>
      eassert (bot W = update (session_loc u (with_env e w)) _
                         (bot (opened u (message_chat_id q) (with_env e w)))) as HB
        by (cbn [bot with_env with_bot]; rewrite !update_update; reflexivity);
      destruct (after_update u (message_chat_id q) _ (with_env e w) W Hwf HB) as (_ & _ & Hs);
      rewrite Hs
  end.
  intros [] it Hin; simpl in Hin; unfold loaded_section in Hin;
    apply list_elem_of_In, filter_In in Hin; tauto.
Qed.

Lemma profile_load_keeps_own_items_witness :
  ∃ uid, ∀ c it,
    it ∈ get_section c
           (session_before alice
              (run (start_collecting_info (press "update_profile"))
                 (run_all until_confirmed example_world).2).2) →
    owned_by uid it = true.
Proof.
  apply (profile_load_keeps_own_items (press "update_profile")
           (run_all until_confirmed example_world).2).
  - apply wf_botb_sound. vm_compute. reflexivity.
  - reflexivity.
  - eexists. vm_compute. reflexivity.
Defined.

(** ** The sample CVs *)

Ltac exn_branch :=
  match goal with
  | |- context [if is_exn ?x ?e then _ else _] => destruct (is_exn x e) eqn:?
  end.

Lemma samples_loop chat items (body : string * string → prog unit) w :
  (∀ file caption,
     body (file, caption)
     = when (nonempty (Py.strip file))
         (try_except
            (try_except
               (call (send_media document chat file (Str caption) []))
               (is_exn BadRequest)
               (λ _, call (send_media photo chat file (Str caption) [])))
            Exception (λ _, mret tt))) →
  ∃ w' evs,
    run (for_each items body) w = (Returned tt, w') ∧
    log (env w') = log (env w) ++ evs ∧
    ∀ file caption,
      (file, caption) ∈ items → nonempty (Py.strip file) = true →
      ∃ x, (send_media document chat file (Str caption) [], x) ∈ evs.
Proof.
  intros Hbody. revert w. induction items as [|[f c] items IH]; intros w.
  - exists w, []. split; [done|]. split; [by rewrite app_nil_r|].
    intros ?? Hin. by apply elem_of_nil in Hin.
  - rewrite run_for_each_cons, Hbody. unfold when.
    destruct (nonempty (Py.strip f)) eqn:Hf.
    + assert (∃ w1 evs1 x,
                @run unit (try_except
                       (try_except
                          (call (send_media document chat f (Str c) []))
                          (is_exn BadRequest)
                          (λ _, call (send_media photo chat f (Str c) [])))
                       Exception (λ _, mret tt)) w = (Returned tt, w1)
                ∧ log (env w1) = log (env w)
                                 ++ (send_media document chat f (Str c) [], x) :: evs1)
        as (w1 & evs1 & x & -> & Hlog1).
      { repeat first [ progress run_all_paths | exn_branch ];
          repeat match goal with a : answer _ |- _ => cbn [answer] in a; destruct a end;
          do 3 eexists; (split; [reflexivity|]); log_chain; reflexivity. }
      cbn [and_then]. destruct (IH w1) as (w' & evs & -> & Hlog & Hall).
      exists w', ((send_media document chat f (Str c) [], x) :: evs1 ++ evs).
      split; [done|]. split.
      { rewrite Hlog, Hlog1. by rewrite <- app_assoc. }
      intros file caption Hin Hne. apply elem_of_cons in Hin as [[= -> ->]|Hin].
      * exists x. apply elem_of_cons. by left.
      * destruct (Hall file caption Hin Hne) as [y Hy]. exists y.
        apply elem_of_cons. right. apply elem_of_app. by right.
    + rewrite run_ret. cbn [and_then].
      destruct (IH w) as (w' & evs & -> & Hlog & Hall).
      exists w', evs. split; [done|]. split; [done|].
      intros file caption Hin Hne. apply elem_of_cons in Hin as [[= -> ->]|Hin].
      * congruence.
      * by apply Hall.
Qed.

(** X16. Once the announcement of the samples has been delivered,
    [send_sample_cvs] tries to send every configured sample with a non-blank
    file id as a document, whatever happens to the samples before it: a
    failure with one sample does not stop the loop. *)
Theorem every_sample_is_attempted chat l w :
  let out := run (send_sample_cvs chat l) w in
  (∃ lang, (send_message chat (Prompt lang "sending_samples") [], None)
           ∈ new_events w out.2) →
  ∀ file caption,
    (file, caption) ∈ zip (sample_cv_file_ids (config (bot w)))
                          (sample_cv_captions (config (bot w))) →
    nonempty (Py.strip file) = true →
    ∃ x, (send_media document chat file (Str caption) [], x) ∈ new_events w out.2.
Proof.
  cbv zeta. unfold send_sample_cvs, delete_menu, chat_of.
  repeat first [ progress run_all_paths | progress run_norm ].
  all: try (match goal with
            | |- (∃ lang, _ ∈ new_events ?w0 ?W) → _ =>
                let E := fresh "E" in
                events_of w0 W E; intros [lang Hin]; rewrite E in Hin; cbn [app] in Hin;
                repeat (apply elem_of_cons in Hin as [Hin|Hin]; [discriminate Hin|]);
                by apply elem_of_nil in Hin
            end).
  all: lazymatch goal with
       | |- context [run (for_each ?items ?B) ?W1] =>
           destruct (samples_loop chat items B W1 (λ _ _, eq_refl))
             as (w' & evs & -> & Hlog & Hall)
       end.
  all: intros _ file caption Hin Hne; destruct (Hall _ _ Hin Hne) as [x Hx]; exists x.
  all: unfold new_events; cbn [fst snd]; rewrite Hlog; cbn [env with_env with_bot].
  all: log_chain; rewrite ?app_assoc; rewrite <- ?(app_assoc (log (env w))).
  all: rewrite drop_app_length; apply elem_of_app; by right.
Qed.

Lemma every_sample_is_attempted_witness :
  ∃ x, (send_media document 7 "cv-2" (Str "Two") [], x)
       ∈ new_events samples_world (run (send_sample_cvs 7 0%nat) samples_world).2.
Proof.
  apply (every_sample_is_attempted 7 0%nat samples_world).
  - exists "en". apply (list_elem_of_lookup_2 _ 0%nat). vm_compute. reflexivity.
  - apply (list_elem_of_lookup_2 _ 1%nat). reflexivity.
  - reflexivity.
Defined.

(** ** What [confirm_order] saves *)

Lemma grows_refl P w : grows P w w.
Proof. split; [done|]. split; [done|]. exists []. by rewrite app_nil_r. Qed.

Lemma grows_trans P w1 w2 w3 : grows P w1 w2 → grows P w2 w3 → grows P w1 w3.
Proof.
  intros (Hs1 & Hh1 & evs1 & Hl1 & H1) (Hs2 & Hh2 & evs2 & Hl2 & H2).
  split; [congruence|]. split; [congruence|].
  exists (evs1 ++ evs2). rewrite Hl2, Hl1, app_assoc. split; [done|].
  apply Forall_app. by split.
Qed.

Lemma for_each_grows {X : Type} P l (xs : list X) (body : X → prog unit) w :
  (∀ x w, (l < length (heap (bot w)))%nat → grows P w (run (body x) w).2) →
  (l < length (heap (bot w)))%nat → grows P w (run (for_each xs body) w).2.
Proof.
  intros Hbody. revert w. induction xs as [|x xs IH]; intros w Hl.
  - apply grows_refl.
  - rewrite run_for_each_cons. pose proof (Hbody x w Hl) as Hx.
    destruct (run (body x) w) as [[[]|e] w1]; [|done]. simpl in *.
    eapply grows_trans; [exact Hx|]. apply IH. destruct Hx as (_ & Hh & _). by rewrite Hh.
Qed.

Lemma get_set_section c v s : get_section c (set_section c v s) = v.
Proof. by destruct c. Qed.

Lemma tag_and_save_grows l u c w :
  (l < length (heap (bot w)))%nat → grows (is_tagged u) w (run (tag_and_save l u c) w).2.
Proof.
  intros Hl. unfold tag_and_save, read. rewrite run_bind, run_act. run_norm.
  rewrite with_bot_same. apply (for_each_grows _ l); [|done].
  clear w Hl. intros i w Hl. unfold modify, read.
  repeat first [ run_step | progress run_norm ].
  rewrite deref_update_eq by done. rewrite get_set_section, list_lookup_alter_eq.
  destruct (get_section c (deref l (bot w)) !! i) as [it|];
    cbn [fmap option_fmap option_map].
  - unfold log_saved.
    destruct (sliced_key c) as [key|].
    all: repeat first
           [ run_step | run_perform | progress run_norm
           | match goal with
             | |- context [match Py.get ?k ?d with _ => _ end] =>
                 destruct (Py.get k d) as [[|?]|]
             end ].
    all: split; [done|].
    all: split; [cbn [bot with_env with_bot]; apply length_heap_update|].
    all: eexists; split; [log_chain; reflexivity|].
    all: repeat constructor; unfold is_tagged; simpl; apply get_set_eq.
  - rewrite run_ret. split; [done|].
    split; [cbn [snd bot with_bot]; apply length_heap_update|].
    exists []. by rewrite app_nil_r.
Qed.

Lemma clear_collections_grow l u w :
  (l < length (heap (bot w)))%nat →
  grows (is_tagged u) w
    (run (for_each sections (λ c, call (clear_collection u (section_name c)))) w).2.
Proof.
  apply for_each_grows. clear w. intros c w _.
  repeat first [ run_step | run_perform | progress run_norm ].
  all: split; [done|]; split; [done|].
  all: eexists; split; [log_chain; reflexivity|]; by repeat constructor.
Qed.

Lemma tag_sections_grow l u w :
  (l < length (heap (bot w)))%nat →
  grows (is_tagged u) w (run (for_each sections (tag_and_save l u)) w).2.
Proof. apply for_each_grows. intros c w'. apply tag_and_save_grows. Qed.

Lemma tagged_in_order_skip ev evs :
  match ev.1 with save_item _ _ => False | _ => True end →
  tagged_in_order evs → tagged_in_order ([ev] ++ evs).
Proof.
  intros Hev H [|j] name it x; simpl.
  - intros [= ->]. done.
  - intros Hj. destruct (H j name it x Hj) as (i & cand & Hi & Hl & Ht).
    exists (S i), cand. split; [lia|]. done.
Qed.

Lemma tagged_in_order_found cand evs :
  Forall (is_tagged (uid cand)) evs → tagged_in_order ([(Candidate_save cand, None)] ++ evs).
Proof.
  intros Hall [|j] name it x; simpl; [done|].
  intros Hj. exists 0%nat, cand. split; [lia|]. split; [done|].
  rewrite Forall_forall in Hall. exact (Hall _ (list_elem_of_lookup_2 _ _ _ Hj)).
Qed.

Lemma tagged_in_order_none evs :
  Forall (λ ev : event, match ev.1 with save_item _ _ => False | _ => True end) evs →
  tagged_in_order evs.
Proof.
  intros Hall j name it x Hj. rewrite Forall_forall in Hall.
  destruct (Hall _ (list_elem_of_lookup_2 _ _ _ Hj)).
Qed.

Ltac split_events :=
  repeat match goal with
         | |- Forall _ (_ ++ _) => apply Forall_app; split
         | |- Forall _ (_ :: _) => apply Forall_cons; split
         | |- Forall _ [] => apply Forall_nil
         end.

(** The events from [w0] to [W], through the worlds that the loops have
    left. *)
Ltac events_through w0 W E :=
  eassert (new_events w0 W = _) as E
    by (unfold new_events, opened in *;
        do 3 (cbn [fst snd env bot with_env with_bot] in *; log_chain);
        rewrite <- ?app_assoc;
        first [ rewrite drop_app_length | rewrite <- (app_nil_r (log _)), drop_app_length ];
        reflexivity).

(** The paths of [confirm_order]: symbolic execution around the two loops
    over the sections, which are summarised by [grows]. *)
Ltac confirm_paths Hwf :=
  unfold confirm_order, restart_session, chat_of;
  rewrite run_bind; run_norm; run_step; run_perform;
  try (rewrite run_bind, run_open_session); run_norm;
  repeat first [ progress run_all_paths | progress run_norm ];
  cbn [uid];
  try lazymatch goal with
      | |- context [run (for_each sections
                           (λ c0, call (clear_collection ?U (section_name c0)))) ?W1] =>
          lazymatch goal with
          | |- context [tag_and_save ?l U] =>
              assert ((l < length (heap (bot W1)))%nat) as Hv1
                by (unfold opened, session_loc; cbn [bot with_env with_bot];
                    rewrite ?length_heap_update; apply (get_user_session_valid _ _ Hwf));
              pose proof (clear_collections_grow l U W1 Hv1) as Hg1;
              destruct (run (for_each sections
                               (λ c0, call (clear_collection U (section_name c0)))) W1)
                as [[[]|x1] W2];
              cbn [and_then snd] in *;
              destruct Hg1 as (Hs1 & Hh1 & evs1 & HL1 & HF1);
              try rewrite run_bind;
              try lazymatch goal with
                  | |- context [run (for_each sections (tag_and_save l U)) W2] =>
                      assert ((l < length (heap (bot W2)))%nat) as Hv2 by (by rewrite Hh1);
                      pose proof (tag_sections_grow l U W2 Hv2) as Hg2;
                      destruct (run (for_each sections (tag_and_save l U)) W2)
                        as [[[]|x2] W3];
                      destruct Hg2 as (Hs2 & Hh2 & evs2 & HL2 & HF2)
                  end;
              cbn [and_then snd] in *;
              repeat first [ progress run_all_paths | progress run_norm ]
          end
      end.

Ltac order_events :=
  repeat first
    [ apply tagged_in_order_found; split_events; try exact I; try done
    | apply tagged_in_order_skip; [exact I|]
    | apply tagged_in_order_none; split_events; exact I ].

(** X17. Every sub-document that [confirm_order] hands to the store
    carries the uid of a candidate that the same run has saved before: in the
    sequence of the calls of the run, a call that saves a sub-document comes
    after a successful save of a candidate, and the item carries the uid of
    that candidate under [candidate_uid], whatever the store and the
    transport answer. *)
Theorem saved_items_carry_candidate_uid q w :
  wf_bot (bot w) →
  ∀ j name it x,
    new_events w (run (confirm_order q) w).2 !! j = Some (save_item name it, x) →
    ∃ i cand,
      (i < j)%nat
      ∧ new_events w (run (confirm_order q) w).2 !! i = Some (Candidate_save cand, None)
      ∧ Py.get "candidate_uid" it = Some (PyStr (uid cand)).
Proof.
  intros Hwf. confirm_paths Hwf.
  all: match goal with
       | |- ∀ j name it x, new_events ?w0 ?W !! j = _ → _ =>
           let E := fresh "E" in
           events_through w0 W E; rewrite E
       end.
  all: match goal with
       | |- ∀ j name it x, ?L !! j = _ → _ => change (tagged_in_order L)
       end.
  all: order_events.
Qed.

(** Alice confirms her order: the fifteenth call of the run saves her work
    experience, and the candidate was saved before it. *)
Lemma saved_items_carry_candidate_uid_witness :
  ∃ name it i cand,
    new_events summary_shown (run (confirm_order (press "confirm_yes")) summary_shown).2
      !! 14%nat = Some (save_item name it, None)
    ∧ (i < 14)%nat
    ∧ new_events summary_shown (run (confirm_order (press "confirm_yes")) summary_shown).2
        !! i = Some (Candidate_save cand, None)
    ∧ Py.get "candidate_uid" it = Some (PyStr (uid cand)).
Proof.
  eassert (new_events summary_shown
             (run (confirm_order (press "confirm_yes")) summary_shown).2 !! 14%nat
           = Some (save_item _ _, None)) as H by (vm_compute; reflexivity).
  assert (wf_bot (bot summary_shown)) as Hwf by (apply wf_botb_sound; vm_compute; reflexivity).
  destruct (saved_items_carry_candidate_uid (press "confirm_yes") summary_shown Hwf _ _ _ _ H)
    as (i & cand & Hi & Hc & Ht).
  eexists _, _, i, cand. split; [exact H|]. split; [exact Hi|]. split; [exact Hc | exact Ht].
Defined.

Lemma session_through u w b G w' :
  wf_bot (bot w) →
  user_sessions b = user_sessions (bot (opened u 0 w)) →
  length (heap b) = length (heap (bot (opened u 0 w))) →
  bot w' = update (session_loc u w) G b →
  session_before u w' = G (deref (session_loc u w) b).
Proof.
  intros Hwf Hs Hh Hb.
  pose proof (get_user_session_valid (str (user_ident u)) _ Hwf) as Hl.
  pose proof (get_user_session_registered (str (user_ident u)) (bot w)) as Hreg.
  unfold opened in Hs, Hh. cbn [bot with_bot] in Hs, Hh. rewrite length_heap_update in Hh.
  change (user_sessions (update ?l ?f ?b0)) with (user_sessions b0) in Hs.
  unfold session_before. unfold session_loc at 1. rewrite Hb.
  rewrite (get_user_session_existing (str (user_ident u)) (session_loc u w));
    [|cbn [user_sessions update set_heap]; by rewrite Hs].
  cbn [fst]. apply deref_update_eq. unfold session_loc. by rewrite Hh.
Qed.

(** X18. [confirm_order] returns [PAYMENT] only after it has saved a new
    order for the user, in state [awaiting_payment]; the session then holds
    the id of that order, [notified] is [False] and [from_main_flow] is
    [True]. *)
Theorem confirmed_order_is_saved q w :
  wf_bot (bot w) →
  (run (confirm_order q) w).1 = Returned (Some PAYMENT) →
  ∃ o, (Order_save o, None) ∈ new_events w (run (confirm_order q) w).2
       ∧ telegramUserId o = str (user_ident (from_user q))
       ∧ status o = awaiting_payment
       ∧ order_id (session_before (from_user q) (run (confirm_order q) w).2)
         = Some (order_ident o)
       ∧ notified (session_before (from_user q) (run (confirm_order q) w).2) = Some false
       ∧ from_main_flow (session_before (from_user q) (run (confirm_order q) w).2)
         = Some true.
Proof.
  intros Hwf. confirm_paths Hwf.
  all: try (by intros [=]).
  all: intros _.
  all: lazymatch goal with
       | |- context [session_before ?u ?Wf] =>
           lazymatch goal with
           | |- context [update (session_loc u ?w0)] =>
               eassert (session_before u Wf = _) as HS
                 by (eapply (session_through u w0 (bot W3));
                     [ exact Hwf
                     | rewrite Hs2, Hs1; reflexivity
                     | rewrite Hh2, Hh1; unfold opened; cbn [bot with_env with_bot];
                       by rewrite ?length_heap_update
                     | cbn [bot with_env with_bot]; rewrite !update_update; reflexivity ]);
               rewrite HS; clear HS
           end
       end.
  all: match goal with
       | |- ∃ o, _ ∈ new_events ?w0 ?W ∧ _ =>
           let E := fresh "E" in
           events_through w0 W E; rewrite E; clear E
       end.
  all: eexists; split;
    [ repeat first [ apply list_elem_of_here | apply list_elem_of_further
                   | apply elem_of_app; right ]
    | repeat split; reflexivity ].
Qed.

Lemma confirmed_order_is_saved_witness :
  ∃ o, status o = awaiting_payment
       ∧ order_id (session_before alice
                     (run (confirm_order (press "confirm_yes")) summary_shown).2)
         = Some (order_ident o).
Proof.
  assert (wf_bot (bot summary_shown)) as Hwf by (apply wf_botb_sound; vm_compute; reflexivity).
  destruct (confirmed_order_is_saved (press "confirm_yes") summary_shown Hwf)
    as (o & _ & _ & Hst & Ho & _); [vm_compute; reflexivity|].
  exists o. split; [exact Hst | exact Ho].
Defined.

(** ** A press on a decision button *)

Lemma split_button_token a z order :
  Forall (λ c, c ≠ "_"%char) (String.list_ascii_of_string a) →
  Py.split "_" (Some 2%nat) (a +:+ "_" +:+ str z +:+ "_" +:+ order) = [a; str z; order].
Proof.
  intros Ha. unfold Py.split.
  rewrite split_aux_piece by done. rewrite split_aux_piece by apply str_free.
  by rewrite split_aux_exhausted.
Qed.

(** X19. A press on one of the two buttons that carry the id of a user
    and an order id looks up that order and no other, and every message that
    the handler sends goes to the chat recorded in the session of that
    user. *)
Theorem decision_reaches_submitter (u : User) (order action : string) (q : CallbackQuery)
    (w : World) :
  action ∈ ["approve"; "reject"] →
  data q = action +:+ "_" +:+ str (user_ident u) +:+ "_" +:+ order →
  ∀ r x,
    (r, x) ∈ new_events w (run (handle_admin_response q) w).2 →
    match r with
    | send_message chat _ _ => chat_id (session_before u w) = Some chat
    | Order_get_by_id o => o = order
    | _ => True
    end.
Proof.
  intros Ha Hd.
  cut (Forall (λ ev : event,
                 match ev.1 with
                 | send_message chat _ _ => chat_id (session_before u w) = Some chat
                 | Order_get_by_id o => o = order
                 | _ => True
                 end) (new_events w (run (handle_admin_response q) w).2)).
  { intros H r x Hin. rewrite Forall_forall in H. exact (H _ Hin). }
  unfold handle_admin_response. rewrite Hd.
  rewrite split_button_token
    by (repeat (apply elem_of_cons in Ha as [->|Ha]); [| |by apply elem_of_nil in Ha];
        repeat constructor; done).
  cbv iota.
  repeat (apply elem_of_cons in Ha as [->|Ha]); [| |by apply elem_of_nil in Ha].
  all: change (eqs "approve" "approve") with true; change (eqs "reject" "approve") with false;
    change (eqs "reject" "reject") with true; cbv iota.
  all: repeat first [ progress run_all_paths | progress run_norm | exn_branch ].
  all: match goal with
       | |- Forall _ (new_events ?w0 ?W) =>
           let E := fresh "E" in events_of w0 W E; rewrite E; clear E
       end.
  all: split_events; cbn [fst]; try exact I; try reflexivity.
  all: match goal with
       | H : chat_id _ = Some _ |- _ => rewrite deref_get_user_session in H; exact H
       end.
Qed.

Lemma decision_reaches_submitter_witness : chat_id (session_before alice evidence_world) = Some 7.
Proof.
  eassert ((send_message 7 _ _, _)
             ∈ new_events evidence_world (run (handle_admin_response approve_press)
                                            evidence_world).2) as H
    by (apply (list_elem_of_lookup_2 _ 3%nat); vm_compute; reflexivity).
  refine (decision_reaches_submitter alice "uuid-1" "approve" approve_press evidence_world
            _ eq_refl _ _ H).
  apply list_elem_of_here.
Defined.


(** ** The first two steps of a conversation *)

Lemma update_same l b : update l (λ s, s) b = b.
Proof.
  unfold update, set_heap. destruct b as [c us h uc]. simpl. f_equal.
  by apply list_alter_id.
Qed.

(** The session of [u] after a run whose steps on it are updates of its
    own object. *)
Ltac session_after_updates Hwf :=
  lazymatch goal with
  | |- context [session_before ?u ?W] =>
      lazymatch goal with
      | |- context [opened u ?chat ?w0] =>
          let HB := fresh "HB" in
          let HS := fresh "HS" in
          eassert (bot W = update (session_loc u w0) _ (bot (opened u chat w0))) as HB
            by (cbn [bot with_env with_bot]; rewrite ?update_update;
                first [ reflexivity | symmetry; apply update_same ]);
          destruct (after_update u chat _ w0 W Hwf HB) as (_ & _ & HS);
          rewrite HS; clear HS HB
      end
  end.

(** X20. [/start] keeps the session of the user: it records the chat and
    changes nothing else, so what the wizard has collected survives a second
    [/start], whether or not the reply is delivered. *)
Theorem start_keeps_session (u : User) (chat : Z) (w : World) :
  wf_bot (bot w) →
  session_before u (run (start u chat) w).2 = set_chat_id (Some chat) (session_before u w).
Proof.
  intros Hwf. unfold start. rewrite run_bind, run_open_session. run_norm.
  run_all_paths;
    match goal with
       | |- session_before u ?W = _ =>
           destruct (after_update u chat (λ s, s) w W Hwf) as (_ & _ & HS);
             [cbn [bot with_env with_bot]; by rewrite update_same | exact HS]
       end.
Qed.

Lemma start_keeps_session_witness :
  current_field (session_before alice (run (start alice 7) wizard_started).2)
  = Some "firstName".
Proof.
  assert (wf_bot (bot wizard_started)) as Hwf
    by (apply wf_botb_sound; vm_compute; reflexivity).
  rewrite (start_keeps_session alice 7 wizard_started Hwf). reflexivity.
Defined.

(** X21. Once the button press is acknowledged, [select_language] stores
    the chosen language in the session, whether or not the store lookup and
    the edit of the menu succeed afterwards; what the wizard has collected is
    kept. *)
Theorem language_choice_is_stored (q : CallbackQuery) (w : World) (lang : string) :
  wf_bot (bot w) →
  lang ∈ ["en"; "am"] →
  data q = "lang_" +:+ lang →
  head (new_events w (run (select_language q) w).2) = Some (answer_query, None) →
  let s := session_before (from_user q) w in
  let s' := session_before (from_user q) (run (select_language q) w).2 in
  language s' = lang
  ∧ candidate_data s' = candidate_data s
  ∧ current_field s' = current_field s
  ∧ ∀ c, get_section c s' = get_section c s.
Proof.
  intros Hwf Hl Hd. cbv zeta. unfold select_language. rewrite Hd.
  rewrite run_bind. run_norm. run_step. run_perform.
  { intros Hh. exfalso. revert Hh.
    match goal with
    | |- head (new_events ?w0 ?W) = _ → _ =>
        let E := fresh "E" in events_of w0 W E; rewrite E; discriminate
    end. }
  intros _. rewrite run_bind, run_open_session. run_norm.
  repeat (apply elem_of_cons in Hl as [->|Hl]); [| |by apply elem_of_nil in Hl].
  all: match goal with
       | |- context [Py.split ?a ?b ?c] =>
           let t := eval vm_compute in (Py.split a b c) in
           change (Py.split a b c) with t
       end; cbv iota.
  all: run_all_paths.
  all: session_after_updates Hwf; repeat split; try reflexivity; by intros [].
Qed.

Lemma language_choice_is_stored_witness :
  language (session_before alice
              (run (select_language (press "lang_am")) (run (start alice 7) example_world).2).2)
  = "am".
Proof.
  refine (proj1 (language_choice_is_stored (press "lang_am")
                   (run (start alice 7) example_world).2 "am" _ _ eq_refl _)).
  - apply wf_botb_sound. vm_compute. reflexivity.
  - apply list_elem_of_further, list_elem_of_here.
  - vm_compute. reflexivity.
Defined.


(** ** The outcomes of the payment handlers *)

(** X22. [/payment_retry] and [/payment] end in one of two ways: with
    [END], and the order, [notified] and [from_main_flow] of the session as
    they were, or with [PAYMENT], an order attached, [notified] reset to
    [False] and [from_main_flow] set to [False]. *)
Theorem payment_command_outcome (cmd : User → Z → prog (option state)) (u : User) (chat : Z)
    (w : World) :
  cmd = payment_retry_command ∨ cmd = handle_payment_command →
  wf_bot (bot w) →
  let s := session_before u w in
  let s' := session_before u (run (cmd u chat) w).2 in
  match (run (cmd u chat) w).1 with
  | Returned (Some END) =>
      order_id s' = order_id s ∧ notified s' = notified s
      ∧ from_main_flow s' = from_main_flow s
  | Returned (Some PAYMENT) =>
      order_id s' ≠ None ∧ notified s' = Some false ∧ from_main_flow s' = Some false
  | Returned _ => False
  | Raised _ => True
  end.
Proof.
  intros [-> | ->] Hwf; cbv zeta.
  all: unfold payment_retry_command, handle_payment_command, get_rejected_order_for_user.
  all: rewrite run_bind, run_open_session; run_norm.
  all: repeat first [ progress run_all_paths | progress run_norm ].
  all: cbn [fst snd]; try exact I.
  all: session_after_updates Hwf; repeat split; try reflexivity; done.
Qed.

Lemma payment_command_outcome_witness :
  notified (session_before alice (run (handle_payment_command alice 7) rejected_world).2)
  = Some false.
Proof.
  assert (wf_bot (bot rejected_world)) as Hwf
    by (apply wf_botb_sound; vm_compute; reflexivity).
  pose proof (payment_command_outcome handle_payment_command alice 7 rejected_world
                (or_intror eq_refl) Hwf) as H.
  cbv zeta in H.
  assert ((run (handle_payment_command alice 7) rejected_world).1 = Returned (Some PAYMENT))
    as Hr by (vm_compute; reflexivity).
  rewrite Hr in H. exact (proj1 (proj2 H)).
Defined.

Lemma perform_get_order ident e a e' :
  perform (Order_get_by_id ident) e = (inr a, e') → a = Py.get ident (orders e).
Proof.
  unfold perform. destruct (if is_local _ then None else faults e (log e) _); [discriminate|].
  simpl. by intros [= <- _].
Qed.

Lemma perform_save_order o e a e' :
  perform (Order_save o) e = (inr a, e') → Py.get (order_ident o) (orders e') = Some o.
Proof.
  unfold perform. destruct (if is_local _ then None else faults e (log e) _); [discriminate|].
  simpl. intros [= _ <-]. simpl. apply get_set_eq.
Qed.

Lemma order_id_opened u chat w :
  order_id (deref (session_loc u w) (bot (opened u chat w))) = order_id (session_before u w).
Proof.
  unfold opened, session_before. cbn [bot with_bot].
  rewrite order_id_update by done. unfold session_loc. by rewrite deref_get_user_session.
Qed.

(** X23. [handle_payment_screenshot] ends the conversation ([END]) only
    after the upload has been delivered to the private channel and the order
    of the user has been saved: the session of the user holds the id of an
    order, the store holds an order under that id, and among the calls of the
    run, in this order, the upload is sent to the channel, the order is read
    under the id of the session, and it is saved as [pending_verification]
    with the path of the uploaded file as its screenshot URL; when the
    handler returns, the store holds the order so saved. *)
Theorem payment_is_acknowledged_after_saving (m : Message) (w : World) :
  (run (handle_payment_screenshot m) w).1 = Returned (Some END) →
  ∃ f ident o kind caption buttons,
    uploaded_file m = Some f
    ∧ order_id (session_before (from m) w) = Some ident
    ∧ Py.get ident (orders (env w)) = Some o
    ∧ sublist
        [(send_media kind (private_channel_id (config (bot w))) (file_id f) caption buttons,
          None);
         (Order_get_by_id ident, None);
         (Order_save
            (update_status pending_verification
               "Payment screenshot submitted, awaiting admin verification"
               (set_paymentScreenshotUrl (Some (file_path f)) o)), None)]
        (new_events w (run (handle_payment_screenshot m) w).2)
    ∧ Py.get (order_ident o) (orders (env (run (handle_payment_screenshot m) w).2))
      = Some (update_status pending_verification
                "Payment screenshot submitted, awaiting admin verification"
                (set_paymentScreenshotUrl (Some (file_path f)) o)).
Proof.
  unfold handle_payment_screenshot. rewrite run_bind, run_open_session. run_norm.
  run_all_paths.
  all: cbn [fst]; try (by intros [=]).
  all: intros _.
  all: match goal with
       | H : perform (Order_get_by_id _) _ = (inr (Some _), _) |- _ =>
           pose proof (perform_get_order _ _ _ _ H) as Hget
       end.
  all: match goal with
       | H : perform (Order_save _) _ = (inr _, _) |- _ =>
           pose proof (perform_save_order _ _ _ _ H) as Hsave;
           cbn [order_ident update_status with_status set_paymentScreenshotUrl] in Hsave
       end.
  all: repeat match goal with
         | H : perform ?r ?e = (_, ?e') |- _ =>
             lazymatch goal with
             | _ : orders e' = orders e |- _ => fail
             | _ => idtac
             end;
             let Ho := fresh "Ho" in
             assert (orders e' = orders e) as Ho
               by (pose proof (perform_orders r e eq_refl) as Ho'; rewrite H in Ho'; exact Ho')
         end.
  all: match goal with
       | |- context [new_events ?w0 ?W] =>
           let E := fresh "E" in events_of w0 W E; rewrite E; clear E
       end.
  all: unfold uploaded_file.
  all: repeat match goal with
         | H : perform (get_file _) _ = (inr _, _) |- _ => apply perform_get_file in H; subst
         | H : last (photos _) = _ |- _ => rewrite H
         | H : doc _ = _ |- _ => rewrite H
         end.
  all: match goal with
       | H : Some ?o = Py.get _ _ |- _ => eexists _, _, o, _, _, _
       end.
  all: split; [reflexivity|].
  all: split;
    [ rewrite <- (order_id_opened _ (chat_ident_of m));
      repeat match goal with
             | H : order_id _ = Some _ |- _ =>
                 rewrite ?order_id_update in H by done; exact H
             end
    |].
  all: split; [unfold opened in *; cbn [env with_bot] in *; congruence|].
  all: split; [|cbn [env with_env]; congruence].
  all: cbn [config update set_heap]; rewrite ?config_get_user_session; cbn [app].
  all: repeat first [ apply sublist_skip | apply sublist_cons | apply sublist_nil ].
Qed.

(** Alice's screenshot: the order of her session is the one that is saved. *)
Lemma payment_is_acknowledged_after_saving_witness :
  ∃ f ident o,
    uploaded_file screenshot = Some f
    ∧ order_id (session_before alice (run_all until_confirmed example_world).2) = Some ident
    ∧ Py.get ident (orders (env (run_all until_confirmed example_world).2)) = Some o
    ∧ Py.get (order_ident o)
        (orders (env (run (handle_payment_screenshot screenshot)
                        (run_all until_confirmed example_world).2).2))
      = Some (update_status pending_verification
                "Payment screenshot submitted, awaiting admin verification"
                (set_paymentScreenshotUrl (Some (file_path f)) o)).
Proof.
  destruct (payment_is_acknowledged_after_saving screenshot
              (run_all until_confirmed example_world).2)
    as (f & ident & o & _ & _ & _ & Hf & Hi & Ho & _ & Hs); [vm_compute; reflexivity|].
  exists f, ident, o. split; [exact Hf|]. split; [exact Hi|]. split; [exact Ho | exact Hs].
Defined.
